(** * parseStatements: categorisation, date normalisation and ledger
    deduplication of [src/parseStatements.py], embedded in Rocq.

  The Python program reads three transaction exports, cleans and
  categorises every row, and appends the rows that are not yet in the
  destination workbook.  This file embeds the pure parts of the program
  as functions and the workbook updates as explicit state passing, and
  proves or refutes the properties that the specification states. *)

From Stdlib Require Import Strings.String Strings.Ascii QArith Qcanon Qcabs ZArith Lia Sorting.Sorted.
From stdpp Require Import base option list gmap sets strings.

Local Open Scope string_scope.
Set Warnings "-clear-no-such-hyp".

(** ** Python text operations *)

Module PyStr.

(** [s.startswith(p)]. *)
Fixpoint startswith (p s : string) : bool :=
  match p, s with
  | EmptyString, _ => true
  | String _ _, EmptyString => false
  | String a p', String b s' => if Ascii.eqb a b then startswith p' s' else false
  end.

(** [p in s] for two texts: [p] occurs in [s] as a contiguous run. *)
Fixpoint contains (p s : string) : bool :=
  startswith p s ||
  match s with
  | EmptyString => false
  | String _ s' => contains p s'
  end.

(** [s.replace(old, new)] for a non-empty [old]: every occurrence of
    [old], found from left to right without overlap, becomes [new].
    [skip] counts the characters of the occurrence just replaced that
    are still to be dropped. *)
Fixpoint replace_from (old new : string) (skip : nat) (s : string) : string :=
  match s with
  | EmptyString => EmptyString
  | String c s' =>
      match skip with
      | S k => replace_from old new k s'
      | O =>
          if startswith old s
          then new +:+ replace_from old new (String.length old - 1) s'
          else String c (replace_from old new 0 s')
      end
  end.

Definition replace (old new s : string) : string := replace_from old new 0 s.

(** Truth value of a text: only the empty text is false. *)
Definition truthy (s : string) : bool :=
  match s with EmptyString => false | String _ _ => true end.

End PyStr.

(** ** The two categorisers *)

Module Categorizer.
Import PyStr.

(** A row of [bank_categories]:
    [(search_term, cleaned_name, category, sub_category)], where
    [cleaned_name] may be [None]. *)
Definition bank_rule : Type := string * option string * string * string.

Definition bank_categories : list bank_rule :=
  [ ("Distalmotion", None, "Salary", "");
    ("Duol", None, "Chant Cred", "Duol");
    ("INSTITUT LE CHATELARD", None, "Chant Cred", "Chatelard");
    ("Leni", None, "Kids Deb", "");
    ("Assura-Basis", None, "Health", "");
    ("Etat de Vaud Impôts", None, "Impot", "");
    ("Swisscom ", None, "Media", "");
    ("Sunrise", None, "Media", "");
    ("Salt", None, "Media", "");
    ("Koloristika", None, "Chant", "");
    ("Planchamp, Xavier", None, "Rent", "");
    ("Baptiste Dujardin", None, "Food", "");
    ("Caisse de pensions de", Some "Parking", "Car", "");
    ("PPE LE CAMPUS", None, "Home Crosets", "");
    ("Romande Energie SA", None, "Home", "");
    ("Energiapro SA", None, "Home", "");
    ("PPE SUNDANCE", None, "Home Crosets", "");
    ("Caisse AVS de la Feder", None, "Alloc", "") ].

(** The three guarded [replace] calls that remove the bank's prefixes. *)
Definition strip_prefix (prefix operation_str : string) : string :=
  if contains prefix operation_str then replace prefix "" operation_str
  else operation_str.

Definition clean_prefixes (operation_str : string) : string :=
  strip_prefix "VIR TWINT "
    (strip_prefix "VIRT BANC "
       (strip_prefix "BCV-NET " operation_str)).

(** What one matching rule returns:
    [cleaned_name if cleaned_name else operation_str]. *)
Definition apply_bank_rule (r : bank_rule) (operation_str : string)
  : string * string * string :=
  let '(_, cleaned_name, category, sub_category) := r in
  let final_name :=
    match cleaned_name with
    | Some n => if truthy n then n else operation_str
    | None => operation_str
    end in
  (final_name, category, sub_category).

Definition bank_rule_matches (r : bank_rule) (operation_str : string) : bool :=
  let '(search_term, _, _, _) := r in contains search_term operation_str.

(** The [for ... in bank_categories] loop with its early [return], and
    the fall-through [return operation_str, "", ""]. *)
Fixpoint scan_bank_rules (rules : list bank_rule) (operation_str : string)
  : string * string * string :=
  match rules with
  | [] => (operation_str, "", "")
  | r :: rest =>
      if bank_rule_matches r operation_str
      then apply_bank_rule r operation_str
      else scan_bank_rules rest operation_str
  end.

(** [operation] is [None] for a null or NaN cell ([pd.isna]), and the
    text [str(operation)] otherwise. *)
Definition clean_bank_operation_with (rules : list bank_rule)
    (operation : option string) : string * string * string :=
  match operation with
  | None => ("", "", "")
  | Some operation_str => scan_bank_rules rules (clean_prefixes operation_str)
  end.

Definition clean_bank_operation_and_categorize :=
  clean_bank_operation_with bank_categories.

(** A row of [merchant_categories]:
    [(search_term, cleaned_name, category)]. *)
Definition merchant_rule : Type := string * string * string.

Definition merchant_categories : list merchant_rule :=
  [ ("Migros", "Migros", "Food");
    ("Aldi", "Aldi", "Food");
    ("Denner", "Denner", "Food");
    ("LAUSANNE10", "LAUSANNE10", "Food");
    ("Manor", "Manor", "Food");
    ("Coop", "Coop", "Food");
    ("Jumbo", "Jumbo", "Home");
    ("L'Instant Chocolat", "L'Instant Chocolat", "Food");
    ("APPLE.COM", "APPLE.COM", "Media");
    ("THE NEW YORK TIMES", "THE NEW YORK TIMES", "Media");
    ("THE ATHLETIC", "THE ATHLETIC", "Media");
    ("Tesla", "Tesla", "Car");
    ("Prime Video", "Prime Video", "Media");
    ("Sun Store", "Pharmacie-Sunstore", "Health");
    ("Pharmacie-Sunstore", "Pharmacie-Sunstore", "Health");
    ("Droguerie Jaquet", "Droguerie Jaquet", "Health");
    ("Sakura Sushi", "Sakura Sushi", "Food");
    ("Boutique Ravann", "Boutique Ravann", "Food");
    ("SBB CFF", "SBB CFF", "Transport");
    ("Brezelkönig", "Brezelkönig", "Food");
    ("Zalando", "Zalando", "Clothing");
    ("BestDrive", "BestDrive", "Car");
    ("KymeM Cafe", "KymeM Cafe", "Restaurant");
    ("Pizzeria Vecchia", "Pizzeria Vecchia Napoli", "Restaurant");
    ("NETFLIX.COM", "NETFLIX.COM", "Media");
    ("Netflix.com", "NETFLIX.COM", "Media");
    ("Salt", "Salt Mobile SA", "Media");
    ("salt.ch", "Salt Mobile SA", "Media");
    ("Patreon", "Patreon", "Media");
    ("Association Golf de La Puidoux", "Association Golf de La Puidoux", "Hobby");
    ("Exotic Food Center", "Exotic Food Center", "Food");
    ("Aux Merveilleux", "Aux Merveilleux", "Food");
    ("Appunto Rest.", "Appunto Rest.", "Food");
    ("QoQa Services SA", "QoQa", "?");
    ("DAZN", "DAZN", "Media");
    ("URUMQI", "URUMQI", "Food");
    ("La Cavagne", "La Cavagne", "Food") ].

Definition apply_merchant_rule (r : merchant_rule) : string * string :=
  let '(_, cleaned_name, category) := r in (cleaned_name, category).

Definition merchant_rule_matches (r : merchant_rule) (merchant_str : string) : bool :=
  let '(search_term, _, _) := r in contains search_term merchant_str.

Fixpoint scan_merchant_rules (rules : list merchant_rule) (merchant_str : string)
  : string * string :=
  match rules with
  | [] => (merchant_str, "")
  | r :: rest =>
      if merchant_rule_matches r merchant_str
      then apply_merchant_rule r
      else scan_merchant_rules rest merchant_str
  end.

Definition clean_merchant_with (rules : list merchant_rule)
    (merchant : option string) : string * string :=
  match merchant with
  | None => ("", "")
  | Some merchant_str => scan_merchant_rules rules merchant_str
  end.

Definition clean_merchant_and_categorize :=
  clean_merchant_with merchant_categories.

End Categorizer.

(** ** Dates and times *)

Module Datetime.
Local Open Scope nat_scope.

(** A naive [datetime.datetime], to the second. *)
Record datetime : Type := mk_datetime {
  year : nat; month : nat; day : nat;
  hour : nat; minute : nat; second : nat }.

#[global] Instance datetime_eq_dec : EqDecision datetime.
Proof. solve_decision. Defined.

Definition is_leap (y : nat) : bool :=
  (y mod 4 =? 0) && (negb (y mod 100 =? 0) || (y mod 400 =? 0)).

Definition days_in_month (y m : nat) : nat :=
  match m with
  | 1 | 3 | 5 | 7 | 8 | 10 | 12 => 31
  | 4 | 6 | 9 | 11 => 30
  | 2 => if is_leap y then 29 else 28
  | _ => 0
  end.

(** The arguments that the [datetime] constructor accepts; anything else
    raises [ValueError]. *)
Definition valid (dt : datetime) : bool :=
  (1 <=? year dt) && (year dt <? 100 * 100) &&
  (1 <=? month dt) && (month dt <=? 12) &&
  (1 <=? day dt) && (day dt <=? days_in_month (year dt) (month dt)) &&
  (hour dt <=? 23) && (minute dt <=? 59) && (second dt <=? 59).

(** A calendar date: a [datetime] at midnight. *)
Definition of_date (y m d : nat) : datetime := mk_datetime y m d 0 0 0.

Definition is_midnight (dt : datetime) : bool :=
  (hour dt =? 0) && (minute dt =? 0) && (second dt =? 0).

(** Two datetimes with the same time of day. *)
Definition same_time (a b : datetime) : Prop :=
  hour a = hour b ∧ minute a = minute b ∧ second a = second b.

(** Comparison of two datetimes: field by field, most significant first. *)
Definition fields (dt : datetime) : list nat :=
  [year dt; month dt; day dt; hour dt; minute dt; second dt].

Fixpoint lex_compare (a b : list nat) : comparison :=
  match a, b with
  | [], [] => Eq
  | [], _ :: _ => Lt
  | _ :: _, [] => Gt
  | x :: a', y :: b' =>
      match x ?= y with
      | Eq => lex_compare a' b'
      | c => c
      end
  end.

Definition compare (a b : datetime) : comparison := lex_compare (fields a) (fields b).

(** [a < b] and [a > b] on datetimes. *)
Definition ltb (a b : datetime) : bool :=
  match compare a b with Lt => true | _ => false end.
Definition gtb (a b : datetime) : bool := ltb b a.

(** [min(dates)] on a non-empty list: the first of the smallest elements;
    [None] stands for the empty list, which the program never passes. *)
Fixpoint min_date (dates : list datetime) : option datetime :=
  match dates with
  | [] => None
  | d :: rest =>
      match min_date rest with
      | None => Some d
      | Some m => Some (if ltb m d then m else d)
      end
  end.

(** *** Formatting *)

Definition digit_char (n : nat) : ascii :=
  match n with
  | 0 => "0" | 1 => "1" | 2 => "2" | 3 => "3" | 4 => "4"
  | 5 => "5" | 6 => "6" | 7 => "7" | 8 => "8" | _ => "9"
  end%char.

(** Two and four decimal digits, zero padded, prepended to [rest]. *)
Definition pad2 (n : nat) (rest : string) : string :=
  String (digit_char (n / 10 mod 10)) (String (digit_char (n mod 10)) rest).

Definition pad4 (n : nat) (rest : string) : string :=
  String (digit_char (n / 1000 mod 10))
    (String (digit_char (n / 100 mod 10)) (pad2 n rest)).

(** [%Y] of [strftime] (glibc): the year without padding, which is four
    digits from the year 1000 on. *)
Definition year_digits (y : nat) (rest : string) : string :=
  if y <? 10 then String (digit_char y) rest
  else if y <? 100 then pad2 y rest
  else if y <? 1000 then String (digit_char (y / 100 mod 10)) (pad2 y rest)
  else pad4 y rest.

(** [dt.strftime("%Y-%m-%d")]. *)
Definition strftime_Ymd (dt : datetime) : string :=
  year_digits (year dt) (String "-" (pad2 (month dt) (String "-" (pad2 (day dt) "")))).

(** [dt.strftime("%d.%m.%Y")]. *)
Definition strftime_dmY_dot (dt : datetime) : string :=
  pad2 (day dt) (String "." (pad2 (month dt) (String "." (year_digits (year dt) "")))).

(** [str(dt)]: ["%Y-%m-%d %H:%M:%S"]. *)
Definition str (dt : datetime) : string :=
  pad4 (year dt) (String "-" (pad2 (month dt) (String "-" (pad2 (day dt)
    (String " " (pad2 (hour dt) (String ":" (pad2 (minute dt)
      (String ":" (pad2 (second dt) "")))))))))).

(** *** Parsing: [datetime.strptime]

    [strptime] turns the format into a regular expression, one group per
    directive, and takes the first match that the backtracking matcher
    finds.  A group is a list of alternatives tried in order, each
    alternative a fixed run of character classes.  Texts are byte
    strings here: the classes [\d] and [\s] are their ASCII parts. *)

Definition is_digit (c : ascii) : bool :=
  let n := nat_of_ascii c in (48 <=? n) && (n <=? 57).

Definition digit_val (c : ascii) : nat := nat_of_ascii c - 48.

Definition in_range (lo hi : ascii) (c : ascii) : bool :=
  let n := nat_of_ascii c in (nat_of_ascii lo <=? n) && (n <=? nat_of_ascii hi).

Definition is_char (a : ascii) (c : ascii) : bool := Ascii.eqb a c.

(** [\s] and [str.isspace]: blank, tab to carriage return, and the four
    separators 28 to 31. *)
Definition is_space (c : ascii) : bool :=
  let n := nat_of_ascii c in
  (n =? 32) || ((9 <=? n) && (n <=? 13)) || ((28 <=? n) && (n <=? 31)).

(** One alternative: the classes must accept the next characters one by
    one; the digits read so far are accumulated as the group's [int]
    value (a leading blank counts for nothing, as in [int(" 5")]). *)
Fixpoint match_seq (classes : list (ascii → bool)) (acc : nat) (s : string)
  : option (nat * string) :=
  match classes with
  | [] => Some (acc, s)
  | p :: classes' =>
      match s with
      | EmptyString => None
      | String c s' =>
          if p c
          then match_seq classes' (if is_digit c then 10 * acc + digit_val c else acc) s'
          else None
      end
  end.

(** A group: every alternative that matches, in the order tried. *)
Definition match_alts (alts : list (list (ascii → bool))) (s : string)
  : list (nat * string) :=
  omap (λ classes, match_seq classes 0 s) alts.

Inductive directive : Type :=
| Dir_d | Dir_m | Dir_Y | Dir_H | Dir_M | Dir_S
| Lit (c : ascii)
| Blank.

(** The groups of [_strptime.TimeRE]. *)
Definition regex_d : list (list (ascii → bool)) :=
  [ [is_char "3"; in_range "0" "1"];
    [in_range "1" "2"; is_digit];
    [is_char "0"; in_range "1" "9"];
    [in_range "1" "9"];
    [is_char " "; in_range "1" "9"] ]%char.

Definition regex_m : list (list (ascii → bool)) :=
  [ [is_char "1"; in_range "0" "2"];
    [is_char "0"; in_range "1" "9"];
    [in_range "1" "9"] ]%char.

Definition regex_Y : list (list (ascii → bool)) :=
  [ [is_digit; is_digit; is_digit; is_digit] ].

Definition regex_H : list (list (ascii → bool)) :=
  [ [is_char "2"; in_range "0" "3"];
    [in_range "0" "1"; is_digit];
    [is_digit] ]%char.

Definition regex_M : list (list (ascii → bool)) :=
  [ [in_range "0" "5"; is_digit]; [is_digit] ]%char.

Definition regex_S : list (list (ascii → bool)) :=
  [ [is_char "6"; in_range "0" "1"];
    [in_range "0" "5"; is_digit];
    [is_digit] ]%char.

(** [\s+], greedy: what is left after one or more blanks, the longest run
    first. *)
Fixpoint match_blanks (s : string) : list string :=
  match s with
  | EmptyString => []
  | String c s' => if is_space c then match_blanks s' ++ [s'] else []
  end.

(** The fields found so far; [strptime] starts from 1900-01-01 00:00:00. *)
Definition strptime_default : datetime := mk_datetime 1900 1 1 0 0 0.

Definition match_directive (d : directive) (acc : datetime) (s : string)
  : list (datetime * string) :=
  match d with
  | Dir_d => (λ '(v, r), (mk_datetime (year acc) (month acc) v (hour acc) (minute acc) (second acc), r)) <$> match_alts regex_d s
  | Dir_m => (λ '(v, r), (mk_datetime (year acc) v (day acc) (hour acc) (minute acc) (second acc), r)) <$> match_alts regex_m s
  | Dir_Y => (λ '(v, r), (mk_datetime v (month acc) (day acc) (hour acc) (minute acc) (second acc), r)) <$> match_alts regex_Y s
  | Dir_H => (λ '(v, r), (mk_datetime (year acc) (month acc) (day acc) v (minute acc) (second acc), r)) <$> match_alts regex_H s
  | Dir_M => (λ '(v, r), (mk_datetime (year acc) (month acc) (day acc) (hour acc) v (second acc), r)) <$> match_alts regex_M s
  | Dir_S => (λ '(v, r), (mk_datetime (year acc) (month acc) (day acc) (hour acc) (minute acc) v, r)) <$> match_alts regex_S s
  | Lit c =>
      match s with
      | String c' s' => if Ascii.eqb c c' then [(acc, s')] else []
      | EmptyString => []
      end
  | Blank => (λ r, (acc, r)) <$> match_blanks s
  end.

(** All the ways the whole format matches a prefix of [s], in the order
    the backtracking matcher finds them. *)
Fixpoint match_format (fmt : list directive) (acc : datetime) (s : string)
  : list (datetime * string) :=
  match fmt with
  | [] => [(acc, s)]
  | d :: fmt' =>
      '(acc', rest) ← match_directive d acc s; match_format fmt' acc' rest
  end.

(** [datetime.strptime(s, fmt)]; [None] is [ValueError]: no match,
    unconverted data after the first match, or fields that are no date. *)
Definition strptime (s : string) (fmt : list directive) : option datetime :=
  match match_format fmt strptime_default s with
  | [] => None
  | (dt, rest) :: _ =>
      match rest with
      | EmptyString => if valid dt then Some dt else None
      | String _ _ => None
      end
  end.

(** The formats that the program uses. *)
Definition fmt_dmY_dash : list directive := [Dir_d; Lit "-"; Dir_m; Lit "-"; Dir_Y]%char.
Definition fmt_dmY_dot : list directive := [Dir_d; Lit "."; Dir_m; Lit "."; Dir_Y]%char.
Definition fmt_Ymd : list directive := [Dir_Y; Lit "-"; Dir_m; Lit "-"; Dir_d]%char.
Definition fmt_dmY_slash : list directive := [Dir_d; Lit "/"; Dir_m; Lit "/"; Dir_Y]%char.
Definition fmt_mdY_slash : list directive := [Dir_m; Lit "/"; Dir_d; Lit "/"; Dir_Y]%char.
Definition fmt_Ymd_HMS : list directive :=
  [Dir_Y; Lit "-"; Dir_m; Lit "-"; Dir_d; Blank; Dir_H; Lit ":"; Dir_M; Lit ":"; Dir_S]%char.

End Datetime.

(** ** Python values, and the two conversions left to the runtime *)

Module Py.
Import Datetime.

(** A Python float: the decimal that it stands for, or a not-a-number.
    The program only negates floats, takes their absolute value and
    compares them, which is exact on floats.  A nan is equal to no float,
    not even to itself, but [in] and the equality of tuples look at the
    identity of two objects before they compare them: [NaN i] is the nan
    object number [i], so that the equality of [number]s is what the
    membership test of a set of tuples decides. *)
Inductive number : Type :=
| Num (q : Qc)
| NaN (i : nat).

Coercion Num : Qc >-> number.

#[global] Instance number_eq_dec : EqDecision number.
Proof. solve_decision. Defined.

#[global] Instance number_countable : Countable number :=
  inj_countable'
    (λ x, match x with Num q => inl q | NaN i => inr i end)
    (λ y, match y with inl q => Num q | inr i => NaN i end)
    (λ x, match x with Num _ => eq_refl | NaN _ => eq_refl end).

(** [-x] and [abs(x)]; the result of either on a nan is a nan. *)
Definition number_opp (x : number) : number :=
  match x with Num q => Num (- q)%Qc | NaN i => NaN i end.

Definition number_abs (x : number) : number :=
  match x with Num q => Num (Qcabs q) | NaN i => NaN i end.

(** What a spreadsheet cell or a data-frame field holds: nothing ([None]
    in a cell, a missing value in a data frame), a text, a number or a
    datetime (truth values are left out). *)
Inductive pyval : Type :=
| PNone
| PText (s : string)
| PNumber (x : number)
| PDatetime (dt : datetime).

(** [float(text)] and [str(number)] belong to the Python runtime; the
    development is parametric in them. *)
Class Runtime : Type := {
  float_of_text : string → option Qc;
  text_of_number : Qc → string }.

(** [v is None]. *)
Definition is_none (v : pyval) : bool :=
  match v with PNone => true | _ => false end.

(** [pd.isna(v)]: a missing value or a nan. *)
Definition isna (v : pyval) : bool :=
  match v with
  | PNone | PNumber (NaN _) => true
  | _ => false
  end.

(** The truth value of [v] in a condition. *)
Definition truthy (v : pyval) : bool :=
  match v with
  | PNone => false
  | PText s => PyStr.truthy s
  | PNumber x => bool_decide (x ≠ Num 0%Qc)
  | PDatetime _ => true
  end.

(** An empty cell: [None], the empty text or the number zero. *)
Definition blank (v : pyval) : Prop :=
  v = PNone ∨ v = PText "" ∨ v = PNumber (Num 0%Qc).

(** The cell [v] stands for the amount [x]: it holds the number [x], or
    it is empty and [x] is zero. *)
Definition holds_amount (v : pyval) (x : number) : Prop :=
  (x ≠ Num 0%Qc ∧ v = PNumber x) ∨ (x = Num 0%Qc ∧ blank v).

(** A cell that holds a number or nothing. *)
Definition numeric_or_absent (v : pyval) : Prop :=
  v = PNone ∨ ∃ q, v = PNumber q.

(** [v == 0]. *)
Definition is_zero (v : pyval) : bool :=
  match v with
  | PNumber x => bool_decide (x = Num 0%Qc)
  | _ => false
  end.

(** [float(v)]; [None] is [ValueError] or [TypeError].  The float of a
    float is that float itself. *)
Definition float `{Runtime} (v : pyval) : option number :=
  match v with
  | PNumber x => Some x
  | PText s => Num <$> float_of_text s
  | PNone | PDatetime _ => None
  end.

(** [float(v)] of a data-frame field: a missing value is a nan there, of
    which [float] makes a new float object, here the nan number [i]. *)
Definition float_of_field `{Runtime} (i : nat) (v : pyval) : option number :=
  if isna v then Some (NaN i) else float v.

(** [str(v)].  A missing value prints as ["None"] in a cell and as
    ["nan"] in a data frame; the program never looks at that text beyond
    finding no date and no ["Credit"] in it. *)
Definition str `{Runtime} (v : pyval) : string :=
  match v with
  | PNone => "None"
  | PText s => s
  | PNumber (Num q) => text_of_number q
  | PNumber (NaN _) => "nan"
  | PDatetime dt => Datetime.str dt
  end.

(** The argument that the categorisers see: [None] when [pd.isna] holds,
    the text [str(v)] otherwise. *)
Definition text_or_na `{Runtime} (v : pyval) : option string :=
  if isna v then None else Some (str v).

(** [s.strip()].  Texts are UTF-8 byte strings, and [strip] removes the
    characters that [str.isspace] accepts: the ASCII blanks of
    [is_space], U+0085 and U+00A0 (two bytes), and U+1680, U+2000 to
    U+200A, U+2028, U+2029, U+202F, U+205F and U+3000 (three bytes). *)
Definition is_space2 (c d : ascii) : bool :=
  let c := nat_of_ascii c in
  let d := nat_of_ascii d in
  Nat.eqb c 194 && (Nat.eqb d 133 || Nat.eqb d 160).

Definition is_space3 (c d e : ascii) : bool :=
  let c := nat_of_ascii c in
  let d := nat_of_ascii d in
  let e := nat_of_ascii e in
  (Nat.eqb c 225 && Nat.eqb d 154 && Nat.eqb e 128)
  || (Nat.eqb c 226 && Nat.eqb d 128
      && ((Nat.leb 128 e && Nat.leb e 138)
          || Nat.eqb e 168 || Nat.eqb e 169 || Nat.eqb e 175))
  || (Nat.eqb c 226 && Nat.eqb d 129 && Nat.eqb e 159)
  || (Nat.eqb c 227 && Nat.eqb d 128 && Nat.eqb e 128).

Fixpoint lstrip (s : string) : string :=
  match s with
  | EmptyString => EmptyString
  | String c s1 =>
      if is_space c then lstrip s1 else
      match s1 with
      | EmptyString => s
      | String d s2 =>
          if is_space2 c d then lstrip s2 else
          match s2 with
          | EmptyString => s
          | String e s3 => if is_space3 c d e then lstrip s3 else s
          end
      end
  end.

(** A text of blanks only ([s.isspace()], or the empty text). *)
Definition blank_text (s : string) : bool :=
  match lstrip s with
  | EmptyString => true
  | String _ _ => false
  end.

(** [rstrip] cuts the text at the point after which only blanks follow. *)
Fixpoint rstrip (s : string) : string :=
  match s with
  | EmptyString => EmptyString
  | String c s' => if blank_text s then EmptyString else String c (rstrip s')
  end.

Definition strip (s : string) : string := rstrip (lstrip s).

(** The parsing attempts of [parse_date] on the stripped text, in the
    order of the source: the first format that parses wins. *)
Definition parse_date_formats : list (list directive) :=
  [fmt_dmY_dash; fmt_dmY_dot; fmt_Ymd; fmt_dmY_slash; fmt_mdY_slash].

Fixpoint try_formats (date_str : string) (fmts : list (list directive))
  : option datetime :=
  match fmts with
  | [] => None
  | fmt :: rest =>
      match strptime date_str fmt with
      | Some dt => Some dt
      | None => try_formats date_str rest
      end
  end.

Definition parse_date_text (date_str : string) : option datetime :=
  try_formats (strip date_str) parse_date_formats.

(** [parse_date(date_str)]. *)
Definition parse_date `{Runtime} (date_str : pyval) : option datetime :=
  match date_str with
  | PDatetime dt => Some dt
  | v => parse_date_text (str v)
  end.

End Py.

(** ** Worksheets *)

Module Sheet.
Import Py.
Local Open Scope nat_scope.

Inductive column : Type := ColA | ColB | ColC | ColD | ColE | ColF.

#[global] Instance column_eq_dec : EqDecision column.
Proof. solve_decision. Defined.

Definition column_index (c : column) : nat :=
  match c with
  | ColA => 0 | ColB => 1 | ColC => 2 | ColD => 3 | ColE => 4 | ColF => 5
  end.

Definition column_of_index (n : nat) : column :=
  match n with
  | 0 => ColA | 1 => ColB | 2 => ColC | 3 => ColD | 4 => ColE | _ => ColF
  end.

#[global] Instance column_countable : Countable column.
Proof.
  refine (inj_countable' column_index column_of_index _).
  intros c; destruct c; reflexivity.
Defined.

(** A cell: its value and whether its font is bold. *)
Record cell : Type := mk_cell { value : pyval; bold : bool }.

(** A worksheet is the dictionary of its cells, keyed by (row, column);
    rows count from 1. *)
Abbreviation worksheet := (gmap (nat * column) cell).

(** A workbook is the dictionary of its sheets by name. *)
Abbreviation workbook := (gmap string (gmap (nat * column) cell)).

(** [ws[f'A{row}'].value]; a cell that was never written reads [None]. *)
Definition cell_value (ws : worksheet) (row : nat) (col : column) : pyval :=
  match ws !! (row, col) with
  | Some c => value c
  | None => PNone
  end.

Definition cell_bold (ws : worksheet) (row : nat) (col : column) : bool :=
  match ws !! (row, col) with
  | Some c => bold c
  | None => false
  end.

(** [ws[f'A{row}'] = v]: the value changes, the font stays. *)
Definition set_value (ws : worksheet) (row : nat) (col : column) (v : pyval)
  : worksheet :=
  <[(row, col) := mk_cell v (cell_bold ws row col)]> ws.

(** [ws[f'A{row}'].font = Font(bold=True)]. *)
Definition set_bold (ws : worksheet) (row : nat) (col : column) : worksheet :=
  <[(row, col) := mk_cell (cell_value ws row col) true]> ws.

(** [ws.max_row]: the largest row that has a cell, 1 for an empty sheet. *)
Definition max_row (ws : worksheet) : nat :=
  map_fold (λ k _ m, Nat.max (fst k) m) 1 ws.

(** The loop
    [for row in range(1, ws.max_row + 1):
       if ws[f'A{row}'].value is not None: last_row = row]
    started with [last_row = 1]. *)
Definition last_row (ws : worksheet) : nat :=
  foldl (λ last row, if is_none (cell_value ws row ColA) then last else row)
        1 (seq 1 (max_row ws)).

(** Writing a header row into a fresh sheet. *)
Fixpoint header_from (ws : worksheet) (cols : list column) (titles : list string)
  : worksheet :=
  match cols, titles with
  | c :: cols', t :: titles' => header_from (set_value ws 1 c (PText t)) cols' titles'
  | _, _ => ws
  end.

Definition new_sheet (titles : list string) : worksheet :=
  header_from ∅ [ColA; ColB; ColC; ColD; ColE; ColF] titles.

(** [wb[name] if name in wb.sheetnames else wb.create_sheet(name)] followed
    by the headers. *)
Definition get_or_create (wb : workbook) (name : string) (titles : list string)
  : worksheet :=
  match wb !! name with
  | Some ws => ws
  | None => new_sheet titles
  end.

(** The first [n] rows of [new] are those of [old], values and fonts. *)
Definition keeps_rows (old new : worksheet) (n : nat) : Prop :=
  ∀ r c, r ≤ n →
    cell_value new r c = cell_value old r c ∧
    cell_bold new r c = cell_bold old r c.

(** The sheet [wb[name]] of a saved workbook, for reading results back; a
    name that the workbook does not have reads as a sheet without cells. *)
Definition sheet_of (wb : workbook) (name : string) : worksheet :=
  default ∅ (wb !! name).

End Sheet.

(** ** The write phase of the two CSV pipelines

    [process_account_statements] and [process_transactions] share their
    write phase word for word, up to the names of the sheets, the header
    titles and the reason written next to a duplicate. *)

Module Card.
Import Datetime Py Sheet.
Local Open Scope nat_scope.

(** One entry of [all_transactions] / [transactions]. *)
Record transaction : Type := mk_transaction {
  date : datetime;
  merchant : string;
  amount : number;
  category : string }.

(** The tuples of [existing_data]: (date text, merchant, amount). *)
Abbreviation key := (string * string * number)%type.

(** [trans_tuple] of a candidate. *)
Definition trans_tuple (t : transaction) : key :=
  (strftime_Ymd (date t), merchant t, amount t).

Section WithRuntime.
Context `{Runtime}.

(** The key that one persisted row adds to [existing_data], if any. *)
Definition row_key (ws : worksheet) (row : nat) : option key :=
  let date_val := cell_value ws row ColA in
  let merchant_val := cell_value ws row ColB in
  let amount_val := cell_value ws row ColC in
  if truthy date_val && truthy merchant_val && truthy amount_val then
    match Py.float amount_val with
    | None => None
    | Some amount_float =>
        let date_str :=
          match date_val with
          | PDatetime dt => strftime_Ymd dt
          | v => Py.str v
          end in
        Some (date_str, Py.str merchant_val, amount_float)
    end
  else None.

(** The scan [for row in range(1, last_row + 1)] that fills
    [existing_data]. *)
Definition scan_existing (ws : worksheet) (last : nat) : gset key :=
  foldl (λ existing_data row,
           match row_key ws row with
           | Some k => {[k]} ∪ existing_data
           | None => existing_data
           end)
        ∅ (seq 1 last).

End WithRuntime.

(** The variables of the write loop. *)
Record state : Type := mk_state {
  worksheet_ : worksheet;
  duplicate_worksheet : worksheet;
  existing_data : gset key;
  next_row : nat;
  next_duplicate_row : nat;
  new_transactions_added : nat;
  duplicates_found : nat }.

(** The first pass: the candidates whose tuple is not in [existing_data]
    as it stands before the write loop, and the oldest of their dates. *)
Definition new_transactions_to_add (existing : gset key) (l : list transaction)
  : list transaction :=
  filter (λ t, trans_tuple t ∉ existing) l.

Definition oldest_date (existing : gset key) (l : list transaction)
  : option datetime :=
  min_date (date <$> new_transactions_to_add existing l).

(** The branch [if trans_tuple in existing_data]: a row of the duplicates
    sheet. *)
Definition write_duplicate (reason : string) (st : state) (t : transaction) : state :=
  let r := next_duplicate_row st in
  let d := duplicate_worksheet st in
  let d := set_value d r ColA (PText (strftime_dmY_dot (date t))) in
  let d := set_value d r ColB (PText (merchant t)) in
  let d := set_value d r ColC (PNumber (amount t)) in
  let d := set_value d r ColD (PText (category t)) in
  let d := set_value d r ColE (PText reason) in
  {| worksheet_ := worksheet_ st;
     duplicate_worksheet := d;
     existing_data := existing_data st;
     next_row := next_row st;
     next_duplicate_row := S r;
     new_transactions_added := new_transactions_added st;
     duplicates_found := S (duplicates_found st) |}.

(** Whether the row just written is made bold:
    [if oldest_date and transaction['date'] == oldest_date]. *)
Definition is_oldest (oldest : option datetime) (t : transaction) : bool :=
  match oldest with
  | Some o => bool_decide (date t = o)
  | None => false
  end.

(** The rest of the loop body: a row of the ledger sheet. *)
Definition write_new (oldest : option datetime) (st : state) (t : transaction) : state :=
  let r := next_row st in
  let w := worksheet_ st in
  let w := set_value w r ColA (PText (strftime_dmY_dot (date t))) in
  let w := set_value w r ColB (PText (merchant t)) in
  let w := set_value w r ColC (PNumber (amount t)) in
  let w := if PyStr.truthy (category t)
           then set_value w r ColE (PText (category t)) else w in
  let w :=
    if is_oldest oldest t then
      let w := set_bold w r ColA in
      let w := set_bold w r ColB in
      let w := set_bold w r ColC in
      if PyStr.truthy (category t) then set_bold w r ColE else w
    else w in
  {| worksheet_ := w;
     duplicate_worksheet := duplicate_worksheet st;
     existing_data := {[trans_tuple t]} ∪ existing_data st;
     next_row := S r;
     next_duplicate_row := next_duplicate_row st;
     new_transactions_added := S (new_transactions_added st);
     duplicates_found := duplicates_found st |}.

(** Row [r] of the duplicates sheet [d] holds the candidate [t] and the
    reason. *)
Definition duplicate_row_at (d : worksheet) (r : nat) (t : transaction)
    (reason : string) : Prop :=
  cell_value d r ColA = PText (strftime_dmY_dot (date t)) ∧
  cell_value d r ColB = PText (merchant t) ∧
  cell_value d r ColC = PNumber (amount t) ∧
  cell_value d r ColD = PText (category t) ∧
  cell_value d r ColE = PText reason.

(** One turn of [for transaction in all_transactions]. *)
Definition write_step (reason : string) (oldest : option datetime)
    (st : state) (t : transaction) : state :=
  if bool_decide (trans_tuple t ∈ existing_data st)
  then write_duplicate reason st t
  else write_new oldest st t.

Definition write_loop (reason : string) (oldest : option datetime)
    (st : state) (l : list transaction) : state :=
  foldl (write_step reason oldest) st l.

(** [transactions.sort(key=lambda x: x['date'], reverse=True)]: a stable
    sort, newest first. *)
Fixpoint insert_newest_first (t : transaction) (l : list transaction)
  : list transaction :=
  match l with
  | [] => [t]
  | u :: l' =>
      if ltb (date t) (date u) then u :: insert_newest_first t l' else t :: l
  end.

Definition sort_newest_first (l : list transaction) : list transaction :=
  foldr insert_newest_first [] l.

(** What a run leaves behind: the workbook as saved, and the two counts
    that the program prints. *)
Record outcome : Type := mk_outcome {
  saved : workbook;
  added : nat;
  duplicates : nat }.

Section WithRuntime.
Context `{Runtime}.

(** The state in which the write loop starts. *)
Definition initial_state (worksheet duplicate_worksheet : worksheet) : state :=
  let last := last_row worksheet in
  {| worksheet_ := worksheet;
     duplicate_worksheet := duplicate_worksheet;
     existing_data := scan_existing worksheet last;
     next_row := last + 1;
     next_duplicate_row := last_row duplicate_worksheet + 1;
     new_transactions_added := 0;
     duplicates_found := 0 |}.

(** The state in which the write loop of a pipeline starts: the ledger
    sheet and the sheet ["Duplicates"] are taken from the workbook, or
    created with their header row. *)
Definition loop_start (sheet_name : string) (titles dup_titles : list string)
    (wb : workbook) : state :=
  let worksheet := get_or_create wb sheet_name titles in
  let duplicate_worksheet :=
    get_or_create (<[sheet_name := worksheet]> wb) "Duplicates" dup_titles in
  initial_state worksheet duplicate_worksheet.

(** From loading the workbook to saving it. *)
Definition update_workbook (sheet_name : string) (titles dup_titles : list string)
    (reason : string) (wb : workbook) (transactions : list transaction) : outcome :=
  let st0 := loop_start sheet_name titles dup_titles wb in
  let oldest := oldest_date (existing_data st0) transactions in
  let st := write_loop reason oldest st0 transactions in
  {| saved := <["Duplicates" := Card.duplicate_worksheet st]>
                (<[sheet_name := worksheet_ st]> wb);
     added := new_transactions_added st;
     duplicates := duplicates_found st |}.

End WithRuntime.
End Card.

(** ** [process_account_statements] *)

Module Account.
Import Datetime Py Sheet Card.

(** The columns that are read from a row of an [account-statement_*.csv]. *)
Record csv_row : Type := mk_csv_row {
  col_Type : pyval;
  col_Completed_Date : pyval;
  col_Description : pyval;
  col_Amount : pyval }.

Section WithRuntime.
Context `{Runtime}.

(** The body of [for _, row in card_payments.iterrows()]; [None] is a
    row left out, by [continue] or by the [except] clause. *)
Definition read_row (row : csv_row) : option transaction :=
  match col_Completed_Date row with
  | PText completed_date_str =>
      match strptime completed_date_str fmt_Ymd_HMS with
      | None => None
      | Some completed_date =>
          let merchant := col_Description row in
          if isna merchant then None else
          if isna (col_Amount row) then None else
          match Py.float (col_Amount row) with
          | None => None
          | Some amount =>
              let '(cleaned_merchant, category) :=
                Categorizer.clean_merchant_and_categorize (text_or_na merchant) in
              Some {| date := completed_date;
                      merchant := cleaned_merchant;
                      amount := number_abs amount;
                      category := category |}
          end
      end
  | _ => None
  end.

(** [df[df['Type'] == 'Card Payment']]. *)
Definition is_card_payment (row : csv_row) : bool :=
  match col_Type row with
  | PText s => bool_decide (s = "Card Payment")
  | _ => false
  end.

Definition read_file (rows : list csv_row) : list transaction :=
  omap read_row (filter (λ r, is_card_payment r = true) rows).

(** The whole function, for the CSV files found by [glob] and the
    workbook on disk. *)
Definition process_account_statements (account_files : list (list csv_row))
    (wb : workbook) : outcome :=
  let all_transactions := mjoin (read_file <$> account_files) in
  match all_transactions with
  | [] => {| saved := wb; added := 0; duplicates := 0 |}
  | _ =>
      update_workbook "Revolut"
        ["Date"; "Merchant"; "Amount"; "Category"; "Reason"]
        ["Date"; "Merchant"; "Amount"; "Category"; "Reason"]
        "Duplicate from account statement"
        wb (sort_newest_first all_transactions)
  end.

End WithRuntime.
End Account.

(** ** [process_transactions] *)

Module CreditCard.
Import Datetime Py Sheet Card.

(** The columns that are read from a row of [transactions.csv]. *)
Record csv_row : Type := mk_csv_row {
  col_Booking_date : pyval;
  col_Merchant : pyval;
  col_Type : pyval;
  col_Amount_CHF : pyval }.

Section WithRuntime.
Context `{Runtime}.

(** The body of [for _, row in df.iterrows()] for the row number [i] of
    the file.  There is no [pd.isna] test on the amount: a row whose
    amount is missing is kept, with a nan for its amount. *)
Definition read_row (i : nat) (row : csv_row) : option transaction :=
  match parse_date (col_Booking_date row) with
  | None => None
  | Some booking_date =>
      match float_of_field i (col_Amount_CHF row) with
      | None => None
      | Some amount =>
          let amount :=
            if PyStr.contains "Credit" (Py.str (col_Type row))
            then number_opp amount else amount in
          let '(cleaned_merchant, category) :=
            Categorizer.clean_merchant_and_categorize (text_or_na (col_Merchant row)) in
          Some {| date := booking_date;
                  merchant := cleaned_merchant;
                  amount := amount;
                  category := category |}
      end
  end.

(** The candidates that the loop over the rows collects. *)
Definition read_rows (rows : list csv_row) : list transaction :=
  omap (λ '(i, row), read_row i row) (imap pair rows).

Definition process_transactions (rows : list csv_row) (wb : workbook) : outcome :=
  update_workbook "Carte Cred"
    ["Date"; "Merchant"; "Amount"; "Empty"; "Category"]
    ["Date"; "Merchant"; "Amount"; "Empty"; "Category"]
    "Duplicate entry"
    wb (sort_newest_first (read_rows rows)).

End WithRuntime.
End CreditCard.

(** ** [process_bank_statements] *)

Module Bank.
Import Datetime Py Sheet.
Local Open Scope nat_scope.

(** One entry of [bank_transactions]. *)
Record transaction : Type := mk_transaction {
  date : datetime;
  operation : string;
  debit : number;
  credit : number;
  category : string;
  sub_category : string }.

(** The tuples of [existing_data]: (date text, operation, debit, credit). *)
Abbreviation key := (string * string * number * number)%type.

Definition trans_tuple (t : transaction) : key :=
  (strftime_Ymd (date t), operation t, debit t, credit t).

(** The first four columns of a row of the bank's statement. *)
Record xlsx_row : Type := mk_xlsx_row {
  col0 : pyval; col1 : pyval; col2 : pyval; col3 : pyval }.

Section WithRuntime.
Context `{Runtime}.

(** [current_date] of a cell of column A of the sheet ["2025"]: the
    datetime itself, or what [parse_date(str(date_val))] makes of it; an
    empty cell is passed over. *)
Definition current_date (date_val : pyval) : option datetime :=
  if truthy date_val then
    match date_val with
    | PDatetime dt => Some dt
    | v => parse_date (PText (Py.str v))
    end
  else None.

(** One turn of the scan of column A of the sheet ["2025"]. *)
Definition latest_date_step (sheet_2025 : worksheet) (latest_date : option datetime)
    (row : nat) : option datetime :=
  match current_date (cell_value sheet_2025 row ColA), latest_date with
  | Some c, None => Some c
  | Some c, Some l => if gtb c l then Some c else Some l
  | None, _ => latest_date
  end.

(** The dates that the scan meets: the parseable cells of column A from
    row 2 down. *)
Definition reference_dates (sheet_2025 : worksheet) : list datetime :=
  omap (λ row, current_date (cell_value sheet_2025 row ColA))
       (seq 2 (max_row sheet_2025 - 1)).

(** [for row in range(2, sheet_2025.max_row + 1)], from
    [latest_date = None]. *)
Definition scan_latest_date (sheet_2025 : worksheet) : option datetime :=
  foldl (latest_date_step sheet_2025) None (seq 2 (max_row sheet_2025 - 1)).

Definition latest_date (wb : workbook) : option datetime :=
  match wb !! "2025" with
  | Some sheet_2025 => scan_latest_date sheet_2025
  | None => None
  end.

(** [float(x) if x != 0 else 0]. *)
Definition float_unless_zero (x : pyval) : option number :=
  if is_zero x then Some (Num 0%Qc) else Py.float x.

(** [row.iloc[i] if pd.notna(row.iloc[i]) else 0]. *)
Definition value_or_zero (v : pyval) : pyval :=
  if isna v then PNumber (Num 0%Qc) else v.

(** The body of [for index, row in df.iterrows()]; [None] is a row left
    out: by [continue], by the date filter, or by the [except] clause. *)
Definition read_row (latest_date : option datetime) (row : xlsx_row)
  : option transaction :=
  if isna (col0 row) then None else
  match parse_date (col0 row) with
  | None => None
  | Some execution_date =>
      let operation := col1 row in
      if isna operation then None else
      let debit := value_or_zero (col2 row) in
      let credit := value_or_zero (col3 row) in
      if is_zero debit && is_zero credit then None else
      let '(cleaned_operation, category, sub_category) :=
        Categorizer.clean_bank_operation_and_categorize (text_or_na operation) in
      if match latest_date with
         | None => true
         | Some l => gtb execution_date l
         end
      then
        match float_unless_zero debit, float_unless_zero credit with
        | Some d, Some c =>
            Some {| date := execution_date;
                    operation := cleaned_operation;
                    debit := d;
                    credit := c;
                    category := category;
                    sub_category := sub_category |}
        | _, _ => None
        end
      else None
  end.

(** The key that one persisted row of the sheet ["BCV"] adds to
    [existing_data], if any. *)
Definition row_key (ws : worksheet) (row : nat) : option key :=
  let date_val := cell_value ws row ColA in
  let operation_val := cell_value ws row ColB in
  let debit_val := cell_value ws row ColC in
  let credit_val := cell_value ws row ColD in
  if truthy date_val && truthy operation_val
     && (truthy debit_val || truthy credit_val) then
    match (if truthy debit_val then Py.float debit_val else Some (Num 0%Qc)),
          (if truthy credit_val then Py.float credit_val else Some (Num 0%Qc)) with
    | Some debit_float, Some credit_float =>
        let date_str :=
          match date_val with
          | PDatetime dt => strftime_Ymd dt
          | v => Py.str v
          end in
        Some (date_str, Py.str operation_val, debit_float, credit_float)
    | _, _ => None
    end
  else None.

(** The scan [for row in range(1, sheet_bcv.max_row + 1)]. *)
Definition scan_existing (ws : worksheet) : gset key :=
  foldl (λ existing_data row,
           match row_key ws row with
           | Some k => {[k]} ∪ existing_data
           | None => existing_data
           end)
        ∅ (seq 1 (max_row ws)).

End WithRuntime.

(** The variables of the write loop. *)
Record state : Type := mk_state {
  sheet_bcv : worksheet;
  existing_data : gset key;
  next_row : nat;
  new_transactions_added : nat;
  duplicates_skipped : nat }.

Definition new_bank_transactions_to_add (existing : gset key) (l : list transaction)
  : list transaction :=
  filter (λ t, trans_tuple t ∉ existing) l.

Definition oldest_bank_date (existing : gset key) (l : list transaction)
  : option datetime :=
  min_date (date <$> new_bank_transactions_to_add existing l).

(** The branch [if trans_tuple in existing_data]: count and go on. *)
Definition skip_duplicate (st : state) : state :=
  {| sheet_bcv := sheet_bcv st;
     existing_data := existing_data st;
     next_row := next_row st;
     new_transactions_added := new_transactions_added st;
     duplicates_skipped := S (duplicates_skipped st) |}.

Definition is_oldest (oldest : option datetime) (t : transaction) : bool :=
  match oldest with
  | Some o => bool_decide (date t = o)
  | None => false
  end.

(** [x if x != 0 else ""]. *)
Definition amount_cell (x : number) : pyval :=
  if bool_decide (x = Num 0%Qc) then PText "" else PNumber x.

(** The rest of the loop body: a row of the sheet ["BCV"]. *)
Definition write_new (oldest : option datetime) (st : state) (t : transaction) : state :=
  let r := next_row st in
  let w := sheet_bcv st in
  let w := set_value w r ColA (PText (strftime_dmY_dot (date t))) in
  let w := set_value w r ColB (PText (operation t)) in
  let w := set_value w r ColC (amount_cell (debit t)) in
  let w := set_value w r ColD (amount_cell (credit t)) in
  let w := if PyStr.truthy (category t)
           then set_value w r ColE (PText (category t)) else w in
  let w := if PyStr.truthy (sub_category t)
           then set_value w r ColF (PText (sub_category t)) else w in
  let w :=
    if is_oldest oldest t then
      foldl (λ w c, set_bold w r c) w [ColA; ColB; ColC; ColD; ColE; ColF]
    else w in
  {| sheet_bcv := w;
     existing_data := {[trans_tuple t]} ∪ existing_data st;
     next_row := S r;
     new_transactions_added := S (new_transactions_added st);
     duplicates_skipped := duplicates_skipped st |}.

Definition write_step (oldest : option datetime) (st : state) (t : transaction)
  : state :=
  if bool_decide (trans_tuple t ∈ existing_data st)
  then skip_duplicate st
  else write_new oldest st t.

Definition write_loop (oldest : option datetime) (st : state) (l : list transaction)
  : state :=
  foldl (write_step oldest) st l.

Fixpoint insert_newest_first (t : transaction) (l : list transaction)
  : list transaction :=
  match l with
  | [] => [t]
  | u :: l' =>
      if ltb (date t) (date u) then u :: insert_newest_first t l' else t :: l
  end.

Definition sort_newest_first (l : list transaction) : list transaction :=
  foldr insert_newest_first [] l.

Section WithRuntime.
Context `{Runtime}.

Definition initial_state (sheet_bcv : worksheet) : state :=
  {| sheet_bcv := sheet_bcv;
     existing_data := scan_existing sheet_bcv;
     next_row := last_row sheet_bcv + 1;
     new_transactions_added := 0;
     duplicates_skipped := 0 |}.

(** The candidates that the reader hands to the write phase. *)
Definition read_rows (wb : workbook) (rows : list xlsx_row) : list transaction :=
  omap (read_row (latest_date wb)) rows.

(** The whole function, for the rows of the input sheet below its header
    and the workbook on disk. *)
Definition process_bank_statements (rows : list xlsx_row) (wb : workbook)
  : Card.outcome :=
  let bank_transactions := read_rows wb rows in
  match bank_transactions with
  | [] => {| Card.saved := wb; Card.added := 0; Card.duplicates := 0 |}
  | _ =>
      let bank_transactions := sort_newest_first bank_transactions in
      let sheet := get_or_create wb "BCV"
          ["Date"; "Operation"; "Debit"; "Credit"; "Category"; "Sub Category"] in
      let st0 := initial_state sheet in
      let oldest := oldest_bank_date (existing_data st0) bank_transactions in
      let st := write_loop oldest st0 bank_transactions in
      {| Card.saved := <["BCV" := Bank.sheet_bcv st]> wb;
         Card.added := new_transactions_added st;
         Card.duplicates := duplicates_skipped st |}
  end.

End WithRuntime.
End Bank.

(** ** The textual layouts of a calendar date

    The layouts that the specification lists for the Date Normalizer:
    two digits for the day and the month, four for the year. *)

Module Layout.
Import Datetime.

Definition day_month_year (sep : ascii) (dt : datetime) : string :=
  pad2 (day dt) (String sep (pad2 (month dt) (String sep (pad4 (year dt) "")))).

(** ["13-11-2025"]. *)
Definition dmY_dash : datetime → string := day_month_year "-".
(** ["13.11.2025"]. *)
Definition dmY_dot : datetime → string := day_month_year ".".
(** ["13/11/2025"]. *)
Definition dmY_slash : datetime → string := day_month_year "/".

(** ["2025-11-13"]. *)
Definition Ymd_dash (dt : datetime) : string :=
  pad4 (year dt) (String "-" (pad2 (month dt) (String "-" (pad2 (day dt) "")))).

(** ["11/13/2025"]. *)
Definition mdY_slash (dt : datetime) : string :=
  pad2 (month dt) (String "/" (pad2 (day dt) (String "/" (pad4 (year dt) "")))).

End Layout.

(** ** A runtime for the worked examples

    Plain decimal notation: [float] reads an optional sign, digits and an
    optional fraction; [str] writes the integer part, a point and the
    fraction, at most seventeen places of it. *)

Module PlainDecimal.
Import Datetime Py.

(** The digits of [s] as a number, and how many there are; [None] when a
    character is no digit. *)
Fixpoint read_digits (acc : N) (count : nat) (s : string) : option (N * nat) :=
  match s with
  | EmptyString => Some (acc, count)
  | String c s' =>
      if is_digit c
      then read_digits (10 * acc + N.of_nat (digit_val c)) (S count) s'
      else None
  end.

(** The text before the first point, and the text after it if there is
    one. *)
Fixpoint split_point (s : string) : string * option string :=
  match s with
  | EmptyString => (EmptyString, None)
  | String c s' =>
      if Ascii.eqb c "." then (EmptyString, Some s')
      else let '(a, b) := split_point s' in (String c a, b)
  end.

Definition read_unsigned (s : string) : option Q :=
  let '(int_part, frac_part) := split_point s in
  match read_digits 0 0 int_part, frac_part with
  | Some (i, ni), None =>
      if (ni =? 0)%nat then None else Some (Z.of_N i # 1)
  | Some (i, ni), Some f =>
      match read_digits 0 0 f with
      | Some (fr, nf) =>
          if ((ni =? 0) && (nf =? 0))%nat then None
          else Some (Z.of_N (i * 10 ^ N.of_nat nf + fr) # Z.to_pos (10 ^ Z.of_nat nf))
      | None => None
      end
  | None, _ => None
  end.

Definition plain_float (s : string) : option Qc :=
  match strip s with
  | String "-" s' => (λ q, Q2Qc (- q)) <$> read_unsigned s'
  | String "+" s' => Q2Qc <$> read_unsigned s'
  | s' => Q2Qc <$> read_unsigned s'
  end.

(** The decimal digits of a natural number, most significant first. *)
Fixpoint nat_digits (fuel : nat) (n : N) (rest : string) : string :=
  match fuel with
  | O => rest
  | S fuel' =>
      let rest' := String (digit_char (N.to_nat (n mod 10))) rest in
      if (n <? 10)%N then rest' else nat_digits fuel' (n / 10) rest'
  end.

(** The digits of the fraction [num / den], [0 <= num < den]. *)
Fixpoint frac_digits (places : nat) (num den : N) : string :=
  match places with
  | O => EmptyString
  | S places' =>
      let d := (10 * num / den)%N in
      let r := (10 * num mod den)%N in
      String (digit_char (N.to_nat d))
        (if (r =? 0)%N then EmptyString else frac_digits places' r den)
  end.

Definition plain_str (q : Qc) : string :=
  let num := Z.abs_N (Qnum (this q)) in
  let den := Npos (Qden (this q)) in
  let body :=
    nat_digits 400 (num / den) (String "." (frac_digits 17 (num mod den) den)) in
  if (Qnum (this q) <? 0)%Z then String "-" body else body.

Definition runtime : Runtime :=
  {| float_of_text := plain_float; text_of_number := plain_str |}.

End PlainDecimal.

(** ** Inputs of the worked examples *)

Module Examples.
Import Datetime Py Sheet.

Definition q (n : Z) (d : positive) : Qc := Q2Qc (n # d).

(** The row of the specification's end-to-end scenario. *)
Definition migros_row : Account.csv_row :=
  Account.mk_csv_row (PText "Card Payment") (PText "2025-11-13 14:07:59")
    (PText "Migros Lausanne") (PNumber (q (-85) 2)).

(** Two card payments of the same amount at the same shop on the same
    day, at 10:00 and at 09:00. *)
Definition coop_late_row : Account.csv_row :=
  Account.mk_csv_row (PText "Card Payment") (PText "2025-01-05 10:00:00")
    (PText "Coop Pronto") (PNumber (q (-9) 2)).

Definition coop_early_row : Account.csv_row :=
  Account.mk_csv_row (PText "Card Payment") (PText "2025-01-05 09:00:00")
    (PText "Coop Pronto") (PNumber (q (-9) 2)).

Definition coop_late : Card.transaction :=
  Card.mk_transaction (mk_datetime 2025 1 5 10 0 0) "Coop" (q 9 2) "Food".

Definition coop_early : Card.transaction :=
  Card.mk_transaction (mk_datetime 2025 1 5 9 0 0) "Coop" (q 9 2) "Food".

Definition tesla : Card.transaction :=
  Card.mk_transaction (of_date 2025 1 4) "Tesla" (q 30 1) "Car".

(** A free sample: a card payment of amount zero. *)
Definition free_sample : Card.transaction :=
  Card.mk_transaction (of_date 2025 1 6) "Manor" (q 0 1) "Food".

(** The write loop before its first turn, on sheets that hold nothing
    below their header row. *)
Definition fresh_card_state : Card.state :=
  Card.mk_state ∅ ∅ ∅ 2 2 0 0.

Definition fresh_bank_state : Bank.state :=
  Bank.mk_state ∅ ∅ 2 0 0.

Definition duol : Bank.transaction :=
  Bank.mk_transaction (of_date 2025 11 13) "Duol Geneve" (q 30 1) (q 0 1)
    "Chant Cred" "Duol".

Definition rent : Bank.transaction :=
  Bank.mk_transaction (of_date 2025 11 1) "Planchamp, Xavier" (q 1500 1) (q 0 1)
    "Rent" "".

(** The row of the specification's second end-to-end scenario. *)
Definition duol_row : Bank.xlsx_row :=
  Bank.mk_xlsx_row (PDatetime (of_date 2025 11 13)) (PText "BCV-NET Duol Geneve")
    (PNumber (q 30 1)) PNone.

(** A statement row with a negative debit next to a credit. *)
Definition reversal_row : Bank.xlsx_row :=
  Bank.mk_xlsx_row (PDatetime (of_date 2025 11 14)) (PText "Correction")
    (PNumber (q (-5) 1)) (PNumber (q 3 1)).

(** A workbook whose sheet ["BCV"] already holds the Duol payment, with
    a date cell as a spreadsheet program stores it. *)
Definition bcv_with_duol : worksheet :=
  set_value (set_value (set_value
    (new_sheet ["Date"; "Operation"; "Debit"; "Credit"; "Category"; "Sub Category"])
    2 ColA (PDatetime (of_date 2025 11 13)))
    2 ColB (PText "Duol Geneve"))
    2 ColC (PNumber (q 30 1)).

Definition workbook_with_duol : workbook := {[ "BCV" := bcv_with_duol ]}.

(** A reference sheet ["2025"] that holds dates from its first row on. *)
Definition sheet_2025_no_header : worksheet :=
  set_value (set_value ∅ 1 ColA (PDatetime (of_date 2025 12 31)))
    2 ColA (PDatetime (of_date 2025 1 1)).

Definition workbook_2025_no_header : workbook := {[ "2025" := sheet_2025_no_header ]}.

Definition june_row : Bank.xlsx_row :=
  Bank.mk_xlsx_row (PDatetime (of_date 2025 6 1)) (PText "Sunrise")
    (PNumber (q 59 1)) PNone.

(** A ledger sheet that holds a zero-amount row, with a date cell as a
    spreadsheet program stores it. *)
Definition revolut_with_free_sample : worksheet :=
  set_value (set_value (set_value
    (new_sheet ["Date"; "Merchant"; "Amount"; "Category"; "Reason"])
    2 ColA (PDatetime (of_date 2025 1 6)))
    2 ColB (PText "Manor"))
    2 ColC (PNumber (q 0 1)).

(** A ledger sheet that holds the Tesla payment, with a date cell as a
    spreadsheet program stores it. *)
Definition revolut_with_tesla : worksheet :=
  set_value (set_value (set_value
    (new_sheet ["Date"; "Merchant"; "Amount"; "Category"; "Reason"])
    2 ColA (PDatetime (of_date 2025 1 4)))
    2 ColB (PText "Tesla"))
    2 ColC (PNumber (q 30 1)).

Definition workbook_with_revolut : workbook :=
  {[ "Revolut" := revolut_with_free_sample ]}.

(** A ledger sheet whose amount cell holds the text ["0"]. *)
Definition revolut_with_zero_text : worksheet :=
  set_value (set_value (set_value
    (new_sheet ["Date"; "Merchant"; "Amount"; "Category"; "Reason"])
    2 ColA (PDatetime (of_date 2025 1 6)))
    2 ColB (PText "Manor"))
    2 ColC (PText "0").

(** A row of [transactions.csv] without an amount. *)
Definition no_amount_row : CreditCard.csv_row :=
  CreditCard.mk_csv_row (PText "13.11.2025") (PText "Migros Lausanne")
    (PText "Debit") PNone.

End Examples.

(** * Properties *)

(** ** Text operations *)

Section PyStrFacts.
Import PyStr.
Local Open Scope nat_scope.

Lemma contains_cons_false p c s :
  contains p (String c s) = false →
  startswith p (String c s) = false ∧ contains p s = false.
Proof.
  cbn [contains]. intros Hc. apply orb_false_iff in Hc. exact Hc.
Qed.

Lemma replace_from_absent old new s :
  contains old s = false → replace_from old new 0 s = s.
Proof.
  induction s as [|c s IH]; [reflexivity|].
  intros Hc. destruct (contains_cons_false _ _ _ Hc) as [Hp Hs].
  cbn [replace_from]. rewrite Hp. f_equal. auto.
Qed.

Lemma replace_absent old new s :
  contains old s = false → replace old new s = s.
Proof. apply replace_from_absent. Qed.

(** Taking occurrences out of a text does not make it longer, and makes
    it shorter when there is one. *)
Lemma replace_from_length_le old k s :
  String.length (replace_from old "" k s) ≤ String.length s.
Proof.
  revert k. induction s as [|c s IH]; intros k; [reflexivity|].
  cbn [replace_from String.length]. destruct k as [|k].
  - destruct (startswith old (String c s)).
    + change ("" +:+ ?x) with x. pose proof (IH (String.length old - 1)). lia.
    + cbn [String.length]. pose proof (IH 0). lia.
  - pose proof (IH k). lia.
Qed.

Lemma replace_length_lt old s :
  old ≠ "" → contains old s = true →
  String.length (replace old "" s) < String.length s.
Proof.
  intros Hold. unfold replace. induction s as [|c s IH].
  - destruct old; [congruence | discriminate].
  - cbn [contains]. intros Hc. cbn [replace_from String.length].
    destruct (startswith old (String c s)) eqn:Hp.
    + change ("" +:+ ?x) with x.
      pose proof (replace_from_length_le old (String.length old - 1) s). lia.
    + cbn [String.length]. cbn [orb] in Hc. specialize (IH Hc). lia.
Qed.

End PyStrFacts.

(** ** The categorisers *)

Section CategorizerFacts.
Import PyStr Categorizer.
Local Open Scope nat_scope.
Local Open Scope list_scope.

Lemma strip_prefix_absent prefix s :
  contains prefix s = false → strip_prefix prefix s = s.
Proof. unfold strip_prefix. intros ->. reflexivity. Qed.

Lemma strip_prefix_length_le prefix s :
  String.length (strip_prefix prefix s) ≤ String.length s.
Proof.
  unfold strip_prefix. destruct (contains prefix s); [|reflexivity].
  apply replace_from_length_le.
Qed.

Lemma strip_prefix_length_lt prefix s :
  prefix ≠ "" → contains prefix s = true →
  String.length (strip_prefix prefix s) < String.length s.
Proof.
  intros Hne Hc. unfold strip_prefix. rewrite Hc. apply replace_length_lt; assumption.
Qed.

(** A text that holds one of the three prefixes is shorter once the
    three guarded [replace] calls are through. *)
Lemma clean_prefixes_shorter s :
  contains "BCV-NET " s = true ∨ contains "VIRT BANC " s = true
  ∨ contains "VIR TWINT " s = true →
  String.length (clean_prefixes s) < String.length s.
Proof.
  intros Hany. unfold clean_prefixes.
  pose proof (strip_prefix_length_le "BCV-NET " s) as L1.
  pose proof (strip_prefix_length_le "VIRT BANC " (strip_prefix "BCV-NET " s)) as L2.
  pose proof (strip_prefix_length_le "VIR TWINT "
                (strip_prefix "VIRT BANC " (strip_prefix "BCV-NET " s))) as L3.
  destruct (contains "BCV-NET " s) eqn:H1.
  { pose proof (strip_prefix_length_lt "BCV-NET " s ltac:(discriminate) H1). lia. }
  rewrite (strip_prefix_absent _ _ H1) in *.
  destruct (contains "VIRT BANC " s) eqn:H2.
  { pose proof (strip_prefix_length_lt "VIRT BANC " s ltac:(discriminate) H2). lia. }
  rewrite (strip_prefix_absent _ _ H2) in *.
  destruct Hany as [Hany | [Hany | H3]]; try discriminate.
  pose proof (strip_prefix_length_lt "VIR TWINT " s ltac:(discriminate) H3). lia.
Qed.

Lemma clean_prefixes_absent s :
  contains "BCV-NET " s = false →
  contains "VIRT BANC " s = false →
  contains "VIR TWINT " s = false →
  clean_prefixes s = s.
Proof.
  intros H1 H2 H3. unfold clean_prefixes.
  rewrite (strip_prefix_absent _ _ H1), (strip_prefix_absent _ _ H2).
  apply strip_prefix_absent, H3.
Qed.

(** The scan returns what the first matching rule gives, whatever comes
    after that rule in the table. *)
Lemma scan_bank_rules_first pre r rest s :
  Forall (λ x, bank_rule_matches x s = false) pre →
  bank_rule_matches r s = true →
  scan_bank_rules (pre ++ r :: rest) s = apply_bank_rule r s.
Proof.
  intros Hpre Hr. induction Hpre as [|x pre Hx _ IH]; cbn [app scan_bank_rules].
  - rewrite Hr. reflexivity.
  - rewrite Hx. exact IH.
Qed.

Lemma scan_bank_rules_none rules s :
  Forall (λ x, bank_rule_matches x s = false) rules →
  scan_bank_rules rules s = (s, "", "").
Proof.
  induction 1 as [|x rules Hx _ IH]; cbn [scan_bank_rules]; [reflexivity|].
  rewrite Hx. exact IH.
Qed.

Lemma scan_merchant_rules_first pre r rest s :
  Forall (λ x, merchant_rule_matches x s = false) pre →
  merchant_rule_matches r s = true →
  scan_merchant_rules (pre ++ r :: rest) s = apply_merchant_rule r.
Proof.
  intros Hpre Hr. induction Hpre as [|x pre Hx _ IH]; cbn [app scan_merchant_rules].
  - rewrite Hr. reflexivity.
  - rewrite Hx. exact IH.
Qed.

(** C8, as the code has it: when no rule matches the text left by the
    three guarded [replace] calls (["BCV-NET "], then ["VIRT BANC "],
    then ["VIR TWINT "]), the operation-style categoriser returns that
    text with an empty category and sub-category.  It is the input text
    itself exactly when the input holds none of the three prefixes: a
    text that holds one of them comes back strictly shorter. *)
Theorem bank_no_match_returns_stripped_text (text : string) :
  Forall (λ r, bank_rule_matches r (clean_prefixes text) = false) bank_categories →
  clean_bank_operation_and_categorize (Some text) = (clean_prefixes text, "", "") ∧
  (contains "BCV-NET " text = false →
   contains "VIRT BANC " text = false →
   contains "VIR TWINT " text = false →
   clean_bank_operation_and_categorize (Some text) = (text, "", "")) ∧
  (contains "BCV-NET " text = true ∨ contains "VIRT BANC " text = true
   ∨ contains "VIR TWINT " text = true →
   String.length (clean_bank_operation_and_categorize (Some text)).1.1
     < String.length text) ∧
  (clean_bank_operation_and_categorize (Some text) = (text, "", "")
   ↔ contains "BCV-NET " text = false ∧ contains "VIRT BANC " text = false
     ∧ contains "VIR TWINT " text = false).
Proof.
  intros Hnone.
  assert (Hres : clean_bank_operation_and_categorize (Some text)
                 = (clean_prefixes text, "", "")).
  { unfold clean_bank_operation_and_categorize, clean_bank_operation_with.
    apply scan_bank_rules_none, Hnone. }
  assert (Hsame : contains "BCV-NET " text = false →
                  contains "VIRT BANC " text = false →
                  contains "VIR TWINT " text = false →
                  clean_bank_operation_and_categorize (Some text) = (text, "", "")).
  { intros H1 H2 H3. rewrite Hres, (clean_prefixes_absent _ H1 H2 H3). reflexivity. }
  assert (Hshort : contains "BCV-NET " text = true ∨ contains "VIRT BANC " text = true
                   ∨ contains "VIR TWINT " text = true →
                   String.length (clean_bank_operation_and_categorize (Some text)).1.1
                   < String.length text).
  { intros Hany. rewrite Hres. cbn [fst]. apply clean_prefixes_shorter, Hany. }
  refine (conj Hres (conj Hsame (conj Hshort _))). split.
  - intros Heq.
    destruct (contains "BCV-NET " text) eqn:H1;
      [pose proof (Hshort (or_introl eq_refl)) as Hlt; rewrite Heq in Hlt;
       cbn [fst] in Hlt; lia|].
    destruct (contains "VIRT BANC " text) eqn:H2;
      [pose proof (Hshort (or_intror (or_introl eq_refl))) as Hlt; rewrite Heq in Hlt;
       cbn [fst] in Hlt; lia|].
    destruct (contains "VIR TWINT " text) eqn:H3;
      [pose proof (Hshort (or_intror (or_intror eq_refl))) as Hlt; rewrite Heq in Hlt;
       cbn [fst] in Hlt; lia|].
    done.
  - intros (H1 & H2 & H3). exact (Hsame H1 H2 H3).
Qed.

Lemma bank_no_match_returns_stripped_text_witness :
  clean_bank_operation_and_categorize (Some "VIRT BANC Loyer novembre")
    = ("Loyer novembre", "", "") ∧
  clean_bank_operation_and_categorize (Some "Loyer novembre")
    = ("Loyer novembre", "", "") ∧
  String.length
    (clean_bank_operation_and_categorize (Some "VIRT BANC Loyer novembre")).1.1
  < String.length "VIRT BANC Loyer novembre".
Proof.
  destruct (bank_no_match_returns_stripped_text "VIRT BANC Loyer novembre")
    as (Hres & _ & Hshort & _); [vm_compute; repeat constructor|].
  destruct (bank_no_match_returns_stripped_text "Loyer novembre")
    as (_ & Hsame & _); [vm_compute; repeat constructor|].
  refine (conj Hres (conj (Hsame _ _ _) (Hshort _))); try reflexivity.
  right. left. reflexivity.
Defined.

(** C8 as stated fails: a text that holds a known prefix and matches no
    rule does not come back unchanged, the prefix is gone. *)
Lemma bank_no_match_original_text_counterexample :
  ¬ (∀ text : string,
       text ≠ "" →
       Forall (λ r, bank_rule_matches r (clean_prefixes text) = false) bank_categories →
       clean_bank_operation_and_categorize (Some text) = (text, "", "")).
Proof.
  intros Hclaim.
  specialize (Hclaim "BCV-NET Loyer novembre").
  assert (Hne : "BCV-NET Loyer novembre" ≠ "") by discriminate.
  assert (Hnone : Forall (λ r, bank_rule_matches r (clean_prefixes "BCV-NET Loyer novembre") = false)
                    bank_categories) by (vm_compute; repeat constructor).
  specialize (Hclaim Hne Hnone). vm_compute in Hclaim. discriminate Hclaim.
Qed.

(** C9: when a text holds the patterns of two rules of a table, and the
    earlier of the two is the first rule of the table that matches, each
    categoriser returns exactly what that earlier rule gives, and taking
    the later rule out of the table changes nothing.  The operation-style
    categoriser matches on the prefix-stripped text. *)
Theorem first_matching_rule_wins :
  (∀ pre r1 mid r2 post text,
     merchant_categories = pre ++ r1 :: mid ++ r2 :: post →
     Forall (λ x, merchant_rule_matches x text = false) pre →
     merchant_rule_matches r1 text = true →
     merchant_rule_matches r2 text = true →
     clean_merchant_and_categorize (Some text) = apply_merchant_rule r1 ∧
     clean_merchant_with (pre ++ r1 :: mid ++ post) (Some text)
       = clean_merchant_and_categorize (Some text)) ∧
  (∀ pre r1 mid r2 post text,
     bank_categories = pre ++ r1 :: mid ++ r2 :: post →
     Forall (λ x, bank_rule_matches x (clean_prefixes text) = false) pre →
     bank_rule_matches r1 (clean_prefixes text) = true →
     bank_rule_matches r2 (clean_prefixes text) = true →
     clean_bank_operation_and_categorize (Some text)
       = apply_bank_rule r1 (clean_prefixes text) ∧
     clean_bank_operation_with (pre ++ r1 :: mid ++ post) (Some text)
       = clean_bank_operation_and_categorize (Some text)).
Proof.
  split; intros pre r1 mid r2 post text Htab Hpre H1 _.
  - unfold clean_merchant_and_categorize, clean_merchant_with. rewrite Htab.
    rewrite !(scan_merchant_rules_first pre r1) by assumption. split; reflexivity.
  - unfold clean_bank_operation_and_categorize, clean_bank_operation_with.
    rewrite Htab.
    rewrite !(scan_bank_rules_first pre r1) by assumption. split; reflexivity.
Qed.

Lemma first_matching_rule_wins_witness :
  clean_merchant_and_categorize (Some "Salt shop salt.ch")
    = ("Salt Mobile SA", "Media") ∧
  clean_bank_operation_and_categorize (Some "BCV-NET Duol pour Leni")
    = ("Duol pour Leni", "Chant Cred", "Duol").
Proof.
  split.
  - apply (proj1 first_matching_rule_wins
             (take 26 merchant_categories) ("Salt", "Salt Mobile SA", "Media")
             [] ("salt.ch", "Salt Mobile SA", "Media")
             (drop 28 merchant_categories) "Salt shop salt.ch");
      [reflexivity | vm_compute; repeat constructor | reflexivity | reflexivity].
  - apply (proj2 first_matching_rule_wins
             [("Distalmotion", None, "Salary", "")]
             ("Duol", None, "Chant Cred", "Duol")
             [("INSTITUT LE CHATELARD", None, "Chant Cred", "Chatelard")]
             ("Leni", None, "Kids Deb", "")
             (drop 4 bank_categories) "BCV-NET Duol pour Leni");
      [reflexivity | vm_compute; repeat constructor | reflexivity | reflexivity].
Defined.

End CategorizerFacts.

(** ** Dates: formatting and parsing *)

Section DatetimeFacts.
Import Datetime.
Local Open Scope nat_scope.
Local Open Scope list_scope.

Lemma is_digit_digit_char k : is_digit (digit_char k) = true.
Proof. do 10 (destruct k as [|k]; [reflexivity|]). reflexivity. Qed.

Lemma digit_val_digit_char k : k < 10 → digit_val (digit_char k) = k.
Proof.
  intros Hk. do 10 (destruct k as [|k]; [reflexivity|]). lia.
Qed.

Lemma is_space_digit_char k : is_space (digit_char k) = false.
Proof. do 10 (destruct k as [|k]; [reflexivity|]). reflexivity. Qed.

Lemma eqb_digit_char (c : ascii) k :
  is_digit c = false → Ascii.eqb c (digit_char k) = false.
Proof.
  intros Hc. destruct (Ascii.eqb_spec c (digit_char k)) as [->|]; [|reflexivity].
  rewrite is_digit_digit_char in Hc. discriminate.
Qed.

Lemma four_digits y :
  y < 100 * 100 →
  10 * (10 * (10 * (10 * 0 + y / 1000 mod 10) + y / 100 mod 10) + y / 10 mod 10)
    + y mod 10 = y.
Proof.
  intros Hy.
  assert (y / 1000 < 10) by (apply Nat.Div0.div_lt_upper_bound; lia).
  rewrite (Nat.mod_small (y / 1000) 10) by assumption.
  pose proof (Nat.div_mod_eq y 10) as H1.
  pose proof (Nat.div_mod_eq (y / 10) 10) as H2.
  pose proof (Nat.div_mod_eq (y / 100) 10) as H3.
  replace (y / 10 / 10) with (y / 100) in H2 by (rewrite Nat.Div0.div_div; reflexivity).
  replace (y / 100 / 10) with (y / 1000) in H3 by (rewrite Nat.Div0.div_div; reflexivity).
  lia.
Qed.

(** *** The matcher, one directive at a time *)

Lemma match_format_head d fmt acc s acc' r res :
  head (match_directive d acc s) = Some (acc', r) →
  head (match_format fmt acc' r) = Some res →
  head (match_format (d :: fmt) acc s) = Some res.
Proof.
  cbn [match_format]. destruct (match_directive d acc s) as [|[a b] tl]; [discriminate|].
  intros [= -> ->]. cbn. destruct (match_format fmt acc' r); [discriminate|].
  intros [= ->]. reflexivity.
Qed.

Lemma match_format_nil d fmt acc s :
  Forall (λ x, match_format fmt x.1 x.2 = []) (match_directive d acc s) →
  match_format (d :: fmt) acc s = [].
Proof.
  cbn [match_format]. induction 1 as [|[a b] tl Hx _ IH]; [reflexivity|].
  cbn in *. rewrite Hx. exact IH.
Qed.

Lemma strptime_head s fmt dt :
  head (match_format fmt strptime_default s) = Some (dt, "") →
  valid dt = true →
  strptime s fmt = Some dt.
Proof.
  unfold strptime. destruct (match_format fmt strptime_default s) as [|[a b] tl];
    [discriminate|].
  intros [= -> ->] ->. reflexivity.
Qed.

Lemma strptime_nil s fmt :
  match_format fmt strptime_default s = [] → strptime s fmt = None.
Proof. unfold strptime. intros ->. reflexivity. Qed.

Lemma match_lit_eq c acc s :
  head (match_directive (Lit c) acc (String c s)) = Some (acc, s).
Proof. cbn. rewrite Ascii.eqb_refl. reflexivity. Qed.

Lemma match_lit_ne c c' fmt acc s :
  Ascii.eqb c c' = false → match_format (Lit c :: fmt) acc (String c' s) = [].
Proof. intros Hc. cbn. rewrite Hc. reflexivity. Qed.

Lemma match_d_pad2 acc d X :
  1 ≤ d ≤ 31 →
  head (match_directive Dir_d acc (pad2 d X))
  = Some (mk_datetime (year acc) (month acc) d (hour acc) (minute acc) (second acc), X).
Proof.
  intros [Hlo Hhi].
  do 32 (destruct d as [|d]; [first [lia | vm_compute; reflexivity]|]). lia.
Qed.

Lemma match_m_pad2 acc m X :
  1 ≤ m ≤ 12 →
  head (match_directive Dir_m acc (pad2 m X))
  = Some (mk_datetime (year acc) m (day acc) (hour acc) (minute acc) (second acc), X).
Proof.
  intros [Hlo Hhi].
  do 13 (destruct m as [|m]; [first [lia | vm_compute; reflexivity]|]). lia.
Qed.

Lemma match_Y_pad4 acc y X :
  y < 100 * 100 →
  head (match_directive Dir_Y acc (pad4 y X))
  = Some (mk_datetime y (month acc) (day acc) (hour acc) (minute acc) (second acc), X).
Proof.
  intros Hy. unfold match_directive, match_alts, regex_Y, pad4, pad2.
  cbn [omap list_omap match_seq].
  rewrite !is_digit_digit_char.
  rewrite !digit_val_digit_char by (apply Nat.mod_upper_bound; lia).
  cbn [fmap list_fmap head]. rewrite (four_digits y Hy). reflexivity.
Qed.

(** The day and month groups take one or two characters. *)
Lemma match_d_rest acc c1 c2 X :
  Forall (λ x, x.2 = String c2 X ∨ x.2 = X)
         (match_directive Dir_d acc (String c1 (String c2 X))).
Proof.
  unfold match_directive, match_alts, regex_d. cbn [omap list_omap match_seq].
  repeat match goal with
         | |- context [if ?b then _ else _] => destruct b
         end; cbn [fmap list_fmap];
    repeat match goal with
           | |- Forall _ [] => constructor
           | |- Forall _ (_ :: _) => constructor; [cbn [snd]; auto|]
           end.
Qed.

Lemma match_m_rest acc c1 c2 X :
  Forall (λ x, x.2 = String c2 X ∨ x.2 = X)
         (match_directive Dir_m acc (String c1 (String c2 X))).
Proof.
  unfold match_directive, match_alts, regex_m. cbn [omap list_omap match_seq].
  repeat match goal with
         | |- context [if ?b then _ else _] => destruct b
         end; cbn [fmap list_fmap];
    repeat match goal with
           | |- Forall _ [] => constructor
           | |- Forall _ (_ :: _) => constructor; [cbn [snd]; auto|]
           end.
Qed.

(** A day or month group followed by a separator finds nothing when
    neither the second nor the third character is that separator. *)
Lemma match_dm_sep_mismatch (first : directive) sep fmt acc c1 c2 c3 X :
  first = Dir_d ∨ first = Dir_m →
  Ascii.eqb sep c2 = false →
  Ascii.eqb sep c3 = false →
  match_format (first :: Lit sep :: fmt) acc (String c1 (String c2 (String c3 X))) = [].
Proof.
  intros Hfirst H2 H3. apply match_format_nil.
  assert (Hrest : Forall (λ x, x.2 = String c2 (String c3 X) ∨ x.2 = String c3 X)
            (match_directive first acc (String c1 (String c2 (String c3 X))))).
  { destruct Hfirst as [-> | ->]; [apply match_d_rest | apply match_m_rest]. }
  eapply Forall_impl; [exact Hrest|].
  intros [a r] [Hr | Hr]; cbn in Hr; subst r; cbn [fst snd];
    apply match_lit_ne; assumption.
Qed.

(** The year group needs four digits. *)
Lemma match_Y_short fmt acc c1 c2 c3 X :
  is_digit c3 = false →
  match_format (Dir_Y :: fmt) acc (String c1 (String c2 (String c3 X))) = [].
Proof.
  intros H3. apply match_format_nil.
  unfold match_directive, match_alts, regex_Y. cbn [omap list_omap match_seq].
  rewrite H3. destruct (is_digit c1), (is_digit c2); constructor.
Qed.

Lemma eqb_not_digit (sep c : ascii) :
  is_digit sep = false → is_digit c = true → Ascii.eqb sep c = false.
Proof.
  intros Hs Hc. destruct (Ascii.eqb_spec sep c) as [->|]; [congruence|reflexivity].
Qed.

(** A month group reads only the first digit of a day after the twelfth. *)
Lemma match_m_late_day acc d X :
  12 < d ≤ 31 →
  Forall (λ x, match x.2 with
               | String c r => is_digit c = true ∧ r = X
               | EmptyString => False
               end)
         (match_directive Dir_m acc (pad2 d X)).
Proof.
  intros [Hlo Hhi].
  do 32 (destruct d as [|d];
         [first [lia | vm_compute; repeat constructor]|]).
  lia.
Qed.

Lemma match_m_sep_late_day sep fmt acc d X :
  is_digit sep = false →
  12 < d ≤ 31 →
  match_format (Dir_m :: Lit sep :: fmt) acc (pad2 d (String sep X)) = [].
Proof.
  intros Hsep Hd. apply match_format_nil.
  eapply Forall_impl; [apply match_m_late_day, Hd|].
  intros [a r]. cbn [fst snd]. destruct r as [|c r]; [tauto|].
  intros [Hc _]. apply match_lit_ne, eqb_not_digit; assumption.
Qed.

(** *** [strip] leaves the layouts alone *)

Lemma is_space2_digit_char_l k d : Py.is_space2 (digit_char k) d = false.
Proof. do 9 (destruct k as [|k]; [reflexivity|]). reflexivity. Qed.

Lemma is_space3_digit_char_l k d e : Py.is_space3 (digit_char k) d e = false.
Proof. do 9 (destruct k as [|k]; [reflexivity|]). reflexivity. Qed.

Lemma is_space2_digit_char_r c k : Py.is_space2 c (digit_char k) = false.
Proof.
  unfold Py.is_space2.
  do 9 (destruct k as [|k]; [apply andb_false_r|]). apply andb_false_r.
Qed.

Lemma is_space3_digit_char_m c k e : Py.is_space3 c (digit_char k) e = false.
Proof.
  unfold Py.is_space3.
  destruct (Nat.eqb (nat_of_ascii c) 225), (Nat.eqb (nat_of_ascii c) 226),
    (Nat.eqb (nat_of_ascii c) 227);
    do 9 (destruct k as [|k]; [reflexivity|]); reflexivity.
Qed.

Lemma lstrip_digit_char k r :
  Py.lstrip (String (digit_char k) r) = String (digit_char k) r.
Proof.
  cbn [Py.lstrip]. rewrite is_space_digit_char.
  destruct r as [|d [|e r]];
    rewrite ?is_space2_digit_char_l, ?is_space3_digit_char_l; reflexivity.
Qed.

Lemma blank_text_digit_char k r :
  Py.blank_text (String (digit_char k) r) = false.
Proof. unfold Py.blank_text. rewrite lstrip_digit_char. reflexivity. Qed.

(** No blank ends in a digit: a character followed by a digit does not
    start a text of blanks. *)
Lemma blank_text_before_digit_char c k r :
  Py.blank_text (String c (String (digit_char k) r)) = false.
Proof.
  unfold Py.blank_text.
  change (Py.lstrip (String c (String (digit_char k) r)))
    with (if is_space c then Py.lstrip (String (digit_char k) r)
          else if Py.is_space2 c (digit_char k) then Py.lstrip r
          else match r with
               | EmptyString => String c (String (digit_char k) r)
               | String e s3 =>
                   if Py.is_space3 c (digit_char k) e then Py.lstrip s3
                   else String c (String (digit_char k) r)
               end).
  rewrite lstrip_digit_char, is_space2_digit_char_r.
  destruct (is_space c); [reflexivity|].
  destruct r as [|e s3]; [reflexivity|].
  rewrite is_space3_digit_char_m. reflexivity.
Qed.

Lemma rstrip_cons c s :
  Py.blank_text (String c s) = false → Py.rstrip s = s →
  Py.rstrip (String c s) = String c s.
Proof. intros Hb Hs. cbn [Py.rstrip]. rewrite Hb, Hs. reflexivity. Qed.

Ltac strip_layout :=
  unfold Py.strip, Layout.day_month_year, Layout.Ymd_dash, Layout.mdY_slash,
    Datetime.str, pad4, pad2;
  rewrite lstrip_digit_char;
  repeat (apply rstrip_cons;
          [first [apply blank_text_digit_char | apply blank_text_before_digit_char]|]);
  reflexivity.

Lemma strip_day_month_year sep dt :
  Py.strip (Layout.day_month_year sep dt) = Layout.day_month_year sep dt.
Proof. strip_layout. Qed.

Lemma strip_Ymd_dash dt : Py.strip (Layout.Ymd_dash dt) = Layout.Ymd_dash dt.
Proof. strip_layout. Qed.

Lemma strip_mdY_slash dt : Py.strip (Layout.mdY_slash dt) = Layout.mdY_slash dt.
Proof. strip_layout. Qed.

(** *** Each layout against each format *)

Lemma days_in_month_le y m : days_in_month y m ≤ 31.
Proof.
  unfold days_in_month.
  do 13 (destruct m as [|m]; [first [lia | destruct (is_leap y); lia]|]). lia.
Qed.

Lemma days_in_month_ge y m : 1 ≤ m ≤ 12 → 28 ≤ days_in_month y m.
Proof.
  intros [Hlo Hhi]. unfold days_in_month.
  do 13 (destruct m as [|m]; [first [lia | destruct (is_leap y); lia]|]). lia.
Qed.

Lemma valid_of_date y m d :
  valid (of_date y m d) = true ↔
  1 ≤ y < 100 * 100 ∧ 1 ≤ m ≤ 12 ∧ 1 ≤ d ≤ days_in_month y m.
Proof.
  unfold valid, of_date. cbn [year month day hour minute second].
  rewrite !andb_true_iff, !Nat.leb_le, Nat.ltb_lt. lia.
Qed.

Section Layouts.
Variables y m d : nat.
Hypothesis Hvalid : valid (of_date y m d) = true.

Let Hy : 1 ≤ y < 100 * 100.
Proof. apply valid_of_date in Hvalid. tauto. Qed.
Let Hm : 1 ≤ m ≤ 12.
Proof. apply valid_of_date in Hvalid. tauto. Qed.
Let Hd : 1 ≤ d ≤ 31.
Proof. apply valid_of_date in Hvalid. pose proof (days_in_month_le y m). lia. Qed.

Lemma strptime_day_month_year sep :
  strptime (Layout.day_month_year sep (of_date y m d))
           [Dir_d; Lit sep; Dir_m; Lit sep; Dir_Y] = Some (of_date y m d).
Proof.
  apply strptime_head; [|exact Hvalid].
  unfold Layout.day_month_year, of_date. cbn [year month day].
  eapply match_format_head; [apply match_d_pad2, Hd|].
  eapply match_format_head; [apply match_lit_eq|].
  eapply match_format_head; [apply match_m_pad2, Hm|].
  eapply match_format_head; [apply match_lit_eq|].
  eapply match_format_head; [apply match_Y_pad4; lia|].
  reflexivity.
Qed.

Lemma strptime_Ymd_dash :
  strptime (Layout.Ymd_dash (of_date y m d)) fmt_Ymd = Some (of_date y m d).
Proof.
  apply strptime_head; [|exact Hvalid].
  unfold Layout.Ymd_dash, of_date, fmt_Ymd. cbn [year month day].
  eapply match_format_head; [apply match_Y_pad4; lia|].
  eapply match_format_head; [apply match_lit_eq|].
  eapply match_format_head; [apply match_m_pad2, Hm|].
  eapply match_format_head; [apply match_lit_eq|].
  eapply match_format_head; [apply match_d_pad2, Hd|].
  reflexivity.
Qed.

Lemma strptime_mdY_slash :
  strptime (Layout.mdY_slash (of_date y m d)) fmt_mdY_slash = Some (of_date y m d).
Proof.
  apply strptime_head; [|exact Hvalid].
  unfold Layout.mdY_slash, of_date, fmt_mdY_slash. cbn [year month day].
  eapply match_format_head; [apply match_m_pad2, Hm|].
  eapply match_format_head; [apply match_lit_eq|].
  eapply match_format_head; [apply match_d_pad2, Hd|].
  eapply match_format_head; [apply match_lit_eq|].
  eapply match_format_head; [apply match_Y_pad4; lia|].
  reflexivity.
Qed.

(** A month-day-year text whose day is at most 12 is also a
    day-month-year text, of the date with day and month exchanged. *)
Lemma strptime_mdY_as_dmY :
  d ≤ 12 →
  strptime (Layout.mdY_slash (of_date y m d)) fmt_dmY_slash = Some (of_date y d m).
Proof.
  intros Hd12. apply strptime_head.
  - unfold Layout.mdY_slash, of_date, fmt_dmY_slash. cbn [year month day].
    eapply match_format_head; [apply match_d_pad2; lia|].
    eapply match_format_head; [apply match_lit_eq|].
    eapply match_format_head; [apply match_m_pad2; lia|].
    eapply match_format_head; [apply match_lit_eq|].
    eapply match_format_head; [apply match_Y_pad4; lia|].
    reflexivity.
  - apply valid_of_date. pose proof (days_in_month_ge y d). lia.
Qed.

Lemma strptime_mdY_not_dmY :
  12 < d →
  strptime (Layout.mdY_slash (of_date y m d)) fmt_dmY_slash = None.
Proof.
  intros Hd12. apply strptime_nil.
  unfold Layout.mdY_slash, of_date, fmt_dmY_slash. cbn [year month day].
  apply match_format_nil. unfold pad2 at 1.
  eapply Forall_impl; [apply match_d_rest|].
  intros [a r] [Hr | Hr]; cbn in Hr; subst r; cbn [fst snd].
  - apply match_lit_ne, eqb_digit_char. reflexivity.
  - apply match_format_nil. cbn [match_directive]. rewrite Ascii.eqb_refl.
    repeat constructor. cbn [fst snd].
    apply match_m_sep_late_day; [reflexivity | lia].
Qed.

(** A day- or month-first format with separator [sep] finds nothing in a
    text that starts with two digits and another character, or with four
    digits. *)
Lemma strptime_sep_mismatch_pad2 (first : directive) sep fmt n c3 X :
  first = Dir_d ∨ first = Dir_m →
  is_digit sep = false →
  Ascii.eqb sep c3 = false →
  strptime (pad2 n (String c3 X)) (first :: Lit sep :: fmt) = None.
Proof.
  intros. apply strptime_nil, match_dm_sep_mismatch;
    [assumption | apply eqb_digit_char; assumption | assumption].
Qed.

Lemma strptime_sep_mismatch_pad4 (first : directive) sep fmt n X :
  first = Dir_d ∨ first = Dir_m →
  is_digit sep = false →
  strptime (pad4 n X) (first :: Lit sep :: fmt) = None.
Proof.
  intros. apply strptime_nil, match_dm_sep_mismatch;
    [assumption | apply eqb_digit_char; assumption ..].
Qed.

Lemma strptime_Ymd_short n c3 X :
  is_digit c3 = false →
  strptime (pad2 n (String c3 X)) fmt_Ymd = None.
Proof. intros. apply strptime_nil, match_Y_short. assumption. Qed.

End Layouts.

End DatetimeFacts.

(** ** [parse_date] *)

Section ParseDateFacts.
Import Datetime Py.
Local Open Scope nat_scope.
Context `{Runtime}.

(** The layouts one by one. *)
Lemma parse_date_layouts_cases (y m d : nat) :
  valid (of_date y m d) = true →
  parse_date (PText (Layout.dmY_dash (of_date y m d))) = Some (of_date y m d) ∧
  parse_date (PText (Layout.dmY_dot (of_date y m d))) = Some (of_date y m d) ∧
  parse_date (PText (Layout.Ymd_dash (of_date y m d))) = Some (of_date y m d) ∧
  parse_date (PText (Layout.dmY_slash (of_date y m d))) = Some (of_date y m d) ∧
  (12 < d →
   parse_date (PText (Layout.mdY_slash (of_date y m d))) = Some (of_date y m d)) ∧
  (d ≤ 12 →
   parse_date (PText (Layout.mdY_slash (of_date y m d))) = Some (of_date y d m)).
Proof.
  intros Hvalid.
  unfold parse_date, Py.str, parse_date_text, parse_date_formats.
  unfold Layout.dmY_dash, Layout.dmY_dot, Layout.dmY_slash.
  rewrite !strip_day_month_year, strip_Ymd_dash, strip_mdY_slash.
  unfold Layout.day_month_year, Layout.Ymd_dash, Layout.mdY_slash.
  cbn [try_formats year month day of_date].
  unfold fmt_dmY_dash, fmt_dmY_dot.
  rewrite !(strptime_sep_mismatch_pad2 Dir_d "-" _ _ ".") by (reflexivity || (left; reflexivity)).
  rewrite !(strptime_sep_mismatch_pad2 Dir_d "-" _ _ "/") by (reflexivity || (left; reflexivity)).
  rewrite !(strptime_sep_mismatch_pad2 Dir_d "." _ _ "/") by (reflexivity || (left; reflexivity)).
  rewrite !(strptime_sep_mismatch_pad4 Dir_d) by (reflexivity || (left; reflexivity)).
  rewrite !strptime_Ymd_short by reflexivity.
  pose proof (strptime_day_month_year y m d Hvalid) as Hdmy.
  pose proof (strptime_Ymd_dash y m d Hvalid) as Hymd.
  pose proof (strptime_mdY_slash y m d Hvalid) as Hmdy.
  pose proof (strptime_mdY_as_dmY y m d Hvalid) as Hswap.
  pose proof (strptime_mdY_not_dmY y m d Hvalid) as Hlate.
  unfold Layout.day_month_year, Layout.Ymd_dash, Layout.mdY_slash in *.
  cbn [year month day of_date] in *.
  unfold fmt_dmY_slash.
  rewrite !Hdmy, Hymd.
  repeat split.
  - intros Hd. change [Dir_d; Lit "/"; Dir_m; Lit "/"; Dir_Y]%char with fmt_dmY_slash.
    rewrite (Hlate Hd), Hmdy. reflexivity.
  - intros Hd. change [Dir_d; Lit "/"; Dir_m; Lit "/"; Dir_Y]%char with fmt_dmY_slash.
    rewrite (Hswap Hd). reflexivity.
Qed.

(** C3, as the code has it: a valid calendar date written day-month-year
    with dashes, dots or slashes, or year-month-day, is normalised to
    itself.  Written month/day/year it is normalised to itself when its
    day is after the twelfth; when its day is at most 12 the text is read
    as day/month/year, which gives the date with day and month
    exchanged.  So a month/day/year text gives back its date exactly when
    the day is after the twelfth or is the number of the month. *)
Theorem parse_date_layouts (y m d : nat) :
  valid (of_date y m d) = true →
  parse_date (PText (Layout.dmY_dash (of_date y m d))) = Some (of_date y m d) ∧
  parse_date (PText (Layout.dmY_dot (of_date y m d))) = Some (of_date y m d) ∧
  parse_date (PText (Layout.Ymd_dash (of_date y m d))) = Some (of_date y m d) ∧
  parse_date (PText (Layout.dmY_slash (of_date y m d))) = Some (of_date y m d) ∧
  (12 < d →
   parse_date (PText (Layout.mdY_slash (of_date y m d))) = Some (of_date y m d)) ∧
  (d ≤ 12 →
   parse_date (PText (Layout.mdY_slash (of_date y m d))) = Some (of_date y d m)) ∧
  (parse_date (PText (Layout.mdY_slash (of_date y m d))) = Some (of_date y m d)
   ↔ 12 < d ∨ d = m).
Proof.
  intros Hvalid.
  destruct (parse_date_layouts_cases y m d Hvalid) as (H1 & H2 & H3 & H4 & H5 & H6).
  refine (conj H1 (conj H2 (conj H3 (conj H4 (conj H5 (conj H6 _)))))).
  destruct (le_gt_dec d 12) as [Hle | Hgt].
  - rewrite (H6 Hle). split.
    + intros [= Hdm]. right. exact Hdm.
    + intros [Hlt | ->]; [lia | reflexivity].
  - split; [intros _; left; lia | intros _; apply H5; lia].
Qed.

End ParseDateFacts.

Section ParseDateExamples.
Import Datetime Py.
Local Open Scope nat_scope.
Local Existing Instance PlainDecimal.runtime.

Lemma parse_date_layouts_witness :
  valid (of_date 2025 11 13) = true ∧
  parse_date (PText "13-11-2025") = Some (of_date 2025 11 13) ∧
  parse_date (PText "13.11.2025") = Some (of_date 2025 11 13) ∧
  parse_date (PText "2025-11-13") = Some (of_date 2025 11 13) ∧
  parse_date (PText "13/11/2025") = Some (of_date 2025 11 13) ∧
  parse_date (PText "11/13/2025") = Some (of_date 2025 11 13).
Proof.
  split; [reflexivity|].
  destruct (parse_date_layouts 2025 11 13 eq_refl) as (H1 & H2 & H3 & H4 & H5 & _).
  refine (conj H1 (conj H2 (conj H3 (conj H4 (H5 _))))). lia.
Defined.

(** C3 as stated fails for month/day/year texts: 4 March 2025 written
    month/day/year is ["03/04/2025"], which [parse_date] reads as
    3 April 2025, while the same date written with dashes is read as
    4 March 2025. *)
Lemma parse_date_month_day_year_counterexample :
  valid (of_date 2025 3 4) = true ∧
  Layout.mdY_slash (of_date 2025 3 4) = "03/04/2025" ∧
  Layout.dmY_dash (of_date 2025 3 4) = "04-03-2025" ∧
  parse_date (PText "03/04/2025") = Some (of_date 2025 4 3) ∧
  parse_date (PText "04-03-2025") = Some (of_date 2025 3 4) ∧
  parse_date (PText (Layout.mdY_slash (of_date 2025 3 4)))
    ≠ Some (of_date 2025 3 4).
Proof.
  repeat apply conj; try (vm_compute; reflexivity).
  intros Heq. vm_compute in Heq. discriminate Heq.
Qed.

End ParseDateExamples.

(** ** Worksheets *)

Section SheetFacts.
Import Py Sheet.
Local Open Scope nat_scope.

Lemma cell_value_set_value (ws : worksheet) r c v r' c' :
  cell_value (set_value ws r c v) r' c'
  = if decide ((r, c) = (r', c')) then v else cell_value ws r' c'.
Proof.
  unfold cell_value, set_value. rewrite lookup_insert.
  destruct (decide ((r, c) = (r', c'))); reflexivity.
Qed.

Lemma cell_value_set_bold (ws : worksheet) r c r' c' :
  cell_value (set_bold ws r c) r' c' = cell_value ws r' c'.
Proof.
  unfold set_bold, cell_value at 1. rewrite lookup_insert.
  destruct (decide ((r, c) = (r', c'))) as [[= -> ->]|]; reflexivity.
Qed.

Lemma cell_bold_set_value (ws : worksheet) r c v r' c' :
  cell_bold (set_value ws r c v) r' c' = cell_bold ws r' c'.
Proof.
  unfold set_value, cell_bold at 1. rewrite lookup_insert.
  destruct (decide ((r, c) = (r', c'))) as [[= -> ->]|]; reflexivity.
Qed.

Lemma cell_bold_set_bold (ws : worksheet) r c r' c' :
  cell_bold (set_bold ws r c) r' c'
  = if decide ((r, c) = (r', c')) then true else cell_bold ws r' c'.
Proof.
  unfold cell_bold, set_bold. rewrite lookup_insert.
  destruct (decide ((r, c) = (r', c'))); reflexivity.
Qed.

End SheetFacts.

Create Rewrite HintDb cells.

#[local] Hint Rewrite
  cell_value_set_value cell_value_set_bold cell_bold_set_value cell_bold_set_bold
  : cells.

(** Reads a cell back through a stack of writes. *)
Ltac read_cell :=
  autorewrite with cells;
  repeat match goal with
         | |- context [decide (?a = ?b)] =>
             let Heq := fresh "Heq" in
             destruct (decide (a = b)) as [Heq | Heq];
             [ try (exfalso; injection Heq; intros; subst; (lia || congruence))
             | try (exfalso; apply Heq; reflexivity) ]
         end.

(** ** The write loop of the two CSV pipelines *)

Section CardFacts.
Import Datetime Py Sheet Card.
Local Open Scope nat_scope.
Local Open Scope list_scope.

Variables (reason : string) (oldest : option datetime).

Lemma write_loop_app st l1 l2 :
  write_loop reason oldest st (l1 ++ l2)
  = write_loop reason oldest (write_loop reason oldest st l1) l2.
Proof. apply foldl_app. Qed.

Lemma write_loop_cons st t l :
  write_loop reason oldest st (t :: l)
  = write_loop reason oldest (write_step reason oldest st t) l.
Proof. reflexivity. Qed.

Lemma write_step_duplicate st t :
  trans_tuple t ∈ existing_data st →
  write_step reason oldest st t = write_duplicate reason st t.
Proof. intros Hin. unfold write_step. rewrite bool_decide_eq_true_2; done. Qed.

Lemma write_step_new st t :
  trans_tuple t ∉ existing_data st →
  write_step reason oldest st t = write_new oldest st t.
Proof. intros Hin. unfold write_step. rewrite bool_decide_eq_false_2; done. Qed.

(** Every key met so far is in [existing_data]. *)
Lemma existing_data_write_step st t :
  existing_data (write_step reason oldest st t) = {[trans_tuple t]} ∪ existing_data st.
Proof.
  unfold write_step. case_bool_decide as Hin; cbn; [set_solver|reflexivity].
Qed.

Lemma existing_data_write_loop l st :
  existing_data (write_loop reason oldest st l)
  = existing_data st ∪ list_to_set (trans_tuple <$> l).
Proof.
  revert st. induction l as [|t l IH]; intros st.
  - cbn. set_solver.
  - rewrite write_loop_cons, IH, existing_data_write_step. cbn. set_solver.
Qed.

(** The rows of the duplicates sheet only grow downwards. *)
Lemma next_duplicate_row_write_step st t :
  next_duplicate_row st ≤ next_duplicate_row (write_step reason oldest st t).
Proof. unfold write_step. case_bool_decide; cbn; lia. Qed.

Lemma duplicate_worksheet_write_step_frame st t r c :
  r < next_duplicate_row st →
  cell_value (duplicate_worksheet (write_step reason oldest st t)) r c
  = cell_value (duplicate_worksheet st) r c.
Proof.
  intros Hr. unfold write_step. case_bool_decide; cbn; [|reflexivity].
  read_cell. reflexivity.
Qed.

Lemma duplicate_worksheet_write_loop_frame l st r c :
  r < next_duplicate_row st →
  cell_value (duplicate_worksheet (write_loop reason oldest st l)) r c
  = cell_value (duplicate_worksheet st) r c.
Proof.
  revert st. induction l as [|t l IH]; intros st Hr; [reflexivity|].
  rewrite write_loop_cons, IH.
  - apply duplicate_worksheet_write_step_frame, Hr.
  - pose proof (next_duplicate_row_write_step st t). lia.
Qed.

Lemma next_row_write_step st t :
  next_row st ≤ next_row (write_step reason oldest st t).
Proof. unfold write_step. case_bool_decide; cbn; lia. Qed.

Lemma worksheet_write_step_frame st t r c :
  r < next_row st →
  cell_value (worksheet_ (write_step reason oldest st t)) r c
  = cell_value (worksheet_ st) r c ∧
  cell_bold (worksheet_ (write_step reason oldest st t)) r c
  = cell_bold (worksheet_ st) r c.
Proof.
  intros Hr. unfold write_step. case_bool_decide; cbn; [done|].
  destruct (PyStr.truthy (category t)), (is_oldest oldest t);
    split; read_cell; reflexivity.
Qed.

Lemma worksheet_write_loop_frame l st r c :
  r < next_row st →
  cell_value (worksheet_ (write_loop reason oldest st l)) r c
  = cell_value (worksheet_ st) r c ∧
  cell_bold (worksheet_ (write_loop reason oldest st l)) r c
  = cell_bold (worksheet_ st) r c.
Proof.
  revert st. induction l as [|t l IH]; intros st Hr; [done|].
  rewrite write_loop_cons.
  destruct (IH (write_step reason oldest st t)) as [-> ->].
  - pose proof (next_row_write_step st t). lia.
  - apply worksheet_write_step_frame, Hr.
Qed.

(** What the two branches leave in the row they write. *)
Lemma write_duplicate_row st t :
  let d := duplicate_worksheet (write_duplicate reason st t) in
  let r := next_duplicate_row st in
  cell_value d r ColA = PText (strftime_dmY_dot (date t)) ∧
  cell_value d r ColB = PText (merchant t) ∧
  cell_value d r ColC = PNumber (amount t) ∧
  cell_value d r ColD = PText (category t) ∧
  cell_value d r ColE = PText reason.
Proof. cbn. repeat split; read_cell; reflexivity. Qed.

Lemma write_new_row st t :
  let w := worksheet_ (write_new oldest st t) in
  let r := next_row st in
  cell_value w r ColA = PText (strftime_dmY_dot (date t)) ∧
  cell_value w r ColB = PText (merchant t) ∧
  cell_value w r ColC = PNumber (amount t) ∧
  cell_bold w r ColA = (is_oldest oldest t || cell_bold (worksheet_ st) r ColA).
Proof.
  cbn. destruct (PyStr.truthy (category t)), (is_oldest oldest t);
    repeat split; read_cell; reflexivity.
Qed.

End CardFacts.

(** ** The write loop of the bank pipeline *)

Section BankFacts.
Import Datetime Py Sheet Bank.
Local Open Scope nat_scope.
Local Open Scope list_scope.

Variable oldest : option datetime.

Lemma bank_write_loop_app st l1 l2 :
  write_loop oldest st (l1 ++ l2) = write_loop oldest (write_loop oldest st l1) l2.
Proof. apply foldl_app. Qed.

Lemma bank_write_loop_cons st t l :
  write_loop oldest st (t :: l) = write_loop oldest (write_step oldest st t) l.
Proof. reflexivity. Qed.

Lemma bank_write_step_duplicate st t :
  trans_tuple t ∈ existing_data st → write_step oldest st t = skip_duplicate st.
Proof. intros Hin. unfold write_step. rewrite bool_decide_eq_true_2; done. Qed.

Lemma bank_write_step_new st t :
  trans_tuple t ∉ existing_data st → write_step oldest st t = write_new oldest st t.
Proof. intros Hin. unfold write_step. rewrite bool_decide_eq_false_2; done. Qed.

Lemma bank_existing_data_write_step st t :
  existing_data (write_step oldest st t) = {[trans_tuple t]} ∪ existing_data st.
Proof.
  unfold write_step. case_bool_decide as Hin; cbn; [set_solver|reflexivity].
Qed.

Lemma bank_existing_data_write_loop l st :
  existing_data (write_loop oldest st l)
  = existing_data st ∪ list_to_set (trans_tuple <$> l).
Proof.
  revert st. induction l as [|t l IH]; intros st.
  - cbn. set_solver.
  - rewrite bank_write_loop_cons, IH, bank_existing_data_write_step. cbn. set_solver.
Qed.

End BankFacts.

(** ** Where duplicates go *)

Section DuplicateRouting.
Import Datetime Py Sheet.
Local Open Scope nat_scope.
Local Open Scope list_scope.
Context `{Runtime}.

Lemma update_workbook_saved_duplicates sheet_name titles dup_titles reason wb l :
  let st0 := Card.loop_start sheet_name titles dup_titles wb in
  let oldest := Card.oldest_date (Card.existing_data st0) l in
  Card.saved (Card.update_workbook sheet_name titles dup_titles reason wb l)
    !! "Duplicates"
  = Some (Card.duplicate_worksheet (Card.write_loop reason oldest st0 l)).
Proof. cbn. apply lookup_insert_eq. Qed.

(** C2, as the code has it.  In the write loop of the two CSV pipelines a
    candidate whose key is in the existing-key set when its turn comes is
    written to the sheet ["Duplicates"], at the row that was free at that
    moment, with the reason of its pipeline, and the row is still there
    when the workbook is saved; the reason is ["Duplicate from account
    statement"] in [process_account_statements] and ["Duplicate entry"]
    in [process_transactions].  In the bank pipeline such a candidate is
    counted and nothing is written: the sheet ["Duplicates"] of the saved
    workbook is the one that was loaded. *)
Theorem duplicates_routing :
  (∀ sheet_name titles dup_titles reason wb l1 t l2,
     let st0 := Card.loop_start sheet_name titles dup_titles wb in
     let oldest := Card.oldest_date (Card.existing_data st0) (l1 ++ t :: l2) in
     let st1 := Card.write_loop reason oldest st0 l1 in
     Card.trans_tuple t ∈ Card.existing_data st1 →
     ∃ d, Card.saved (Card.update_workbook sheet_name titles dup_titles reason wb
                        (l1 ++ t :: l2)) !! "Duplicates" = Some d ∧
          Card.duplicate_row_at d (Card.next_duplicate_row st1) t reason) ∧
  (∀ account_files wb,
     mjoin (Account.read_file <$> account_files) ≠ [] →
     Account.process_account_statements account_files wb
     = Card.update_workbook "Revolut"
         ["Date"; "Merchant"; "Amount"; "Category"; "Reason"]
         ["Date"; "Merchant"; "Amount"; "Category"; "Reason"]
         "Duplicate from account statement" wb
         (Card.sort_newest_first (mjoin (Account.read_file <$> account_files)))) ∧
  (∀ rows wb,
     CreditCard.process_transactions rows wb
     = Card.update_workbook "Carte Cred"
         ["Date"; "Merchant"; "Amount"; "Empty"; "Category"]
         ["Date"; "Merchant"; "Amount"; "Empty"; "Category"]
         "Duplicate entry" wb
         (Card.sort_newest_first (CreditCard.read_rows rows))) ∧
  (∀ oldest st t,
     Bank.trans_tuple t ∈ Bank.existing_data st →
     Bank.write_step oldest st t = Bank.skip_duplicate st ∧
     Bank.sheet_bcv (Bank.write_step oldest st t) = Bank.sheet_bcv st) ∧
  (∀ rows wb,
     Card.saved (Bank.process_bank_statements rows wb) !! "Duplicates"
     = wb !! "Duplicates").
Proof.
  repeat apply conj.
  - intros sheet_name titles dup_titles reason wb l1 t l2 st0 oldest st1 Hin.
    eexists. split; [apply update_workbook_saved_duplicates|].
    fold st0. fold oldest.
    rewrite write_loop_app, write_loop_cons. fold st1.
    rewrite (write_step_duplicate _ _ _ _ Hin).
    destruct (write_duplicate_row reason st1 t) as (HA & HB & HC & HD & HE).
    unfold Card.duplicate_row_at.
    rewrite !duplicate_worksheet_write_loop_frame by (cbn; lia).
    done.
  - intros account_files wb Hne. unfold Account.process_account_statements.
    destruct (mjoin (Account.read_file <$> account_files)); [congruence|reflexivity].
  - reflexivity.
  - intros oldest st t Hin. rewrite (bank_write_step_duplicate _ _ _ Hin). done.
  - intros rows wb. unfold Bank.process_bank_statements.
    destruct (Bank.read_rows wb rows); [reflexivity|].
    cbn [Card.saved]. apply lookup_insert_ne. discriminate.
Qed.

End DuplicateRouting.

Section DuplicateRoutingExamples.
Import Datetime Py Sheet Examples.
Local Open Scope nat_scope.
Local Open Scope list_scope.
Local Existing Instance PlainDecimal.runtime.

Lemma duplicates_routing_witness :
  ∃ d, Card.saved (Card.update_workbook "Carte Cred"
                     ["Date"; "Merchant"; "Amount"; "Empty"; "Category"]
                     ["Date"; "Merchant"; "Amount"; "Empty"; "Category"]
                     "Duplicate entry" ∅ ([coop_late] ++ coop_early :: []))
         !! "Duplicates" = Some d ∧
       Card.duplicate_row_at d
         (Card.next_duplicate_row
            (Card.write_loop "Duplicate entry"
               (Card.oldest_date
                  (Card.existing_data
                     (Card.loop_start "Carte Cred"
                        ["Date"; "Merchant"; "Amount"; "Empty"; "Category"]
                        ["Date"; "Merchant"; "Amount"; "Empty"; "Category"] ∅))
                  ([coop_late] ++ coop_early :: []))
               (Card.loop_start "Carte Cred"
                  ["Date"; "Merchant"; "Amount"; "Empty"; "Category"]
                  ["Date"; "Merchant"; "Amount"; "Empty"; "Category"] ∅)
               [coop_late]))
         coop_early "Duplicate entry".
Proof.
  apply (proj1 duplicates_routing "Carte Cred"
           ["Date"; "Merchant"; "Amount"; "Empty"; "Category"]
           ["Date"; "Merchant"; "Amount"; "Empty"; "Category"]
           "Duplicate entry" ∅ [coop_late] coop_early []).
  apply (bool_decide_unpack _). vm_compute. exact I.
Defined.

(** C2 as stated fails for the bank pipeline: a candidate whose key is in
    the existing-key set is counted as a duplicate, and the saved workbook
    has no sheet ["Duplicates"] at all. *)
Lemma bank_duplicate_not_written_counterexample :
  Bank.trans_tuple duol
    ∈ Bank.existing_data (Bank.initial_state bcv_with_duol) ∧
  Bank.read_rows workbook_with_duol [duol_row] = [duol] ∧
  Card.duplicates (Bank.process_bank_statements [duol_row] workbook_with_duol) = 1 ∧
  Card.added (Bank.process_bank_statements [duol_row] workbook_with_duol) = 0 ∧
  Card.saved (Bank.process_bank_statements [duol_row] workbook_with_duol)
    !! "Duplicates" = None.
Proof.
  split; [apply (bool_decide_unpack _); vm_compute; exact I|].
  split; [vm_compute; reflexivity|].
  split; [vm_compute; reflexivity|].
  split; vm_compute; reflexivity.
Qed.

End DuplicateRoutingExamples.

(** ** Which persisted rows enter the existing-key set *)

Section ExistingKeys.
Import Datetime Py Sheet.
Local Open Scope nat_scope.
Local Open Scope list_scope.
Context `{Runtime}.

Lemma truthy_false_blank v : truthy v = false ↔ blank v.
Proof.
  unfold blank. destruct v as [|s|q|dt]; cbn.
  - split; [auto | reflexivity].
  - destruct s; cbn; split; try done; try (intros [|[|]]; done); auto.
  - rewrite bool_decide_eq_false. split.
    + intros Hq. right; right. f_equal. destruct (decide (q = 0%Qc)); [done|contradiction].
    + intros [|[|[= ->]]]; try done. auto.
  - split; [done | intros [|[|]]; done].
Qed.

Lemma truthy_true_not_blank v : truthy v = true ↔ ¬ blank v.
Proof.
  rewrite <- truthy_false_blank. destruct (truthy v); split; congruence.
Qed.

Lemma elem_of_card_scan (ws : worksheet) (rows : list nat) (X : gset Card.key)
    (k : Card.key) :
  k ∈ foldl (λ existing_data row,
               match Card.row_key ws row with
               | Some k => {[k]} ∪ existing_data
               | None => existing_data
               end) X rows
  ↔ k ∈ X ∨ ∃ row, row ∈ rows ∧ Card.row_key ws row = Some k.
Proof.
  revert X. induction rows as [|r rows IH]; intros X; cbn [foldl].
  - split; [auto | intros [|(row & Hin & _)]; [done | inversion Hin]].
  - rewrite IH. destruct (Card.row_key ws r) as [k'|] eqn:Hr.
    + rewrite elem_of_union, elem_of_singleton. split.
      * intros [[-> | Hin] | (row & Hin & Hk)]; eauto using list_elem_of_here.
        right. exists row. split; [by apply list_elem_of_further | done].
      * intros [Hin | (row & Hin & Hk)]; [auto|].
        apply elem_of_cons in Hin as [-> | Hin]; [|eauto].
        left; left. congruence.
    + split.
      * intros [Hin | (row & Hin & Hk)]; [auto|].
        right. exists row. split; [by apply list_elem_of_further | done].
      * intros [Hin | (row & Hin & Hk)]; [auto|].
        apply elem_of_cons in Hin as [-> | Hin]; [congruence | eauto].
Qed.

Lemma elem_of_bank_scan (ws : worksheet) (rows : list nat) (X : gset Bank.key)
    (k : Bank.key) :
  k ∈ foldl (λ existing_data row,
               match Bank.row_key ws row with
               | Some k => {[k]} ∪ existing_data
               | None => existing_data
               end) X rows
  ↔ k ∈ X ∨ ∃ row, row ∈ rows ∧ Bank.row_key ws row = Some k.
Proof.
  revert X. induction rows as [|r rows IH]; intros X; cbn [foldl].
  - split; [auto | intros [|(row & Hin & _)]; [done | inversion Hin]].
  - rewrite IH. destruct (Bank.row_key ws r) as [k'|] eqn:Hr.
    + rewrite elem_of_union, elem_of_singleton. split.
      * intros [[-> | Hin] | (row & Hin & Hk)]; eauto using list_elem_of_here.
        right. exists row. split; [by apply list_elem_of_further | done].
      * intros [Hin | (row & Hin & Hk)]; [auto|].
        apply elem_of_cons in Hin as [-> | Hin]; [|eauto].
        left; left. congruence.
    + split.
      * intros [Hin | (row & Hin & Hk)]; [auto|].
        right. exists row. split; [by apply list_elem_of_further | done].
      * intros [Hin | (row & Hin & Hk)]; [auto|].
        apply elem_of_cons in Hin as [-> | Hin]; [congruence | eauto].
Qed.

Lemma elem_of_seq_1 row last : row ∈ seq 1 last ↔ 1 ≤ row ≤ last.
Proof. rewrite list_elem_of_In, in_seq. lia. Qed.

Lemma card_new_key_after_loop reason oldest st l1 t :
  Card.trans_tuple t ∉ Card.existing_data st →
  Forall (λ u, Card.trans_tuple u ≠ Card.trans_tuple t) l1 →
  Card.trans_tuple t ∉ Card.existing_data (Card.write_loop reason oldest st l1).
Proof.
  intros Hnew Hl1. rewrite existing_data_write_loop.
  rewrite not_elem_of_union, elem_of_list_to_set, list_elem_of_fmap.
  split; [exact Hnew|]. intros (u & Hu & Hin).
  rewrite Forall_forall in Hl1. exact (Hl1 u Hin (eq_sym Hu)).
Qed.

(** A key of the existing-key set has a non-zero amount, unless an amount
    cell of the ledger reads as zero without being the number zero. *)
Lemma card_row_key_amount ws row d m a :
  (Py.float (cell_value ws row ColC) = Some (Num 0%Qc) →
   cell_value ws row ColC = PNumber 0%Qc) →
  Card.row_key ws row = Some (d, m, a) → a ≠ 0%Qc.
Proof.
  intros Hzero. unfold Card.row_key.
  destruct (truthy (cell_value ws row ColA)); [|discriminate].
  destruct (truthy (cell_value ws row ColB)); [|discriminate].
  destruct (truthy (cell_value ws row ColC)) eqn:Ht; [|discriminate]. cbn.
  destruct (Py.float (cell_value ws row ColC)) as [a'|] eqn:Hf; [|discriminate].
  intros [= _ _ ->] ->. rewrite (Hzero eq_refl) in Ht. cbn in Ht.
  rewrite bool_decide_eq_true in Ht. contradiction.
Qed.

End ExistingKeys.

(** ** Running a pipeline twice *)

Section SecondRun.
Import Datetime Py Sheet.
Local Open Scope nat_scope.
Local Open Scope list_scope.

(** The two date formats never give the same text: the third character
    of ["%d.%m.%Y"] is a point, that of ["%Y-%m-%d"] is a digit or a
    dash. *)
Lemma strftime_formats_differ dt : strftime_dmY_dot dt ≠ strftime_Ymd dt.
Proof.
  intros Heq. apply (f_equal (String.get 2)) in Heq.
  unfold strftime_dmY_dot, strftime_Ymd, year_digits, pad4, pad2 in Heq.
  assert (Hdot : ∀ k, Some "."%char ≠ Some (digit_char k)).
  { intros k [= Hk]. pose proof (is_digit_digit_char k) as Hd.
    rewrite <- Hk in Hd. discriminate Hd. }
  destruct (year dt <? 10); [exact (Hdot _ Heq)|].
  destruct (year dt <? 100); [discriminate Heq|].
  destruct (year dt <? 1000); exact (Hdot _ Heq).
Qed.

(** The key read back from a row that the write loop has just appended is
    never the key of the candidate that the row was written from. *)
Lemma persisted_key_differs `{Runtime} oldest st t :
  Card.row_key (Card.worksheet_ (Card.write_new oldest st t)) (Card.next_row st)
  ≠ Some (Card.trans_tuple t).
Proof.
  destruct (write_new_row oldest st t) as (HA & HB & HC & _).
  unfold Card.row_key. rewrite HA, HB, HC.
  destruct (_ && _); [|discriminate]. cbn.
  intros [= Heq]. exact (strftime_formats_differ _ Heq).
Qed.

Lemma bank_persisted_key_differs `{Runtime} oldest st t :
  Bank.row_key (Bank.sheet_bcv (Bank.write_new oldest st t)) (Bank.next_row st)
  ≠ Some (Bank.trans_tuple t).
Proof.
  assert (HA : cell_value (Bank.sheet_bcv (Bank.write_new oldest st t))
                 (Bank.next_row st) ColA
               = PText (strftime_dmY_dot (Bank.date t))).
  { unfold Bank.write_new. cbn [Bank.sheet_bcv].
    destruct (PyStr.truthy (Bank.category t)), (PyStr.truthy (Bank.sub_category t)),
             (Bank.is_oldest oldest t); cbn [foldl]; read_cell; reflexivity. }
  unfold Bank.row_key. rewrite HA.
  destruct (_ && _); [|discriminate].
  destruct (if truthy _ then _ else _); [|discriminate].
  destruct (if truthy _ then _ else _); [|discriminate].
  cbn. intros [= Heq _ _ _]. exact (strftime_formats_differ _ Heq).
Qed.

End SecondRun.

Section SecondRunExamples.
Import Datetime Py Sheet Examples.
Local Open Scope nat_scope.
Local Open Scope list_scope.
Local Existing Instance PlainDecimal.runtime.

(** C1 at a failing input: the account-statement pipeline is run twice on
    the same one-row file, the second time on the workbook that the first
    run saved.  The second run appends the row again and routes nothing
    to the duplicates sheet: the key read back from the persisted row
    carries the date as ["13.11.2025"], the key of the candidate as
    ["2025-11-13"]. *)
Theorem second_run_appends_again :
  let first := Account.process_account_statements [[migros_row]] ∅ in
  let second := Account.process_account_statements [[migros_row]] (Card.saved first) in
  let ledger := sheet_of (Card.saved second) "Revolut" in
  Card.added first = 1 ∧ Card.duplicates first = 0 ∧
  Card.added second = 1 ∧ Card.duplicates second = 0 ∧
  cell_value ledger 2 ColA = PText "13.11.2025" ∧
  cell_value ledger 2 ColB = PText "Migros" ∧
  cell_value ledger 3 ColA = PText "13.11.2025" ∧
  cell_value ledger 3 ColB = PText "Migros" ∧
  cell_value (sheet_of (Card.saved second) "Duplicates") 2 ColA = PNone ∧
  (fst <$> Card.row_key ledger 2) = Some ("13.11.2025", "Migros") ∧
  (fst ∘ Card.trans_tuple <$> Account.read_file [migros_row])
    = [("2025-11-13", "Migros")].
Proof.
  cbv zeta. repeat apply conj; vm_compute; reflexivity.
Qed.

(** C5 at a failing input: two card payments of the same shop and amount
    on one day, at 10:00 and at 09:00.  The later one is appended, the
    earlier one is a duplicate of it; the appended row is the oldest (the
    only) new row of the run, and it is not bold, because the date it is
    compared with is that of the 09:00 payment. *)
Theorem oldest_appended_row_not_bold :
  let candidates :=
    Card.sort_newest_first (Account.read_file [coop_early_row; coop_late_row]) in
  let run := Account.process_account_statements [[coop_early_row; coop_late_row]] ∅ in
  let ledger := sheet_of (Card.saved run) "Revolut" in
  (Card.date <$> candidates)
    = [mk_datetime 2025 1 5 10 0 0; mk_datetime 2025 1 5 9 0 0] ∧
  (fst ∘ Card.trans_tuple <$> candidates)
    = [("2025-01-05", "Coop"); ("2025-01-05", "Coop")] ∧
  Card.oldest_date ∅ candidates = Some (mk_datetime 2025 1 5 9 0 0) ∧
  Card.added run = 1 ∧ Card.duplicates run = 1 ∧
  cell_value ledger 2 ColA = PText "05.01.2025" ∧
  cell_value ledger 2 ColB = PText "Coop" ∧
  cell_value ledger 3 ColA = PNone ∧
  cell_value (sheet_of (Card.saved run) "Duplicates") 2 ColA = PText "05.01.2025" ∧
  cell_bold ledger 2 ColA = false ∧
  cell_bold ledger 2 ColB = false ∧
  cell_bold ledger 2 ColC = false.
Proof.
  cbv zeta. repeat apply conj; vm_compute; reflexivity.
Qed.

End SecondRunExamples.

(** ** The order on datetimes *)

Section DatetimeOrder.
Import Datetime.
Local Open Scope nat_scope.
Local Open Scope list_scope.

Lemma lex_compare_antisym a b : lex_compare b a = CompOpp (lex_compare a b).
Proof.
  revert b. induction a as [|x a IH]; intros [|y b]; cbn; try reflexivity.
  rewrite (Nat.compare_antisym x y). destruct (x ?= y); cbn; auto.
Qed.

Lemma lex_compare_eq a b : lex_compare a b = Eq → a = b.
Proof.
  revert b. induction a as [|x a IH]; intros [|y b]; cbn; try done.
  destruct (Nat.compare_spec x y); try done. intros Hab. f_equal; auto.
Qed.

Lemma lex_compare_lt_trans a b c :
  lex_compare a b = Lt → lex_compare b c = Lt → lex_compare a c = Lt.
Proof.
  revert b c. induction a as [|x a IH]; intros [|y b] [|z c]; cbn; try done.
  destruct (Nat.compare_spec x y), (Nat.compare_spec y z); try done; subst.
  - rewrite Nat.compare_refl. apply IH.
  - intros _ _. destruct (Nat.compare_spec y z); [lia | done | lia].
  - intros _ _. destruct (Nat.compare_spec x z); [lia | done | lia].
  - intros _ _. destruct (Nat.compare_spec x z); [lia | done | lia].
Qed.

Lemma ltb_trans a b c : ltb a b = true → ltb b c = true → ltb a c = true.
Proof.
  unfold ltb, compare. intros Hab Hbc.
  rewrite (lex_compare_lt_trans (fields a) (fields b) (fields c)); [done|..].
  - destruct (lex_compare (fields a) (fields b)); done.
  - destruct (lex_compare (fields b) (fields c)); done.
Qed.

(** If [c] is not above [l] and [l] is not above [w], then [c] is not
    above [w]. *)
Lemma gtb_false_trans c l w :
  gtb c l = false → gtb l w = false → gtb c w = false.
Proof.
  unfold gtb, ltb, compare. intros Hcl Hlw.
  destruct (lex_compare (fields l) (fields c)) eqn:E1; try done.
  - apply lex_compare_eq in E1. rewrite <- E1. exact Hlw.
  - destruct (lex_compare (fields w) (fields l)) eqn:E2; try done.
    + apply lex_compare_eq in E2. rewrite E2, E1. reflexivity.
    + assert (H1 : lex_compare (fields c) (fields l) = Lt)
        by (rewrite lex_compare_antisym, E1; reflexivity).
      assert (H2 : lex_compare (fields l) (fields w) = Lt)
        by (rewrite lex_compare_antisym, E2; reflexivity).
      rewrite lex_compare_antisym, (lex_compare_lt_trans _ _ _ H1 H2). reflexivity.
Qed.

Lemma gtb_irrefl a : gtb a a = false.
Proof.
  unfold gtb, ltb, compare. generalize (fields a). intros l.
  induction l as [|x l IH]; cbn; [reflexivity|].
  rewrite Nat.compare_refl. exact IH.
Qed.

End DatetimeOrder.

(** ** The bank pipeline: watermark and amounts *)

Section BankReader.
Import Datetime Py Sheet Bank.
Local Open Scope nat_scope.
Local Open Scope list_scope.
Context `{Runtime}.

(** The scan keeps the greatest date met so far. *)
Lemma latest_date_fold sheet (rows : list nat) acc :
  let ds := omap (λ row, current_date (cell_value sheet row ColA)) rows in
  match foldl (latest_date_step sheet) acc rows with
  | None => acc = None ∧ ds = []
  | Some w =>
      (acc = Some w ∨ w ∈ ds) ∧
      (∀ a, acc = Some a → gtb a w = false) ∧
      Forall (λ d, gtb d w = false) ds
  end.
Proof.
  revert acc. induction rows as [|r rows IH]; intros acc; cbn [foldl omap list_omap].
  - destruct acc as [w|]; [|done]. repeat split; [auto | | constructor].
    intros a [= ->]. apply gtb_irrefl.
  - specialize (IH (latest_date_step sheet acc r)). cbv zeta in IH.
    remember (latest_date_step sheet acc r) as acc' eqn:Hacc'.
    unfold latest_date_step in Hacc'.
    destruct (current_date (cell_value sheet r ColA)) as [c|] eqn:Hc.
    2:{ destruct acc; subst acc'; exact IH. }
    destruct (foldl (latest_date_step sheet) acc' rows) as [w|].
    2:{ destruct acc as [l|]; [destruct (gtb c l)|]; subst acc';
        destruct IH; discriminate. }
    destruct IH as (Hw & Hacc & Hds).
    destruct acc as [l|].
    + destruct (gtb c l) eqn:Hcl; subst acc'.
      * assert (Hcw : gtb c w = false) by (apply Hacc; reflexivity).
        repeat split.
        -- right. destruct Hw as [[= ->] | Hw]; [left | right]; done.
        -- intros a [= ->]. destruct (gtb a w) eqn:Haw; [|reflexivity].
           unfold gtb in *. rewrite (ltb_trans _ _ _ Haw Hcl) in Hcw. discriminate.
        -- constructor; assumption.
      * assert (Hlw : gtb l w = false) by (apply Hacc; reflexivity).
        repeat split.
        -- destruct Hw as [Hw | Hw]; [left | right; right]; done.
        -- intros a [= ->]. exact Hlw.
        -- constructor; [|assumption]. exact (gtb_false_trans _ _ _ Hcl Hlw).
    + subst acc'. assert (Hcw : gtb c w = false) by (apply Hacc; reflexivity).
      repeat split.
      * right. destruct Hw as [[= ->] | Hw]; [left | right]; done.
      * intros a [=].
      * constructor; assumption.
Qed.

Lemma read_row_filter w row :
  read_row (Some w) row
  = match read_row None row with
    | Some t => if gtb (date t) w then Some t else None
    | None => None
    end.
Proof.
  unfold read_row.
  destruct (isna (col0 row)); [reflexivity|].
  destruct (parse_date (col0 row)) as [d|]; [|reflexivity].
  destruct (isna (col1 row)); [reflexivity|].
  destruct (_ && _); [reflexivity|].
  destruct (Categorizer.clean_bank_operation_and_categorize _) as [[o c] s].
  destruct (float_unless_zero (value_or_zero (col2 row))),
           (float_unless_zero (value_or_zero (col3 row)));
    cbn; destruct (gtb d w); reflexivity.
Qed.

(** C6, as the code has it.  Let [w] be the greatest parseable date in
    column A of the sheet ["2025"] from row 2 down (row 1 is passed over
    as the header).  Without the sheet, or without such a date, there is
    no watermark and every row is read as it would be without the filter;
    otherwise [w] is one of those dates and none of them is after it, and
    a row yields a candidate exactly when it would yield one without the
    filter and its execution date is strictly after [w]. *)
Theorem watermark_filter :
  (∀ wb, wb !! "2025" = None → latest_date wb = None) ∧
  (∀ wb sheet_2025,
     wb !! "2025" = Some sheet_2025 →
     (latest_date wb = None ↔ reference_dates sheet_2025 = []) ∧
     (∀ w, latest_date wb = Some w →
           w ∈ reference_dates sheet_2025 ∧
           Forall (λ d, gtb d w = false) (reference_dates sheet_2025))) ∧
  (∀ wb rows,
     latest_date wb = None → read_rows wb rows = omap (read_row None) rows) ∧
  (∀ w row,
     read_row (Some w) row
     = match read_row None row with
       | Some t => if gtb (date t) w then Some t else None
       | None => None
       end) ∧
  (∀ latest row t,
     read_row latest row = Some t → parse_date (col0 row) = Some (date t)).
Proof.
  repeat apply conj.
  - intros wb Hwb. unfold latest_date. rewrite Hwb. reflexivity.
  - intros wb sheet Hwb. unfold latest_date, scan_latest_date, reference_dates.
    rewrite Hwb.
    pose proof (latest_date_fold sheet (seq 2 (max_row sheet - 1)) None) as Hfold.
    cbv zeta in Hfold.
    destruct (foldl (latest_date_step sheet) None (seq 2 (max_row sheet - 1)))
      as [w|].
    + destruct Hfold as ([Hw | Hw] & _ & Hds); [discriminate|].
      split.
      * split; [discriminate|]. intros Hnil. rewrite Hnil in Hw. inversion Hw.
      * intros w' [= <-]. auto.
    + destruct Hfold as [_ Hnil]. split; [tauto | discriminate].
  - intros wb rows Hwb. unfold read_rows. rewrite Hwb. reflexivity.
  - exact read_row_filter.
  - intros latest row t. unfold read_row.
    destruct (isna (col0 row)); [discriminate|].
    destruct (parse_date (col0 row)) as [d|]; [|discriminate].
    destruct (isna (col1 row)); [discriminate|].
    destruct (_ && _); [discriminate|].
    destruct (Categorizer.clean_bank_operation_and_categorize _) as [[o c] s].
    destruct (match latest with Some l => gtb d l | None => true end); [|discriminate].
    destruct (float_unless_zero (value_or_zero (col2 row))),
             (float_unless_zero (value_or_zero (col3 row))); try discriminate.
    intros [= <-]. reflexivity.
Qed.

Lemma is_zero_absent_or_zero v :
  v = PNone ∨ v = PNumber 0%Qc → is_zero (value_or_zero v) = true.
Proof. intros [-> | ->]; cbn; apply bool_decide_eq_true; reflexivity. Qed.

(** C7, as the code has it.  A row whose debit and credit are both absent
    or the number zero is left out.  A candidate that is read carries
    [float] of what its row holds, with sign, and nothing else is
    checked: when the two cells are numbers or absent, the candidate has
    exactly those numbers (zero for an absent one), at least one of them
    is not zero, and the write loop puts them into columns C and D, a
    zero as the empty text. *)
Theorem bank_row_amounts :
  (∀ latest row,
     col2 row = PNone ∨ col2 row = PNumber 0%Qc →
     col3 row = PNone ∨ col3 row = PNumber 0%Qc →
     read_row latest row = None) ∧
  (∀ latest row t,
     read_row latest row = Some t →
     float_unless_zero (value_or_zero (col2 row)) = Some (debit t) ∧
     float_unless_zero (value_or_zero (col3 row)) = Some (credit t) ∧
     ¬ (is_zero (value_or_zero (col2 row)) = true ∧
        is_zero (value_or_zero (col3 row)) = true)) ∧
  (∀ latest row t,
     read_row latest row = Some t →
     numeric_or_absent (col2 row) →
     numeric_or_absent (col3 row) →
     value_or_zero (col2 row) = PNumber (debit t) ∧
     value_or_zero (col3 row) = PNumber (credit t) ∧
     (debit t ≠ 0%Qc ∨ credit t ≠ 0%Qc)) ∧
  (∀ oldest st t,
     cell_value (sheet_bcv (write_new oldest st t)) (next_row st) ColC
       = amount_cell (debit t) ∧
     cell_value (sheet_bcv (write_new oldest st t)) (next_row st) ColD
       = amount_cell (credit t)).
Proof.
  assert (Hread : ∀ latest row t,
     read_row latest row = Some t →
     float_unless_zero (value_or_zero (col2 row)) = Some (debit t) ∧
     float_unless_zero (value_or_zero (col3 row)) = Some (credit t) ∧
     ¬ (is_zero (value_or_zero (col2 row)) = true ∧
        is_zero (value_or_zero (col3 row)) = true)).
  { intros latest row t. unfold read_row.
    destruct (isna (col0 row)); [discriminate|].
    destruct (parse_date (col0 row)) as [d|]; [|discriminate].
    destruct (isna (col1 row)); [discriminate|].
    destruct (is_zero (value_or_zero (col2 row)) && is_zero (value_or_zero (col3 row)))
      eqn:Hz; [discriminate|].
    destruct (Categorizer.clean_bank_operation_and_categorize _) as [[o c] s].
    destruct (match latest with Some l => gtb d l | None => true end); [|discriminate].
    destruct (float_unless_zero (value_or_zero (col2 row))) as [dq|]; [|discriminate].
    destruct (float_unless_zero (value_or_zero (col3 row))) as [cq|]; [|discriminate].
    intros [= <-]. cbn. repeat split.
    intros [H2 H3]. rewrite H2, H3 in Hz. discriminate. }
  repeat apply conj.
  - intros latest row H2 H3. unfold read_row.
    destruct (isna (col0 row)); [reflexivity|].
    destruct (parse_date (col0 row)) as [d|]; [|reflexivity].
    destruct (isna (col1 row)); [reflexivity|].
    rewrite (is_zero_absent_or_zero _ H2), (is_zero_absent_or_zero _ H3). reflexivity.
  - exact Hread.
  - intros latest row t Ht Hd Hc.
    destruct (Hread latest row t Ht) as (Hfd & Hfc & Hnz).
    assert (Hnum : ∀ v a, numeric_or_absent v →
              float_unless_zero (value_or_zero v) = Some a →
              value_or_zero v = PNumber a ∧ (is_zero (value_or_zero v) = false → a ≠ 0%Qc)).
    { intros v a [-> | [[x|i] ->]]; unfold float_unless_zero; cbn.
      - rewrite bool_decide_eq_true_2 by reflexivity. intros [= <-]. split; [done|].
        discriminate.
      - case_bool_decide as Hx; intros [= <-]; [rewrite Hx|]; split; done.
      - rewrite bool_decide_eq_true_2 by reflexivity. intros [= <-]. split; [done|].
        discriminate. }
    destruct (Hnum _ _ Hd Hfd) as [Hvd Hd0], (Hnum _ _ Hc Hfc) as [Hvc Hc0].
    split; [exact Hvd|]. split; [exact Hvc|].
    destruct (is_zero (value_or_zero (col2 row))) eqn:E2; [|left; auto].
    destruct (is_zero (value_or_zero (col3 row))) eqn:E3; [|right; auto].
    exfalso. apply Hnz. split; reflexivity.
  - intros oldest st t. unfold write_new. cbn [sheet_bcv].
    destruct (PyStr.truthy (category t)), (PyStr.truthy (sub_category t)),
             (is_oldest oldest t); cbn [foldl]; split; read_cell; reflexivity.
Qed.

End BankReader.

Section BankReaderExamples.
Import Datetime Py Sheet Examples.
Local Open Scope nat_scope.
Local Open Scope list_scope.
Local Existing Instance PlainDecimal.runtime.

Lemma watermark_filter_witness :
  Bank.latest_date ∅ = None ∧
  of_date 2025 1 1 ∈ Bank.reference_dates sheet_2025_no_header ∧
  Forall (λ d, gtb d (of_date 2025 1 1) = false)
         (Bank.reference_dates sheet_2025_no_header).
Proof.
  destruct watermark_filter as (Habsent & Hsheet & _).
  split; [apply Habsent; reflexivity|].
  destruct (Hsheet workbook_2025_no_header sheet_2025_no_header) as [_ Hw];
    [vm_compute; reflexivity|].
  apply Hw. vm_compute. reflexivity.
Defined.

(** C6 as stated fails when row 1 of the sheet ["2025"] holds a date: the
    greatest parseable date of column A is then 31 December 2025, in row
    1, but the scan starts at row 2 and takes 1 January 2025 as the
    watermark, so a row dated 1 June 2025, which is not after the
    greatest date of the column, is read as a candidate. *)
Lemma watermark_first_row_counterexample :
  cell_value sheet_2025_no_header 1 ColA = PDatetime (of_date 2025 12 31) ∧
  Bank.current_date (cell_value sheet_2025_no_header 1 ColA)
    = Some (of_date 2025 12 31) ∧
  Bank.latest_date workbook_2025_no_header = Some (of_date 2025 1 1) ∧
  parse_date (Bank.col0 june_row) = Some (of_date 2025 6 1) ∧
  gtb (of_date 2025 6 1) (of_date 2025 12 31) = false ∧
  (Bank.date <$> Bank.read_rows workbook_2025_no_header [june_row])
    = [of_date 2025 6 1] ∧
  Card.added (Bank.process_bank_statements [june_row] workbook_2025_no_header) = 1.
Proof. repeat apply conj; vm_compute; reflexivity. Qed.

Lemma bank_row_amounts_witness :
  Bank.read_row None
    (Bank.mk_xlsx_row (PDatetime (of_date 2025 11 13)) (PText "Sunrise")
       PNone (PNumber 0%Qc)) = None ∧
  Bank.value_or_zero (Bank.col2 duol_row) = PNumber (Bank.debit duol) ∧
  Bank.value_or_zero (Bank.col3 duol_row) = PNumber (Bank.credit duol) ∧
  (Bank.debit duol ≠ 0%Qc ∨ Bank.credit duol ≠ 0%Qc).
Proof.
  destruct bank_row_amounts as (Hdrop & _ & Hnum & _).
  split.
  - apply Hdrop; [left | right]; reflexivity.
  - apply (Hnum None duol_row duol).
    + vm_compute. reflexivity.
    + right. eexists. reflexivity.
    + left. reflexivity.
Defined.

(** C7 as stated fails: nothing checks the sign of the two amounts or
    that one of them is zero.  A row with debit -5 and credit 3 is read as
    a candidate with exactly these amounts, and the run writes them into
    columns C and D of the ledger. *)
Lemma bank_amounts_unchecked_counterexample :
  let run := Bank.process_bank_statements [reversal_row] ∅ in
  (Bank.debit <$> Bank.read_rows ∅ [reversal_row]) = [Num (q (-5) 1)] ∧
  (Bank.credit <$> Bank.read_rows ∅ [reversal_row]) = [Num (q 3 1)] ∧
  (q (-5) 1 < 0)%Qc ∧ q (-5) 1 ≠ 0%Qc ∧ q 3 1 ≠ 0%Qc ∧
  Card.added run = 1 ∧
  cell_value (sheet_of (Card.saved run) "BCV") 2 ColC = PNumber (q (-5) 1) ∧
  cell_value (sheet_of (Card.saved run) "BCV") 2 ColD = PNumber (q 3 1).
Proof.
  cbv zeta. repeat apply conj; try (vm_compute; reflexivity).
  - intros Heq. apply (f_equal Qcanon.this) in Heq. vm_compute in Heq. discriminate Heq.
  - intros Heq. apply (f_equal Qcanon.this) in Heq. vm_compute in Heq. discriminate Heq.
Qed.

End BankReaderExamples.

(** * Further properties of the program *)

(** ** Where appending starts *)

Section LastRow.
Import Py Sheet.
Local Open Scope nat_scope.
Local Open Scope list_scope.

Lemma max_row_spec (ws : worksheet) :
  1 ≤ max_row ws ∧ ∀ r c x, ws !! (r, c) = Some x → r ≤ max_row ws.
Proof.
  unfold max_row.
  apply (map_fold_weak_ind
           (λ (m : nat) (ws : worksheet),
              1 ≤ m ∧ ∀ r c x, ws !! (r, c) = Some x → r ≤ m)).
  - split; [lia|]. intros r c x Hx. rewrite lookup_empty in Hx. discriminate.
  - intros [r0 c0] x0 m acc _ [Hone Hall]. cbn [fst]. split; [lia|].
    intros r c x Hx. rewrite lookup_insert in Hx.
    destruct (decide ((r0, c0) = (r, c))) as [[= -> ->]|]; [lia|].
    specialize (Hall r c x Hx). lia.
Qed.

Lemma cell_value_beyond_max_row (ws : worksheet) r c :
  max_row ws < r → cell_value ws r c = PNone.
Proof.
  intros Hr. unfold cell_value. destruct (ws !! (r, c)) as [x|] eqn:Hx; [|reflexivity].
  apply (proj2 (max_row_spec ws)) in Hx. lia.
Qed.

(** The scan for the last row with a value in column A, over the rows
    [1 .. n]. *)
Lemma last_row_scan (ws : worksheet) n :
  let last := foldl (λ last row, if is_none (cell_value ws row ColA) then last else row)
                    1 (seq 1 n) in
  1 ≤ last ≤ Nat.max 1 n ∧
  (∀ r, last < r ≤ n → cell_value ws r ColA = PNone) ∧
  (last = 1 ∨ cell_value ws last ColA ≠ PNone).
Proof.
  induction n as [|n IH]; cbn zeta.
  - cbn. repeat split; [lia | lia | intros r Hr; lia | left; reflexivity].
  - rewrite seq_S, foldl_app. cbn [foldl]. cbn zeta in IH.
    destruct IH as (Hbound & Hempty & Hlast).
    replace (1 + n) with (S n) by lia.
    destruct (cell_value ws (S n) ColA) eqn:Hcell; cbn [is_none].
    + repeat split; [lia | lia | | exact Hlast].
      intros r Hr. destruct (decide (r = S n)) as [-> | Hne]; [exact Hcell|].
      apply Hempty. lia.
    + repeat split; [lia | lia | intros r Hr; lia | right; congruence].
    + repeat split; [lia | lia | intros r Hr; lia | right; congruence].
    + repeat split; [lia | lia | intros r Hr; lia | right; congruence].
Qed.

(** X1: [last_row] is a row between 1 and [max_row]; every row below it has
    an empty column A, in the sheet and beyond its last cell; and it is
    row 1 or a row whose column A holds a value.  So the row at which a
    pipeline starts to write, [last_row + 1], and all rows after it, hold
    no date. *)
Theorem last_row_is_last_dated_row (ws : worksheet) :
  1 ≤ last_row ws ≤ max_row ws ∧
  (∀ r, last_row ws < r → cell_value ws r ColA = PNone) ∧
  (last_row ws = 1 ∨ cell_value ws (last_row ws) ColA ≠ PNone).
Proof.
  pose proof (last_row_scan ws (max_row ws)) as Hscan. cbn zeta in Hscan.
  fold (last_row ws) in Hscan. destruct Hscan as (Hbound & Hempty & Hlast).
  pose proof (proj1 (max_row_spec ws)) as Hone.
  repeat split; [lia | lia | | exact Hlast].
  intros r Hr. destruct (decide (r ≤ max_row ws)) as [Hle | Hgt].
  - apply Hempty. lia.
  - apply cell_value_beyond_max_row. lia.
Qed.

End LastRow.

Section LastRowExample.
Import Py Sheet Examples.
Local Open Scope nat_scope.

Lemma last_row_is_last_dated_row_witness :
  cell_value revolut_with_tesla 3 ColA = PNone.
Proof.
  apply (proj1 (proj2 (last_row_is_last_dated_row revolut_with_tesla)) 3).
  vm_compute. lia.
Defined.

End LastRowExample.

(** ** What a run leaves alone *)

Section BankFrame.
Import Datetime Py Sheet Bank.
Local Open Scope nat_scope.
Local Open Scope list_scope.

Variable oldest : option datetime.

Lemma bank_next_row_write_step st t :
  next_row st ≤ next_row (write_step oldest st t).
Proof. unfold write_step. case_bool_decide; cbn; lia. Qed.

Lemma bank_sheet_write_step_frame st t r c :
  r < next_row st →
  cell_value (sheet_bcv (write_step oldest st t)) r c = cell_value (sheet_bcv st) r c ∧
  cell_bold (sheet_bcv (write_step oldest st t)) r c = cell_bold (sheet_bcv st) r c.
Proof.
  intros Hr. unfold write_step. case_bool_decide; [done|].
  unfold write_new. cbn [sheet_bcv].
  destruct (PyStr.truthy (category t)), (PyStr.truthy (sub_category t)),
           (is_oldest oldest t); cbn [foldl]; split; read_cell; reflexivity.
Qed.

Lemma bank_sheet_write_loop_frame l st r c :
  r < next_row st →
  cell_value (sheet_bcv (write_loop oldest st l)) r c = cell_value (sheet_bcv st) r c ∧
  cell_bold (sheet_bcv (write_loop oldest st l)) r c = cell_bold (sheet_bcv st) r c.
Proof.
  revert st. induction l as [|t l IH]; intros st Hr; [done|].
  rewrite bank_write_loop_cons.
  destruct (IH (write_step oldest st t)) as [-> ->].
  - pose proof (bank_next_row_write_step st t). lia.
  - apply bank_sheet_write_step_frame, Hr.
Qed.

End BankFrame.

Section AppendOnly.
Import Datetime Py Sheet.
Local Open Scope nat_scope.
Local Open Scope list_scope.
Context `{Runtime}.

Lemma duplicate_bold_write_loop_frame reason oldest l st r c :
  cell_bold (Card.duplicate_worksheet (Card.write_loop reason oldest st l)) r c
  = cell_bold (Card.duplicate_worksheet st) r c.
Proof.
  revert st. induction l as [|t l IH]; intros st; [reflexivity|].
  rewrite write_loop_cons, IH. unfold Card.write_step.
  case_bool_decide; cbn; [|reflexivity]. read_cell; reflexivity.
Qed.

Lemma update_workbook_keeps sheet_name titles dup_titles reason wb l ws :
  sheet_name ≠ "Duplicates" →
  let saved := Card.saved (Card.update_workbook sheet_name titles dup_titles reason wb l) in
  (wb !! sheet_name = Some ws →
   keeps_rows ws (sheet_of saved sheet_name) (last_row ws)) ∧
  (wb !! "Duplicates" = Some ws →
   keeps_rows ws (sheet_of saved "Duplicates") (last_row ws)) ∧
  (∀ name, name ≠ sheet_name → name ≠ "Duplicates" → saved !! name = wb !! name).
Proof.
  intros Hname saved. subst saved. unfold Card.update_workbook. cbn [Card.saved].
  set (st0 := Card.loop_start sheet_name titles dup_titles wb).
  set (oldest := Card.oldest_date (Card.existing_data st0) l).
  unfold sheet_of, keeps_rows. repeat apply conj.
  - intros Hws r c Hr.
    rewrite lookup_insert_ne by congruence. rewrite lookup_insert_eq. cbn [default from_option id].
    assert (Hst : Card.worksheet_ st0 = ws ∧ Card.next_row st0 = last_row ws + 1).
    { subst st0. unfold Card.loop_start, get_or_create. rewrite Hws. done. }
    destruct Hst as [Hw Hn]. rewrite <- Hw.
    apply worksheet_write_loop_frame. rewrite Hn. lia.
  - intros Hws r c Hr. rewrite lookup_insert_eq. cbn [default from_option id].
    assert (Hst : Card.duplicate_worksheet st0 = ws ∧
                  Card.next_duplicate_row st0 = last_row ws + 1).
    { subst st0. unfold Card.loop_start, get_or_create.
      rewrite lookup_insert_ne by congruence. rewrite Hws. done. }
    destruct Hst as [Hw Hn]. rewrite <- Hw.
    rewrite duplicate_bold_write_loop_frame.
    rewrite duplicate_worksheet_write_loop_frame; [done|]. rewrite Hn. lia.
  - intros name H1 H2. rewrite !lookup_insert_ne by congruence. reflexivity.
Qed.

(** X2: a run of a pipeline only appends.  The rows of the ledger sheet up
    to its last dated row, and those of the sheet ["Duplicates"] up to its
    last dated row, are saved as they were loaded, values and fonts; the
    bank pipeline does not touch ["Duplicates"] at all; and every other
    sheet of the workbook is saved as it was loaded. *)
Theorem pipelines_only_append :
  (∀ account_files wb,
     let saved := Card.saved (Account.process_account_statements account_files wb) in
     (∀ ws, wb !! "Revolut" = Some ws →
            keeps_rows ws (sheet_of saved "Revolut") (last_row ws)) ∧
     (∀ ws, wb !! "Duplicates" = Some ws →
            keeps_rows ws (sheet_of saved "Duplicates") (last_row ws)) ∧
     (∀ name, name ≠ "Revolut" → name ≠ "Duplicates" → saved !! name = wb !! name)) ∧
  (∀ rows wb,
     let saved := Card.saved (CreditCard.process_transactions rows wb) in
     (∀ ws, wb !! "Carte Cred" = Some ws →
            keeps_rows ws (sheet_of saved "Carte Cred") (last_row ws)) ∧
     (∀ ws, wb !! "Duplicates" = Some ws →
            keeps_rows ws (sheet_of saved "Duplicates") (last_row ws)) ∧
     (∀ name, name ≠ "Carte Cred" → name ≠ "Duplicates" → saved !! name = wb !! name)) ∧
  (∀ rows wb,
     let saved := Card.saved (Bank.process_bank_statements rows wb) in
     (∀ ws, wb !! "BCV" = Some ws →
            keeps_rows ws (sheet_of saved "BCV") (last_row ws)) ∧
     (∀ name, name ≠ "BCV" → saved !! name = wb !! name)).
Proof.
  repeat apply conj.
  - intros account_files wb saved. subst saved.
    unfold Account.process_account_statements.
    destruct (mjoin (Account.read_file <$> account_files)) as [|t l] eqn:Hl.
    + cbn [Card.saved]. unfold sheet_of.
      repeat apply conj; [intros ws -> | intros ws -> | reflexivity]; done.
    + set (tr := Card.sort_newest_first (t :: l)).
      destruct (update_workbook_keeps "Revolut"
                  ["Date"; "Merchant"; "Amount"; "Category"; "Reason"]
                  ["Date"; "Merchant"; "Amount"; "Category"; "Reason"]
                  "Duplicate from account statement" wb tr ∅) as (_ & _ & Hother);
        [discriminate|].
      repeat apply conj; [intros ws Hws | intros ws Hws | exact Hother].
      * apply (update_workbook_keeps "Revolut" _ _ _ wb tr ws); [discriminate|exact Hws].
      * apply (update_workbook_keeps "Revolut" _ _ _ wb tr ws); [discriminate|exact Hws].
  - intros rows wb saved. subst saved. unfold CreditCard.process_transactions.
    set (tr := Card.sort_newest_first (CreditCard.read_rows rows)).
    destruct (update_workbook_keeps "Carte Cred"
                ["Date"; "Merchant"; "Amount"; "Empty"; "Category"]
                ["Date"; "Merchant"; "Amount"; "Empty"; "Category"]
                "Duplicate entry" wb tr ∅) as (_ & _ & Hother); [discriminate|].
    repeat apply conj; [intros ws Hws | intros ws Hws | exact Hother].
    + apply (update_workbook_keeps "Carte Cred" _ _ _ wb tr ws); [discriminate|exact Hws].
    + apply (update_workbook_keeps "Carte Cred" _ _ _ wb tr ws); [discriminate|exact Hws].
  - intros rows wb saved. subst saved. unfold Bank.process_bank_statements.
    destruct (Bank.read_rows wb rows) as [|t l].
    + cbn [Card.saved]. unfold sheet_of. split; [intros ws -> | reflexivity]. done.
    + cbn [Card.saved]. unfold sheet_of. split.
      * intros ws Hws r c Hr. rewrite lookup_insert_eq. cbn [default from_option id].
        unfold get_or_create. rewrite Hws.
        apply bank_sheet_write_loop_frame. cbn. lia.
      * intros name Hname. apply lookup_insert_ne. congruence.
Qed.

End AppendOnly.

Section AppendOnlyExample.
Import Datetime Py Sheet Examples.
Local Open Scope nat_scope.
Local Existing Instance PlainDecimal.runtime.

Lemma pipelines_only_append_witness :
  keeps_rows revolut_with_free_sample
    (sheet_of (Card.saved (Account.process_account_statements [[migros_row]]
                             workbook_with_revolut)) "Revolut")
    (last_row revolut_with_free_sample).
Proof.
  apply (proj1 (proj1 pipelines_only_append [[migros_row]] workbook_with_revolut)).
  vm_compute. reflexivity.
Defined.

End AppendOnlyExample.

(** ** Counting what a run does *)

Section Sorting.
Import Datetime Py Sheet.
Local Open Scope nat_scope.
Local Open Scope list_scope.

Lemma card_insert_newest_first_perm t l : Card.insert_newest_first t l ≡ₚ t :: l.
Proof.
  induction l as [|u l IH]; cbn; [reflexivity|].
  destruct (ltb (Card.date t) (Card.date u)); [|reflexivity].
  rewrite IH. apply Permutation_swap.
Qed.

Lemma card_sort_newest_first_perm l : Card.sort_newest_first l ≡ₚ l.
Proof.
  induction l as [|t l IH]; cbn; [reflexivity|].
  rewrite card_insert_newest_first_perm, IH. reflexivity.
Qed.

Lemma bank_insert_newest_first_perm t l : Bank.insert_newest_first t l ≡ₚ t :: l.
Proof.
  induction l as [|u l IH]; cbn; [reflexivity|].
  destruct (ltb (Bank.date t) (Bank.date u)); [|reflexivity].
  rewrite IH. apply Permutation_swap.
Qed.

Lemma bank_sort_newest_first_perm l : Bank.sort_newest_first l ≡ₚ l.
Proof.
  induction l as [|t l IH]; cbn; [reflexivity|].
  rewrite bank_insert_newest_first_perm, IH. reflexivity.
Qed.

End Sorting.

Section Counting.
Import Datetime Py Sheet.
Local Open Scope nat_scope.
Local Open Scope list_scope.
Context `{Runtime}.

Lemma card_write_loop_counts reason oldest l st :
  let st' := Card.write_loop reason oldest st l in
  Card.new_transactions_added st' + Card.duplicates_found st'
    = Card.new_transactions_added st + Card.duplicates_found st + length l ∧
  Card.next_row st' + Card.new_transactions_added st
    = Card.next_row st + Card.new_transactions_added st' ∧
  Card.next_duplicate_row st' + Card.duplicates_found st
    = Card.next_duplicate_row st + Card.duplicates_found st'.
Proof.
  revert st. induction l as [|t l IH]; intros st; cbn zeta; [cbn; lia|].
  rewrite write_loop_cons. specialize (IH (Card.write_step reason oldest st t)).
  cbn zeta in IH. destruct IH as (H1 & H2 & H3).
  unfold Card.write_step in *. case_bool_decide; cbn in *; lia.
Qed.

Lemma bank_write_loop_counts oldest l st :
  let st' := Bank.write_loop oldest st l in
  Bank.new_transactions_added st' + Bank.duplicates_skipped st'
    = Bank.new_transactions_added st + Bank.duplicates_skipped st + length l ∧
  Bank.next_row st' + Bank.new_transactions_added st
    = Bank.next_row st + Bank.new_transactions_added st'.
Proof.
  revert st. induction l as [|t l IH]; intros st; cbn zeta; [cbn; lia|].
  rewrite bank_write_loop_cons. specialize (IH (Bank.write_step oldest st t)).
  cbn zeta in IH. destruct IH as (H1 & H2).
  unfold Bank.write_step in *. case_bool_decide; cbn in *; lia.
Qed.

(** X3: no candidate is lost and none is counted twice.  In every
    pipeline the number of rows appended plus the number of duplicates
    found is the number of candidates that were read from the input. *)
Theorem every_candidate_is_counted :
  (∀ account_files wb,
     let run := Account.process_account_statements account_files wb in
     Card.added run + Card.duplicates run
     = length (mjoin (Account.read_file <$> account_files))) ∧
  (∀ rows wb,
     let run := CreditCard.process_transactions rows wb in
     Card.added run + Card.duplicates run = length (CreditCard.read_rows rows)) ∧
  (∀ rows wb,
     let run := Bank.process_bank_statements rows wb in
     Card.added run + Card.duplicates run = length (Bank.read_rows wb rows)).
Proof.
  repeat apply conj.
  - intros account_files wb run. subst run. unfold Account.process_account_statements.
    destruct (mjoin (Account.read_file <$> account_files)) as [|t l]; [reflexivity|].
    unfold Card.update_workbook. cbn [Card.added Card.duplicates].
    match goal with
    | |- context [Card.write_loop ?r ?o ?s ?k] =>
        destruct (card_write_loop_counts r o k s) as (Hc & _)
    end.
    rewrite Hc. rewrite (Permutation_length (card_sort_newest_first_perm (t :: l))).
    reflexivity.
  - intros rows wb run. subst run. unfold CreditCard.process_transactions.
    unfold Card.update_workbook. cbn [Card.added Card.duplicates].
    match goal with
    | |- context [Card.write_loop ?r ?o ?s ?k] =>
        destruct (card_write_loop_counts r o k s) as (Hc & _)
    end.
    rewrite Hc. rewrite (Permutation_length (card_sort_newest_first_perm _)).
    reflexivity.
  - intros rows wb run. subst run. unfold Bank.process_bank_statements.
    destruct (Bank.read_rows wb rows) as [|t l]; [reflexivity|].
    cbn [Card.added Card.duplicates].
    match goal with
    | |- context [Bank.write_loop ?o ?s ?k] =>
        destruct (bank_write_loop_counts o k s) as (Hc & _)
    end.
    rewrite Hc. rewrite (Permutation_length (bank_sort_newest_first_perm (t :: l))).
    reflexivity.
Qed.

Lemma size_difference_new_key `{Countable K} (k : K) (X E : gset K) :
  k ∉ E → size (({[k]} ∪ X) ∖ E) = 1 + size (X ∖ ({[k]} ∪ E)).
Proof.
  intros Hk.
  assert (Heq : ({[k]} ∪ X) ∖ E = {[k]} ∪ (X ∖ ({[k]} ∪ E))).
  { apply set_eq. intros x. rewrite !elem_of_union, !elem_of_difference,
      !elem_of_union, !elem_of_singleton.
    destruct (decide (x = k)) as [-> |]; tauto. }
  rewrite Heq, size_union, size_singleton; [reflexivity|].
  apply disjoint_singleton_l. rewrite elem_of_difference, elem_of_union,
    elem_of_singleton. tauto.
Qed.

Lemma size_difference_old_key `{Countable K} (k : K) (X E : gset K) :
  k ∈ E → size (({[k]} ∪ X) ∖ E) = size (X ∖ ({[k]} ∪ E)).
Proof.
  intros Hk. f_equal. apply set_eq. intros x.
  rewrite !elem_of_difference, !elem_of_union, !elem_of_singleton.
  destruct (decide (x = k)) as [-> |]; tauto.
Qed.

(** The rows appended are as many as the distinct keys that are new. *)
Lemma card_added_distinct_new_keys reason oldest l st :
  Card.new_transactions_added (Card.write_loop reason oldest st l)
  = Card.new_transactions_added st
    + size (list_to_set (Card.trans_tuple <$> l) ∖ Card.existing_data st : gset Card.key).
Proof.
  revert st. induction l as [|t l IH]; intros st.
  - cbn. rewrite difference_disjoint_L by set_solver. rewrite size_empty. lia.
  - rewrite write_loop_cons, IH. rewrite existing_data_write_step.
    rewrite fmap_cons, list_to_set_cons.
    destruct (decide (Card.trans_tuple t ∈ Card.existing_data st)) as [Hin | Hin].
    + rewrite (write_step_duplicate _ _ _ _ Hin).
      cbn [Card.write_duplicate Card.new_transactions_added].
      rewrite (size_difference_old_key _ _ _ Hin). reflexivity.
    + rewrite (write_step_new _ _ _ _ Hin).
      cbn [Card.write_new Card.new_transactions_added].
      rewrite (size_difference_new_key _ _ _ Hin). lia.
Qed.

Lemma bank_added_distinct_new_keys oldest l st :
  Bank.new_transactions_added (Bank.write_loop oldest st l)
  = Bank.new_transactions_added st
    + size (list_to_set (Bank.trans_tuple <$> l) ∖ Bank.existing_data st : gset Bank.key).
Proof.
  revert st. induction l as [|t l IH]; intros st.
  - cbn. rewrite difference_disjoint_L by set_solver. rewrite size_empty. lia.
  - rewrite bank_write_loop_cons, IH. rewrite bank_existing_data_write_step.
    rewrite fmap_cons, list_to_set_cons.
    destruct (decide (Bank.trans_tuple t ∈ Bank.existing_data st)) as [Hin | Hin].
    + rewrite (bank_write_step_duplicate _ _ _ Hin).
      cbn [Bank.skip_duplicate Bank.new_transactions_added].
      rewrite (size_difference_old_key _ _ _ Hin). reflexivity.
    + rewrite (bank_write_step_new _ _ _ Hin).
      cbn [Bank.write_new Bank.new_transactions_added].
      rewrite (size_difference_new_key _ _ _ Hin). lia.
Qed.

(** X4: the number of rows that a run of the write loop appends is the
    number of distinct keys among its candidates that are not in the
    existing-key set when the loop starts; the order of the candidates
    does not matter for it.  This holds in the loop of the CSV pipelines
    and in that of the bank pipeline. *)
Theorem appended_rows_are_the_distinct_new_keys :
  (∀ sheet_name titles dup_titles reason wb l,
     Card.added (Card.update_workbook sheet_name titles dup_titles reason wb l)
     = size (list_to_set (Card.trans_tuple <$> l)
               ∖ Card.existing_data (Card.loop_start sheet_name titles dup_titles wb)
             : gset Card.key)) ∧
  (∀ oldest st l,
     Bank.new_transactions_added (Bank.write_loop oldest st l)
     = Bank.new_transactions_added st
       + size (list_to_set (Bank.trans_tuple <$> l) ∖ Bank.existing_data st
               : gset Bank.key)).
Proof.
  split.
  - intros sheet_name titles dup_titles reason wb l.
    unfold Card.update_workbook. cbn [Card.added].
    rewrite card_added_distinct_new_keys. reflexivity.
  - intros oldest st l. apply bank_added_distinct_new_keys.
Qed.

End Counting.

(** ** Keys *)

Section KeyFacts.
Import Datetime Py Sheet.
Local Open Scope nat_scope.
Local Open Scope list_scope.

Lemma digit_char_inj a b : a < 10 → b < 10 → digit_char a = digit_char b → a = b.
Proof.
  intros Ha Hb Heq. apply (f_equal digit_val) in Heq.
  rewrite !digit_val_digit_char in Heq by assumption. exact Heq.
Qed.

Lemma dash_not_digit_char k : "-"%char ≠ digit_char k.
Proof.
  intros Heq. pose proof (is_digit_digit_char k) as Hd. rewrite <- Heq in Hd.
  discriminate Hd.
Qed.

Lemma string_cons_inj a b r1 r2 : String a r1 = String b r2 → a = b ∧ r1 = r2.
Proof. intros [= -> ->]. done. Qed.

Ltac split_text :=
  repeat match goal with
         | H : String _ _ = String _ _ |- _ =>
             apply string_cons_inj in H; destruct H as [? H]
         end.

Lemma two_digits n : n < 100 → 10 * (n / 10 mod 10) + n mod 10 = n.
Proof.
  intros Hn. assert (n / 10 < 10) by (apply Nat.Div0.div_lt_upper_bound; lia).
  rewrite (Nat.mod_small (n / 10) 10) by assumption.
  pose proof (Nat.div_mod_eq n 10). lia.
Qed.

Lemma pad2_inj a b r1 r2 :
  a < 100 → b < 100 → pad2 a r1 = pad2 b r2 → a = b ∧ r1 = r2.
Proof.
  intros Ha Hb. unfold pad2. intros Heq.
  apply string_cons_inj in Heq as [H1 Heq]. apply string_cons_inj in Heq as [H2 Hr].
  apply digit_char_inj in H1; [|apply Nat.mod_upper_bound; lia ..].
  apply digit_char_inj in H2; [|apply Nat.mod_upper_bound; lia ..].
  split; [|exact Hr]. rewrite <- (two_digits a Ha), <- (two_digits b Hb). lia.
Qed.

Lemma small_digits y :
  (y < 1000 → y / 1000 mod 10 = 0) ∧
  (y < 100 → y / 100 mod 10 = 0) ∧
  (y < 10 → y / 10 mod 10 = 0 ∧ y mod 10 = y).
Proof.
  repeat apply conj; intros Hy.
  - rewrite Nat.div_small by lia. reflexivity.
  - rewrite Nat.div_small by lia. reflexivity.
  - split; [rewrite Nat.div_small by lia; reflexivity | apply Nat.mod_small; lia].
Qed.

Ltac digit_eq H :=
  first [ exfalso; exact (dash_not_digit_char _ H)
        | exfalso; exact (dash_not_digit_char _ (eq_sym H))
        | apply digit_char_inj in H;
          [|first [apply Nat.mod_upper_bound; lia | lia] ..] ].

Lemma year_digits_inj y1 y2 r1 r2 :
  y1 < 100 * 100 → y2 < 100 * 100 →
  year_digits y1 (String "-" r1) = year_digits y2 (String "-" r2) →
  y1 = y2 ∧ r1 = r2.
Proof.
  intros H1 H2. unfold year_digits, pad4, pad2.
  destruct (small_digits y1) as (Ha1 & Hb1 & Hc1).
  destruct (small_digits y2) as (Ha2 & Hb2 & Hc2).
  pose proof (four_digits y1 H1) as F1. pose proof (four_digits y2 H2) as F2.
  destruct (Nat.ltb_spec y1 10), (Nat.ltb_spec y2 10);
  destruct (Nat.ltb_spec y1 100), (Nat.ltb_spec y2 100);
  destruct (Nat.ltb_spec y1 1000), (Nat.ltb_spec y2 1000); try lia;
  intros Heq; split_text;
  repeat match goal with
         | H : @eq ascii _ _ |- _ => digit_eq H
         end;
  try (split; [lia | congruence]).
Qed.

Lemma strftime_Ymd_inj dt1 dt2 :
  valid dt1 = true → valid dt2 = true →
  strftime_Ymd dt1 = strftime_Ymd dt2 →
  year dt1 = year dt2 ∧ month dt1 = month dt2 ∧ day dt1 = day dt2.
Proof.
  unfold valid. rewrite !andb_true_iff, !Nat.leb_le, !Nat.ltb_lt.
  intros Hv1 Hv2 Heq. unfold strftime_Ymd in Heq.
  pose proof (days_in_month_le (year dt1) (month dt1)).
  pose proof (days_in_month_le (year dt2) (month dt2)).
  apply year_digits_inj in Heq as [Hy Heq]; [|lia ..].
  apply pad2_inj in Heq as [Hm Heq]; [|lia ..].
  apply string_cons_inj in Heq as [_ Heq].
  apply pad2_inj in Heq as [Hd _]; [|lia ..].
  done.
Qed.

Lemma strftime_Ymd_same_day dt1 dt2 :
  year dt1 = year dt2 → month dt1 = month dt2 → day dt1 = day dt2 →
  strftime_Ymd dt1 = strftime_Ymd dt2.
Proof. unfold strftime_Ymd. intros -> -> ->. reflexivity. Qed.

(** X5: what a key identifies.  Two candidates with valid dates have the
    same deduplication key exactly when they fall on the same calendar
    day and have the same label and the same amount (in the bank
    pipeline: the same debit and the same credit); the time of day, the
    category and the sub-category play no part. *)
Theorem same_key_iff_same_day_label_amount :
  (∀ t u : Card.transaction,
     valid (Card.date t) = true → valid (Card.date u) = true →
     (Card.trans_tuple t = Card.trans_tuple u ↔
      year (Card.date t) = year (Card.date u) ∧
      month (Card.date t) = month (Card.date u) ∧
      day (Card.date t) = day (Card.date u) ∧
      Card.merchant t = Card.merchant u ∧
      Card.amount t = Card.amount u)) ∧
  (∀ t u : Bank.transaction,
     valid (Bank.date t) = true → valid (Bank.date u) = true →
     (Bank.trans_tuple t = Bank.trans_tuple u ↔
      year (Bank.date t) = year (Bank.date u) ∧
      month (Bank.date t) = month (Bank.date u) ∧
      day (Bank.date t) = day (Bank.date u) ∧
      Bank.operation t = Bank.operation u ∧
      Bank.debit t = Bank.debit u ∧
      Bank.credit t = Bank.credit u)).
Proof.
  split; intros t u Ht Hu; unfold Card.trans_tuple, Bank.trans_tuple; split.
  - intros Heq. injection Heq as Hd Hm Ha.
    destruct (strftime_Ymd_inj _ _ Ht Hu Hd) as (? & ? & ?). done.
  - intros (Hy & Hm & Hd & -> & ->).
    rewrite (strftime_Ymd_same_day _ _ Hy Hm Hd). reflexivity.
  - intros Heq. injection Heq as Hd Ho Hdeb Hcred.
    destruct (strftime_Ymd_inj _ _ Ht Hu Hd) as (? & ? & ?). done.
  - intros (Hy & Hm & Hd & -> & -> & ->).
    rewrite (strftime_Ymd_same_day _ _ Hy Hm Hd). reflexivity.
Qed.

End KeyFacts.

Section KeyExamples.
Import Datetime Py Sheet Examples.
Local Open Scope nat_scope.

Lemma same_key_iff_same_day_label_amount_witness :
  Card.trans_tuple coop_late = Card.trans_tuple coop_early.
Proof.
  apply (proj1 same_key_iff_same_day_label_amount coop_late coop_early);
    [reflexivity | reflexivity |].
  repeat split.
Defined.

End KeyExamples.

Section ReadBack.
Import Datetime Py Sheet.
Local Open Scope nat_scope.
Local Open Scope list_scope.
Context `{Runtime}.

Lemma truthy_text s : s ≠ "" → truthy (PText s) = true.
Proof. destruct s; [congruence | reflexivity]. Qed.

Lemma truthy_number (x : number) : x ≠ 0%Qc → truthy (PNumber x) = true.
Proof. intros Hx. cbn. apply bool_decide_eq_true. exact Hx. Qed.

Lemma holds_amount_read v (x : number) :
  holds_amount v x →
  (if truthy v then Py.float v else Some (Num 0%Qc)) = Some x ∧
  truthy v = bool_decide (x ≠ 0%Qc).
Proof.
  intros [[Hx ->] | [-> Hv]].
  - rewrite (truthy_number _ Hx). cbn. rewrite bool_decide_eq_true_2 by exact Hx. done.
  - apply truthy_false_blank in Hv. rewrite Hv. split; [reflexivity|].
    symmetry. apply bool_decide_eq_false. tauto.
Qed.

(** X6: a persisted row whose date cell is a real date is recognised.  If
    a row of the ledger holds a datetime of the candidate's calendar day
    in column A, the candidate's label in column B and its amount in
    column C (label not empty, amount not zero), the key of that row is
    the candidate's key; in the bank ledger the same holds with debit and
    credit in columns C and D, a zero amount standing as an empty cell,
    when they are not both zero.  When the row is among the rows
    scanned, the candidate takes the duplicate branch wherever it stands
    in the batch. *)
Theorem date_cell_rows_are_recognised :
  (∀ ws row dt (t : Card.transaction),
     cell_value ws row ColA = PDatetime dt →
     year dt = year (Card.date t) → month dt = month (Card.date t) →
     day dt = day (Card.date t) →
     cell_value ws row ColB = PText (Card.merchant t) → Card.merchant t ≠ "" →
     cell_value ws row ColC = PNumber (Card.amount t) → Card.amount t ≠ 0%Qc →
     Card.row_key ws row = Some (Card.trans_tuple t) ∧
     (1 ≤ row ≤ last_row ws →
      ∀ dws reason oldest l1,
        let st' := Card.write_loop reason oldest (Card.initial_state ws dws) l1 in
        Card.write_step reason oldest st' t = Card.write_duplicate reason st' t)) ∧
  (∀ ws row dt (t : Bank.transaction),
     cell_value ws row ColA = PDatetime dt →
     year dt = year (Bank.date t) → month dt = month (Bank.date t) →
     day dt = day (Bank.date t) →
     cell_value ws row ColB = PText (Bank.operation t) → Bank.operation t ≠ "" →
     holds_amount (cell_value ws row ColC) (Bank.debit t) →
     holds_amount (cell_value ws row ColD) (Bank.credit t) →
     Bank.debit t ≠ 0%Qc ∨ Bank.credit t ≠ 0%Qc →
     Bank.row_key ws row = Some (Bank.trans_tuple t) ∧
     (1 ≤ row ≤ max_row ws →
      ∀ oldest l1,
        let st' := Bank.write_loop oldest (Bank.initial_state ws) l1 in
        Bank.write_step oldest st' t = Bank.skip_duplicate st')).
Proof.
  split.
  - intros ws row dt t HA Hy Hm Hd HB Hmer HC Ham.
    assert (Hkey : Card.row_key ws row = Some (Card.trans_tuple t)).
    { unfold Card.row_key. rewrite HA, HB, HC.
      rewrite (truthy_text _ Hmer), (truthy_number _ Ham). cbn.
      unfold Card.trans_tuple. rewrite (strftime_Ymd_same_day _ _ Hy Hm Hd).
      reflexivity. }
    split; [exact Hkey|]. intros Hrow dws reason oldest l1 st'.
    apply write_step_duplicate. subst st'. rewrite existing_data_write_loop.
    apply elem_of_union_l. cbn [Card.initial_state Card.existing_data].
    unfold Card.scan_existing. apply elem_of_card_scan. right.
    exists row. split; [apply elem_of_seq_1, Hrow | exact Hkey].
  - intros ws row dt t HA Hy Hm Hd HB Hop HC HD Hnz.
    assert (Hkey : Bank.row_key ws row = Some (Bank.trans_tuple t)).
    { unfold Bank.row_key. rewrite HA, HB.
      destruct (holds_amount_read _ _ HC) as [-> ->].
      destruct (holds_amount_read _ _ HD) as [-> ->].
      rewrite (truthy_text _ Hop). cbn [truthy andb].
      assert (Hor : bool_decide (Bank.debit t ≠ 0%Qc)
                    || bool_decide (Bank.credit t ≠ 0%Qc) = true).
      { destruct Hnz as [Hn | Hn]; rewrite (bool_decide_eq_true_2 _ Hn);
          [reflexivity | apply orb_true_r]. }
      rewrite Hor. unfold Bank.trans_tuple.
      rewrite (strftime_Ymd_same_day _ _ Hy Hm Hd). reflexivity. }
    split; [exact Hkey|]. intros Hrow oldest l1 st'.
    apply bank_write_step_duplicate. subst st'. rewrite bank_existing_data_write_loop.
    apply elem_of_union_l. cbn [Bank.initial_state Bank.existing_data].
    unfold Bank.scan_existing. apply elem_of_bank_scan. right.
    exists row. split; [apply elem_of_seq_1, Hrow | exact Hkey].
Qed.

End ReadBack.

Section ReadBackExamples.
Import Datetime Py Sheet Examples.
Local Open Scope nat_scope.
Local Existing Instance PlainDecimal.runtime.

Lemma date_cell_rows_are_recognised_witness :
  Card.row_key revolut_with_tesla 2 = Some (Card.trans_tuple tesla) ∧
  Bank.row_key bcv_with_duol 2 = Some (Bank.trans_tuple duol).
Proof.
  destruct date_cell_rows_are_recognised as [Hcard Hbank]. split.
  - apply (Hcard revolut_with_tesla 2 (of_date 2025 1 4) tesla);
      try reflexivity; discriminate.
  - apply (Hbank bcv_with_duol 2 (of_date 2025 11 13) duol);
      try reflexivity; try discriminate.
    + left. split; [discriminate | reflexivity].
    + right. split; [reflexivity|]. left. reflexivity.
    + left. discriminate.
Defined.

End ReadBackExamples.

(** ** What [parse_date] returns *)

Section ParseDateResults.
Import Datetime Py Sheet.
Local Open Scope nat_scope.
Local Open Scope list_scope.
Context `{Runtime}.

Lemma match_directive_time d acc s x :
  d ≠ Dir_H → d ≠ Dir_M → d ≠ Dir_S →
  x ∈ match_directive d acc s → same_time x.1 acc.
Proof.
  intros HH HM HS. unfold same_time.
  destruct d; try congruence; cbn [match_directive].
  1-3: rewrite list_elem_of_fmap; intros ([v r] & -> & _); done.
  - destruct s as [|c' s']; [intros Hx; inversion Hx|].
    destruct (Ascii.eqb c c'); [|intros Hx; inversion Hx].
    intros Hx. apply list_elem_of_singleton in Hx as ->. done.
  - rewrite list_elem_of_fmap. intros (r & -> & _). done.
Qed.

Lemma match_format_time fmt acc s x :
  Forall (λ d, d ≠ Dir_H ∧ d ≠ Dir_M ∧ d ≠ Dir_S) fmt →
  x ∈ match_format fmt acc s → same_time x.1 acc.
Proof.
  intros Hfmt. revert acc s. induction Hfmt as [|d fmt (HH & HM & HS) _ IH];
    intros acc s; cbn [match_format].
  - intros Hx. apply list_elem_of_singleton in Hx as ->. done.
  - rewrite list_elem_of_bind. intros ([acc' r] & Hx & Hy).
    apply IH in Hx. apply (match_directive_time d acc s _ HH HM HS) in Hy.
    unfold same_time in *. cbn in *. lia.
Qed.

Lemma strptime_valid s fmt dt : strptime s fmt = Some dt → valid dt = true.
Proof.
  unfold strptime. destruct (match_format fmt strptime_default s) as [|[a r] tl];
    [discriminate|].
  destruct r; [|discriminate]. destruct (valid a) eqn:Hv; [|discriminate].
  intros [= <-]. exact Hv.
Qed.

Lemma strptime_midnight s fmt dt :
  Forall (λ d, d ≠ Dir_H ∧ d ≠ Dir_M ∧ d ≠ Dir_S) fmt →
  strptime s fmt = Some dt → is_midnight dt = true.
Proof.
  intros Hfmt. unfold strptime.
  destruct (match_format fmt strptime_default s) as [|[a r] tl] eqn:Hm;
    [discriminate|].
  destruct r; [|discriminate]. destruct (valid a); [|discriminate].
  intros [= <-].
  assert (Hin : (a, "") ∈ match_format fmt strptime_default s)
    by (rewrite Hm; apply list_elem_of_here).
  apply (match_format_time _ _ _ _ Hfmt) in Hin. destruct Hin as (Hh & Hmi & Hs).
  cbn in Hh, Hmi, Hs. unfold is_midnight. rewrite Hh, Hmi, Hs. reflexivity.
Qed.

Lemma try_formats_some s fmts dt :
  try_formats s fmts = Some dt → ∃ fmt, fmt ∈ fmts ∧ strptime s fmt = Some dt.
Proof.
  induction fmts as [|fmt fmts IH]; cbn [try_formats]; [discriminate|].
  destruct (strptime s fmt) as [d|] eqn:E.
  - intros [= <-]. exists fmt. split; [apply list_elem_of_here | exact E].
  - intros Hrest. destruct (IH Hrest) as (f & Hin & Hf).
    exists f. split; [apply list_elem_of_further, Hin | exact Hf].
Qed.

Lemma parse_date_formats_date_only :
  Forall (Forall (λ d, d ≠ Dir_H ∧ d ≠ Dir_M ∧ d ≠ Dir_S)) parse_date_formats.
Proof.
  unfold parse_date_formats, fmt_dmY_dash, fmt_dmY_dot, fmt_Ymd, fmt_dmY_slash,
    fmt_mdY_slash.
  repeat (constructor; try discriminate).
Qed.

Lemma parse_date_text_valid_midnight s dt :
  parse_date_text s = Some dt → valid dt = true ∧ is_midnight dt = true.
Proof.
  unfold parse_date_text. intros Hp.
  destruct (try_formats_some _ _ _ Hp) as (fmt & Hin & Hf).
  split; [exact (strptime_valid _ _ _ Hf)|].
  apply (strptime_midnight _ _ _ (proj1 (Forall_forall _ _) parse_date_formats_date_only
                                     fmt Hin) Hf).
Qed.

(** X7: a date that [parse_date] makes out of anything but a datetime is a
    valid calendar date at midnight; a datetime comes back as it is.  So
    every candidate of the credit-card pipeline whose booking date is a
    text has a valid date without a time of day. *)
Theorem parse_date_gives_valid_midnight :
  (∀ v dt, (∀ d, v ≠ PDatetime d) → parse_date v = Some dt →
           valid dt = true ∧ is_midnight dt = true) ∧
  (∀ d, parse_date (PDatetime d) = Some d) ∧
  (∀ i row s t,
     CreditCard.col_Booking_date row = PText s →
     CreditCard.read_row i row = Some t →
     valid (Card.date t) = true ∧ is_midnight (Card.date t) = true).
Proof.
  repeat apply conj.
  - intros v dt Hv. destruct v as [|s|x|d]; cbn [parse_date];
      try apply parse_date_text_valid_midnight.
    exfalso. exact (Hv d eq_refl).
  - reflexivity.
  - intros i row s t Hcol. unfold CreditCard.read_row. rewrite Hcol.
    destruct (parse_date (PText s)) as [d|] eqn:Hd; [|discriminate].
    destruct (float_of_field i (CreditCard.col_Amount_CHF row)); [|discriminate].
    destruct (Categorizer.clean_merchant_and_categorize _) as [m c].
    intros [= <-]. cbn [Card.date].
    exact (parse_date_text_valid_midnight _ _ Hd).
Qed.

End ParseDateResults.

Section ParseDateResultsExample.
Import Datetime Py Sheet.
Local Existing Instance PlainDecimal.runtime.

Lemma parse_date_gives_valid_midnight_witness :
  valid (of_date 2025 11 13) = true ∧ is_midnight (of_date 2025 11 13) = true.
Proof.
  apply (proj1 parse_date_gives_valid_midnight (PText "13.11.2025")).
  - discriminate.
  - vm_compute. reflexivity.
Defined.

End ParseDateResultsExample.

(** ** Blanks around a date, and dates written by the program *)

Section ParseDateTexts.
Import Datetime Py Sheet.
Local Open Scope nat_scope.
Context `{Runtime}.

Lemma lstrip_blank_text s : blank_text s = true → lstrip s = "".
Proof. unfold blank_text. destruct (lstrip s); [reflexivity | discriminate]. Qed.

Lemma blank_text_lstrip s : lstrip s = "" → blank_text s = true.
Proof. unfold blank_text. intros ->. reflexivity. Qed.

Lemma lstrip_cons3 c d e r :
  lstrip (String c (String d (String e r)))
  = if is_space c then lstrip (String d (String e r))
    else if is_space2 c d then lstrip (String e r)
    else if is_space3 c d e then lstrip r
    else String c (String d (String e r)).
Proof. reflexivity. Qed.

Lemma rstrip_blank_text s : blank_text s = true → rstrip s = "".
Proof. destruct s as [|c s]; [reflexivity|]. cbn [rstrip]. intros ->. reflexivity. Qed.

(** The first byte of a text of blanks is an ASCII blank or the first
    byte of a blank of two or three bytes; so it is neither the second
    nor the third byte of a blank. *)
Lemma blank_text_first_byte d r :
  blank_text (String d r) = true →
  (∀ c, is_space2 c d = false) ∧
  (∀ c e, is_space3 c d e = false) ∧
  (∀ c e, is_space3 c e d = false).
Proof.
  intros Hb.
  assert (Hd : is_space d = true ∨ nat_of_ascii d = 194 ∨ nat_of_ascii d = 225
               ∨ nat_of_ascii d = 226 ∨ nat_of_ascii d = 227).
  { apply lstrip_blank_text in Hb. cbn [lstrip] in Hb.
    destruct (is_space d); [left; reflexivity|]. right.
    destruct r as [|e r]; [discriminate|].
    destruct (is_space2 d e) eqn:H2.
    - unfold is_space2 in H2. apply andb_true_iff in H2 as [H2 _].
      apply Nat.eqb_eq in H2. auto.
    - destruct r as [|f r]; [discriminate|].
      destruct (is_space3 d e f) eqn:H3; [|discriminate].
      unfold is_space3 in H3.
      destruct (Nat.eqb_spec (nat_of_ascii d) 225); [auto|].
      destruct (Nat.eqb_spec (nat_of_ascii d) 226); [auto|].
      destruct (Nat.eqb_spec (nat_of_ascii d) 227); [auto|].
      discriminate. }
  assert (Hn : nat_of_ascii d ≤ 32 ∨ 194 ≤ nat_of_ascii d).
  { destruct Hd as [Hs | Hd]; [|lia]. left. unfold is_space in Hs.
    destruct (Nat.eqb_spec (nat_of_ascii d) 32); [lia|].
    destruct (Nat.leb_spec (nat_of_ascii d) 13),
             (Nat.leb_spec (nat_of_ascii d) 31); lia. }
  unfold is_space2, is_space3. repeat apply conj; intros.
  - destruct (Nat.eqb_spec (nat_of_ascii d) 133), (Nat.eqb_spec (nat_of_ascii d) 160);
      first [lia | apply andb_false_r].
  - destruct (Nat.eqb_spec (nat_of_ascii d) 154), (Nat.eqb_spec (nat_of_ascii d) 128),
      (Nat.eqb_spec (nat_of_ascii d) 129);
      first [lia | rewrite !andb_false_r; reflexivity].
  - destruct (Nat.eqb_spec (nat_of_ascii d) 128), (Nat.eqb_spec (nat_of_ascii d) 168),
      (Nat.eqb_spec (nat_of_ascii d) 169), (Nat.eqb_spec (nat_of_ascii d) 175),
      (Nat.eqb_spec (nat_of_ascii d) 159),
      (Nat.leb_spec 128 (nat_of_ascii d)), (Nat.leb_spec (nat_of_ascii d) 138);
      first [lia | rewrite ?andb_false_r; reflexivity].
Qed.

(** Blanks after a text are not taken for a part of it. *)
Lemma lstrip_app_blank_r n x post :
  String.length x ≤ n → blank_text post = true →
  lstrip (x +:+ post) = if blank_text x then "" else lstrip x +:+ post.
Proof.
  revert x. induction n as [|n IH]; intros x Hlen Hpost.
  { destruct x; [|cbn in Hlen; lia]. cbn. apply lstrip_blank_text, Hpost. }
  destruct x as [|c x1]; [cbn; apply lstrip_blank_text, Hpost|].
  cbn [String.length] in Hlen.
  unfold blank_text.
  destruct x1 as [|d x2].
  { change (String c "" +:+ post) with (String c post).
    cbn [lstrip]. destruct (is_space c) eqn:Hc.
    - rewrite (lstrip_blank_text _ Hpost). reflexivity.
    - destruct post as [|p1 p2]; [reflexivity|].
      destruct (blank_text_first_byte _ _ Hpost) as (H2 & H3 & _).
      rewrite H2. destruct p2 as [|p3 p4]; [reflexivity|]. rewrite H3. reflexivity. }
  destruct x2 as [|e x3].
  { change (String c (String d "") +:+ post) with (String c (String d post)).
    cbn [lstrip]. destruct (is_space c) eqn:Hc.
    - destruct (is_space d) eqn:Hd.
      + rewrite (lstrip_blank_text _ Hpost). reflexivity.
      + destruct post as [|p1 p2]; [reflexivity|].
        destruct (blank_text_first_byte _ _ Hpost) as (H2 & H3 & _).
        rewrite H2. destruct p2 as [|p3 p4]; [reflexivity|]. rewrite H3. reflexivity.
    - destruct (is_space2 c d) eqn:Hcd.
      + rewrite (lstrip_blank_text _ Hpost). reflexivity.
      + destruct post as [|p1 p2]; [reflexivity|].
        destruct (blank_text_first_byte _ _ Hpost) as (_ & _ & H3).
        rewrite H3. reflexivity. }
  change (String c (String d (String e x3)) +:+ post)
    with (String c (String d (String e (x3 +:+ post)))).
  rewrite !lstrip_cons3.
  assert (IH1 := IH (String d (String e x3)) ltac:(cbn [String.length] in *; lia) Hpost).
  assert (IH2 := IH (String e x3) ltac:(cbn [String.length] in *; lia) Hpost).
  assert (IH3 := IH x3 ltac:(cbn [String.length] in *; lia) Hpost).
  unfold blank_text in IH1, IH2, IH3.
  change (String d (String e x3) +:+ post)
    with (String d (String e (x3 +:+ post))) in IH1.
  change (String e x3 +:+ post) with (String e (x3 +:+ post)) in IH2.
  destruct (is_space c); [exact IH1|].
  destruct (is_space2 c d); [exact IH2|].
  destruct (is_space3 c d e); [exact IH3|]. reflexivity.
Qed.

Lemma blank_text_app_blank x post :
  blank_text post = true → blank_text (x +:+ post) = blank_text x.
Proof.
  intros Hpost. unfold blank_text at 1.
  rewrite (lstrip_app_blank_r (String.length x) x post (le_n _) Hpost).
  unfold blank_text. destruct (lstrip x); reflexivity.
Qed.

(** Blanks before a text are skipped. *)
Lemma lstrip_app_blank_l n pre s :
  String.length pre ≤ n → blank_text pre = true → lstrip (pre +:+ s) = lstrip s.
Proof.
  revert pre. induction n as [|n IH]; intros pre Hlen Hpre.
  { destruct pre; [reflexivity | cbn in Hlen; lia]. }
  destruct pre as [|c [|d [|e p3]]]; [reflexivity|..]; cbn [String.length] in Hlen.
  - apply lstrip_blank_text in Hpre. cbn [lstrip] in Hpre.
    change (String c "" +:+ s) with (String c s). cbn [lstrip].
    destruct (is_space c); [reflexivity | discriminate].
  - pose proof (lstrip_blank_text _ Hpre) as Hl. cbn [lstrip] in Hl.
    change (String c (String d "") +:+ s) with (String c (String d s)).
    cbn [lstrip]. destruct (is_space c).
    + destruct (is_space d); [reflexivity | discriminate].
    + destruct (is_space2 c d); [reflexivity | discriminate].
  - pose proof (lstrip_blank_text _ Hpre) as Hl. rewrite lstrip_cons3 in Hl.
    change (String c (String d (String e p3)) +:+ s)
      with (String c (String d (String e (p3 +:+ s)))).
    rewrite lstrip_cons3.
    destruct (is_space c).
    + apply (IH (String d (String e p3))); [cbn [String.length]; lia|].
      apply blank_text_lstrip, Hl.
    + destruct (is_space2 c d).
      * apply (IH (String e p3)); [cbn [String.length]; lia|].
        apply blank_text_lstrip, Hl.
      * destruct (is_space3 c d e); [|discriminate].
        apply (IH p3); [lia|]. apply blank_text_lstrip, Hl.
Qed.

Lemma lstrip_app_blank pre s : blank_text pre = true → lstrip (pre +:+ s) = lstrip s.
Proof. apply (lstrip_app_blank_l (String.length pre)), le_n. Qed.

Lemma rstrip_app_blank s post : blank_text post = true → rstrip (s +:+ post) = rstrip s.
Proof.
  intros Hb. induction s as [|c s IH].
  - apply rstrip_blank_text, Hb.
  - change (String c s +:+ post) with (String c (s +:+ post)).
    cbn [rstrip].
    change (String c (s +:+ post)) with (String c s +:+ post).
    rewrite (blank_text_app_blank _ _ Hb).
    change (String c s +:+ post) with (String c (s +:+ post)) in IH |- *.
    rewrite IH. reflexivity.
Qed.

(** What is left of a text and of the same text followed by blanks, once
    the leading blanks are gone, ends in the same way. *)
Lemma rstrip_lstrip_app_blank s post :
  blank_text post = true → rstrip (lstrip (s +:+ post)) = rstrip (lstrip s).
Proof.
  intros Hb. rewrite (lstrip_app_blank_r (String.length s) s post (le_n _) Hb).
  destruct (blank_text s) eqn:Hs.
  - rewrite (lstrip_blank_text _ Hs). reflexivity.
  - apply rstrip_app_blank, Hb.
Qed.

Lemma strip_app_blank pre s post :
  blank_text pre = true → blank_text post = true →
  strip (pre +:+ s +:+ post) = strip s.
Proof.
  intros Hpre Hpost. unfold strip. rewrite (lstrip_app_blank _ _ Hpre).
  apply rstrip_lstrip_app_blank, Hpost.
Qed.

(** X8: blanks around a date text do not matter: [parse_date] gives the
    same result for a text and for the same text with any run of
    whitespace before and after it, the whitespace of [str.isspace]:
    ASCII blanks and the blanks of Unicode such as the no-break space. *)
Theorem parse_date_ignores_surrounding_blanks (pre s post : string) :
  blank_text pre = true → blank_text post = true →
  parse_date (PText (pre +:+ s +:+ post)) = parse_date (PText s).
Proof.
  intros Hpre Hpost. cbn [parse_date Py.str]. unfold parse_date_text.
  rewrite (strip_app_blank _ _ _ Hpre Hpost). reflexivity.
Qed.

(** From the year 1000 on, [strftime] writes the year with four digits. *)
Lemma year_digits_pad4 y rest : 1000 ≤ y → year_digits y rest = pad4 y rest.
Proof.
  intros Hy. unfold year_digits.
  destruct (Nat.ltb_spec y 10); [lia|].
  destruct (Nat.ltb_spec y 100); [lia|].
  destruct (Nat.ltb_spec y 1000); [lia|]. reflexivity.
Qed.

Lemma valid_date_part dt : valid dt = true → valid (of_date (year dt) (month dt) (day dt)) = true.
Proof.
  intros Hv. apply valid_of_date. revert Hv. unfold valid.
  rewrite !andb_true_iff, !Nat.leb_le, Nat.ltb_lt. lia.
Qed.

Lemma parse_date_text_dmY_dot y m d :
  valid (of_date y m d) = true →
  parse_date_text (Layout.dmY_dot (of_date y m d)) = Some (of_date y m d).
Proof.
  intros Hvalid. unfold parse_date_text, parse_date_formats, Layout.dmY_dot.
  rewrite strip_day_month_year. cbn [try_formats].
  pose proof (strptime_day_month_year y m d Hvalid "."%char) as Hdot.
  unfold Layout.day_month_year in *. cbn [year month day of_date] in *.
  unfold fmt_dmY_dash, fmt_dmY_dot.
  rewrite (strptime_sep_mismatch_pad2 Dir_d "-" _ _ ".")
    by (reflexivity || (left; reflexivity)).
  rewrite Hdot. reflexivity.
Qed.

Lemma parse_date_text_Ymd y m d :
  valid (of_date y m d) = true →
  parse_date_text (Layout.Ymd_dash (of_date y m d)) = Some (of_date y m d).
Proof.
  intros Hvalid. unfold parse_date_text, parse_date_formats.
  rewrite strip_Ymd_dash. cbn [try_formats].
  pose proof (strptime_Ymd_dash y m d Hvalid) as Hymd.
  unfold Layout.Ymd_dash in *. cbn [year month day of_date] in *.
  unfold fmt_dmY_dash, fmt_dmY_dot.
  rewrite !(strptime_sep_mismatch_pad4 Dir_d) by (reflexivity || (left; reflexivity)).
  rewrite Hymd. reflexivity.
Qed.

(** X9: the program reads its own dates.  For a valid datetime from the
    year 1000 on, the text that the write loop puts into column A
    (["%d.%m.%Y"]) and the text that a key carries (["%Y-%m-%d"]) are
    both normalised by [parse_date] to the datetime's calendar day at
    midnight; so the scan of the sheet ["2025"] takes a date cell written
    in the ledger's format for that day. *)
Theorem parse_date_reads_strftime (dt : datetime) :
  valid dt = true → 1000 ≤ year dt →
  parse_date (PText (strftime_dmY_dot dt))
    = Some (of_date (year dt) (month dt) (day dt)) ∧
  parse_date (PText (strftime_Ymd dt))
    = Some (of_date (year dt) (month dt) (day dt)) ∧
  Bank.current_date (PText (strftime_dmY_dot dt))
    = Some (of_date (year dt) (month dt) (day dt)).
Proof.
  intros Hvalid Hyear. apply valid_date_part in Hvalid.
  assert (Hdot : strftime_dmY_dot dt
                 = Layout.dmY_dot (of_date (year dt) (month dt) (day dt))).
  { unfold strftime_dmY_dot, Layout.dmY_dot, Layout.day_month_year.
    rewrite (year_digits_pad4 _ _ Hyear). reflexivity. }
  assert (Hymd : strftime_Ymd dt
                 = Layout.Ymd_dash (of_date (year dt) (month dt) (day dt))).
  { unfold strftime_Ymd, Layout.Ymd_dash.
    rewrite (year_digits_pad4 _ _ Hyear). reflexivity. }
  assert (H1 : parse_date (PText (strftime_dmY_dot dt))
               = Some (of_date (year dt) (month dt) (day dt))).
  { cbn [parse_date Py.str]. rewrite Hdot. apply parse_date_text_dmY_dot, Hvalid. }
  repeat apply conj.
  - exact H1.
  - cbn [parse_date Py.str]. rewrite Hymd. apply parse_date_text_Ymd, Hvalid.
  - unfold Bank.current_date.
    assert (Ht : truthy (PText (strftime_dmY_dot dt)) = true) by reflexivity.
    rewrite Ht. exact H1.
Qed.

End ParseDateTexts.

Section ParseDateTextsExamples.
Import Datetime Py Sheet Examples.
Local Open Scope nat_scope.
Local Existing Instance PlainDecimal.runtime.

Lemma parse_date_ignores_surrounding_blanks_witness :
  parse_date (PText (String (ascii_of_nat 194) (String (ascii_of_nat 160) " ")
                     +:+ "13-11-2025" +:+ "  "))
  = parse_date (PText "13-11-2025").
Proof.
  apply (parse_date_ignores_surrounding_blanks
           (String (ascii_of_nat 194) (String (ascii_of_nat 160) " "))
           "13-11-2025" "  "); reflexivity.
Defined.

Lemma parse_date_reads_strftime_witness :
  parse_date (PText (strftime_dmY_dot (mk_datetime 2025 11 13 14 7 59)))
    = Some (of_date 2025 11 13) ∧
  parse_date (PText (strftime_Ymd (mk_datetime 2025 11 13 14 7 59)))
    = Some (of_date 2025 11 13) ∧
  Bank.current_date (PText (strftime_dmY_dot (mk_datetime 2025 11 13 14 7 59)))
    = Some (of_date 2025 11 13).
Proof.
  apply (parse_date_reads_strftime (mk_datetime 2025 11 13 14 7 59)).
  - reflexivity.
  - cbn. lia.
Defined.

End ParseDateTextsExamples.

(** ** Where the appended rows are *)

Section AppendedRows.
Import Datetime Py Sheet.
Local Open Scope nat_scope.
Local Open Scope list_scope.
Context `{Runtime}.

Lemma truthy_nonempty s : s ≠ "" → PyStr.truthy s = true.
Proof. destruct s; done. Qed.

Lemma write_new_row_category oldest st t :
  Card.category t ≠ "" →
  cell_value (Card.worksheet_ (Card.write_new oldest st t)) (Card.next_row st) ColE
  = PText (Card.category t).
Proof.
  intros Hc. unfold Card.write_new. cbn [Card.worksheet_].
  rewrite (truthy_nonempty _ Hc).
  destruct (Card.is_oldest oldest t); read_cell; reflexivity.
Qed.

Lemma bank_write_new_row oldest st t :
  let w := Bank.sheet_bcv (Bank.write_new oldest st t) in
  let r := Bank.next_row st in
  cell_value w r ColA = PText (strftime_dmY_dot (Bank.date t)) ∧
  cell_value w r ColB = PText (Bank.operation t) ∧
  cell_value w r ColC = Bank.amount_cell (Bank.debit t) ∧
  cell_value w r ColD = Bank.amount_cell (Bank.credit t) ∧
  (Bank.category t ≠ "" → cell_value w r ColE = PText (Bank.category t)) ∧
  (Bank.sub_category t ≠ "" → cell_value w r ColF = PText (Bank.sub_category t)).
Proof.
  unfold Bank.write_new. cbn [Bank.sheet_bcv]. cbn zeta.
  destruct (PyStr.truthy (Bank.category t)) eqn:Hc,
    (PyStr.truthy (Bank.sub_category t)) eqn:Hs,
    (Bank.is_oldest oldest t); cbn [foldl];
    repeat apply conj;
    try (intros Hne; apply truthy_nonempty in Hne; try congruence);
    read_cell; reflexivity.
Qed.

Lemma card_added_write_loop reason oldest l st :
  Card.new_transactions_added st
  ≤ Card.new_transactions_added (Card.write_loop reason oldest st l).
Proof.
  revert st. induction l as [|t l IH]; intros st; [done|].
  rewrite write_loop_cons. etrans; [|apply IH].
  unfold Card.write_step. case_bool_decide; cbn; lia.
Qed.

Lemma bank_added_write_loop oldest l st :
  Bank.new_transactions_added st
  ≤ Bank.new_transactions_added (Bank.write_loop oldest st l).
Proof.
  revert st. induction l as [|t l IH]; intros st; [done|].
  rewrite bank_write_loop_cons. etrans; [|apply IH].
  unfold Bank.write_step. case_bool_decide; cbn; lia.
Qed.

(** X10: the appended rows follow the last dated row without a gap, in
    the order of the write loop, and stay as written.  A candidate whose
    key is not in the existing-key set when its turn comes is found in the
    saved ledger sheet at the row [last_row + 1 + k], where [k] is the
    number of candidates appended before it: column A holds its date as
    the text ["%d.%m.%Y"], column B its label, column C its amount (in the
    bank pipeline columns C and D hold debit and credit, an amount of zero
    as the empty text), and the category columns hold the category when
    it is not empty.  That row is one of the [added] rows counted by the
    run. *)
Theorem appended_rows_follow_the_last_row :
  (∀ sheet_name titles dup_titles reason wb l1 t l2,
     sheet_name ≠ "Duplicates" →
     let st0 := Card.loop_start sheet_name titles dup_titles wb in
     let l := l1 ++ t :: l2 in
     let oldest := Card.oldest_date (Card.existing_data st0) l in
     let st1 := Card.write_loop reason oldest st0 l1 in
     Card.trans_tuple t ∉ Card.existing_data st1 →
     let out := Card.update_workbook sheet_name titles dup_titles reason wb l in
     let w := sheet_of (Card.saved out) sheet_name in
     let r := last_row (get_or_create wb sheet_name titles) + 1
              + Card.new_transactions_added st1 in
     cell_value w r ColA = PText (strftime_dmY_dot (Card.date t)) ∧
     cell_value w r ColB = PText (Card.merchant t) ∧
     cell_value w r ColC = PNumber (Card.amount t) ∧
     (Card.category t ≠ "" → cell_value w r ColE = PText (Card.category t)) ∧
     r ≤ last_row (get_or_create wb sheet_name titles) + Card.added out) ∧
  (∀ oldest sheet l1 t l2,
     let st0 := Bank.initial_state sheet in
     let st1 := Bank.write_loop oldest st0 l1 in
     Bank.trans_tuple t ∉ Bank.existing_data st1 →
     let st := Bank.write_loop oldest st0 (l1 ++ t :: l2) in
     let w := Bank.sheet_bcv st in
     let r := last_row sheet + 1 + Bank.new_transactions_added st1 in
     cell_value w r ColA = PText (strftime_dmY_dot (Bank.date t)) ∧
     cell_value w r ColB = PText (Bank.operation t) ∧
     cell_value w r ColC = Bank.amount_cell (Bank.debit t) ∧
     cell_value w r ColD = Bank.amount_cell (Bank.credit t) ∧
     (Bank.category t ≠ "" → cell_value w r ColE = PText (Bank.category t)) ∧
     (Bank.sub_category t ≠ "" →
      cell_value w r ColF = PText (Bank.sub_category t)) ∧
     r ≤ last_row sheet + Bank.new_transactions_added st).
Proof.
  split.
  - intros sheet_name titles dup_titles reason wb l1 t l2 Hname st0 l oldest st1
      Hnew out w r.
    assert (Hw : w = Card.worksheet_
                       (Card.write_loop reason oldest
                          (Card.write_new oldest st1 t) l2)).
    { subst w out. unfold Card.update_workbook, sheet_of. cbn [Card.saved].
      rewrite lookup_insert_ne by congruence. rewrite lookup_insert_eq.
      cbn [default from_option id]. fold st0. fold l. fold oldest.
      subst l. rewrite write_loop_app, write_loop_cons. fold st1.
      rewrite (write_step_new _ _ _ _ Hnew). reflexivity. }
    assert (Hadded : Card.added out
                     = Card.new_transactions_added
                         (Card.write_loop reason oldest
                            (Card.write_new oldest st1 t) l2)).
    { subst out. unfold Card.update_workbook. cbn [Card.added].
      fold st0. fold l. fold oldest.
      subst l. rewrite write_loop_app, write_loop_cons. fold st1.
      rewrite (write_step_new _ _ _ _ Hnew). reflexivity. }
    assert (Hr : r = Card.next_row st1).
    { pose proof (card_write_loop_counts reason oldest l1 st0) as (_ & Hc & _).
      fold st1 in Hc. subst r. revert Hc. subst st0.
      unfold Card.loop_start, Card.initial_state.
      cbn [Card.next_row Card.new_transactions_added]. lia. }
    pose proof (card_added_write_loop reason oldest l2
                  (Card.write_new oldest st1 t)) as Hc2.
    cbn [Card.write_new Card.new_transactions_added] in Hc2.
    destruct (write_new_row oldest st1 t) as (HA & HB & HC & _).
    rewrite Hw, Hadded, Hr.
    assert (Hlt : Card.next_row st1 < Card.next_row (Card.write_new oldest st1 t))
      by (cbn; lia).
    repeat apply conj.
    + rewrite (proj1 (worksheet_write_loop_frame reason oldest l2 _ _ ColA Hlt)).
      exact HA.
    + rewrite (proj1 (worksheet_write_loop_frame reason oldest l2 _ _ ColB Hlt)).
      exact HB.
    + rewrite (proj1 (worksheet_write_loop_frame reason oldest l2 _ _ ColC Hlt)).
      exact HC.
    + intros Hcat.
      rewrite (proj1 (worksheet_write_loop_frame reason oldest l2 _ _ ColE Hlt)).
      apply write_new_row_category, Hcat.
    + rewrite <- Hr. subst r. lia.
  - intros oldest sheet l1 t l2 st0 st1 Hnew st w r.
    assert (Hst : st = Bank.write_loop oldest (Bank.write_new oldest st1 t) l2).
    { subst st. rewrite bank_write_loop_app, bank_write_loop_cons. fold st1.
      rewrite (bank_write_step_new _ _ _ Hnew). reflexivity. }
    assert (Hr : r = Bank.next_row st1).
    { pose proof (bank_write_loop_counts oldest l1 st0) as (_ & Hc).
      fold st1 in Hc. subst r. revert Hc. subst st0.
      unfold Bank.initial_state.
      cbn [Bank.next_row Bank.new_transactions_added]. lia. }
    pose proof (bank_added_write_loop oldest l2
                  (Bank.write_new oldest st1 t)) as Hc2.
    cbn [Bank.write_new Bank.new_transactions_added] in Hc2.
    destruct (bank_write_new_row oldest st1 t) as (HA & HB & HC & HD & HE & HF).
    subst w. rewrite Hst, Hr.
    assert (Hlt : Bank.next_row st1 < Bank.next_row (Bank.write_new oldest st1 t))
      by (cbn; lia).
    repeat apply conj.
    + rewrite (proj1 (bank_sheet_write_loop_frame oldest l2 _ _ ColA Hlt)). exact HA.
    + rewrite (proj1 (bank_sheet_write_loop_frame oldest l2 _ _ ColB Hlt)). exact HB.
    + rewrite (proj1 (bank_sheet_write_loop_frame oldest l2 _ _ ColC Hlt)). exact HC.
    + rewrite (proj1 (bank_sheet_write_loop_frame oldest l2 _ _ ColD Hlt)). exact HD.
    + intros Hcat.
      rewrite (proj1 (bank_sheet_write_loop_frame oldest l2 _ _ ColE Hlt)). auto.
    + intros Hcat.
      rewrite (proj1 (bank_sheet_write_loop_frame oldest l2 _ _ ColF Hlt)). auto.
    + rewrite <- Hr. subst r. lia.
Qed.

End AppendedRows.

Section AppendedRowsExample.
Import Datetime Py Sheet Examples.
Local Open Scope nat_scope.
Local Open Scope list_scope.
Local Existing Instance PlainDecimal.runtime.

Lemma appended_rows_follow_the_last_row_witness :
  let titles := ["Date"; "Merchant"; "Amount"; "Category"; "Reason"] in
  let st0 := Card.loop_start "Revolut" titles titles ∅ in
  let l := [coop_late] ++ tesla :: [] in
  let oldest := Card.oldest_date (Card.existing_data st0) l in
  let st1 := Card.write_loop "Duplicate entry" oldest st0 [coop_late] in
  let out := Card.update_workbook "Revolut" titles titles "Duplicate entry" ∅ l in
  let w := sheet_of (Card.saved out) "Revolut" in
  let r := last_row (get_or_create ∅ "Revolut" titles) + 1
           + Card.new_transactions_added st1 in
  cell_value w r ColA = PText (strftime_dmY_dot (Card.date tesla)) ∧
  cell_value w r ColB = PText (Card.merchant tesla) ∧
  cell_value w r ColC = PNumber (Card.amount tesla) ∧
  (Card.category tesla ≠ "" → cell_value w r ColE = PText (Card.category tesla)) ∧
  r ≤ last_row (get_or_create ∅ "Revolut" titles) + Card.added out.
Proof.
  apply (proj1 appended_rows_follow_the_last_row "Revolut"
           ["Date"; "Merchant"; "Amount"; "Category"; "Reason"]
           ["Date"; "Merchant"; "Amount"; "Category"; "Reason"]
           "Duplicate entry" ∅ [coop_late] tesla []).
  - discriminate.
  - apply (bool_decide_unpack _). vm_compute. reflexivity.
Defined.

End AppendedRowsExample.

(** ** The order of the write loop *)

Section SortedNewestFirst.
Import Datetime.
Local Open Scope nat_scope.
Local Open Scope list_scope.

(** [a] is not earlier than [b]. *)
Lemma not_earlier_trans a b c :
  ltb a b = false → ltb b c = false → ltb a c = false.
Proof. intros Hab Hbc. exact (gtb_false_trans c b a Hbc Hab). Qed.

Lemma not_earlier_total a b : ltb a b = true → ltb b a = false.
Proof.
  unfold ltb, compare. rewrite (lex_compare_antisym (fields a) (fields b)).
  destruct (lex_compare (fields a) (fields b)); done.
Qed.

Lemma card_insert_newest_first_elem t l x :
  x ∈ Card.insert_newest_first t l ↔ x = t ∨ x ∈ l.
Proof. rewrite card_insert_newest_first_perm. apply elem_of_cons. Qed.

Lemma bank_insert_newest_first_elem t l x :
  x ∈ Bank.insert_newest_first t l ↔ x = t ∨ x ∈ l.
Proof. rewrite bank_insert_newest_first_perm. apply elem_of_cons. Qed.

Lemma card_insert_newest_first_sorted t l :
  StronglySorted (λ a b, ltb (Card.date a) (Card.date b) = false) l →
  StronglySorted (λ a b, ltb (Card.date a) (Card.date b) = false)
    (Card.insert_newest_first t l).
Proof.
  induction 1 as [|u l Hl IH Hu]; cbn [Card.insert_newest_first].
  - repeat constructor.
  - destruct (ltb (Card.date t) (Card.date u)) eqn:E.
    + constructor; [exact IH|]. apply Forall_forall. intros x Hx.
      apply card_insert_newest_first_elem in Hx as [->|Hx].
      * apply not_earlier_total, E.
      * rewrite Forall_forall in Hu. auto.
    + constructor; [constructor; assumption|].
      constructor; [exact E|]. rewrite Forall_forall in Hu |- *.
      intros x Hx. eapply not_earlier_trans; [exact E | auto].
Qed.

Lemma bank_insert_newest_first_sorted t l :
  StronglySorted (λ a b, ltb (Bank.date a) (Bank.date b) = false) l →
  StronglySorted (λ a b, ltb (Bank.date a) (Bank.date b) = false)
    (Bank.insert_newest_first t l).
Proof.
  induction 1 as [|u l Hl IH Hu]; cbn [Bank.insert_newest_first].
  - repeat constructor.
  - destruct (ltb (Bank.date t) (Bank.date u)) eqn:E.
    + constructor; [exact IH|]. apply Forall_forall. intros x Hx.
      apply bank_insert_newest_first_elem in Hx as [->|Hx].
      * apply not_earlier_total, E.
      * rewrite Forall_forall in Hu. auto.
    + constructor; [constructor; assumption|].
      constructor; [exact E|]. rewrite Forall_forall in Hu |- *.
      intros x Hx. eapply not_earlier_trans; [exact E | auto].
Qed.

Lemma ltb_irrefl a : ltb a a = false.
Proof. exact (gtb_irrefl a). Qed.

(** Candidates of one datetime stay in the order in which they were read. *)
Lemma card_insert_newest_first_stable d t l :
  filter (λ x, Card.date x = d) (Card.insert_newest_first t l)
  = filter (λ x, Card.date x = d) (t :: l).
Proof.
  induction l as [|u l IH]; cbn [Card.insert_newest_first]; [reflexivity|].
  destruct (ltb (Card.date t) (Card.date u)) eqn:E; [|reflexivity].
  rewrite filter_cons, IH, !filter_cons.
  destruct (decide (Card.date u = d)) as [Hu|Hu],
           (decide (Card.date t = d)) as [Ht|Ht]; try reflexivity.
  rewrite Hu, Ht, ltb_irrefl in E. discriminate.
Qed.

Lemma bank_insert_newest_first_stable d t l :
  filter (λ x, Bank.date x = d) (Bank.insert_newest_first t l)
  = filter (λ x, Bank.date x = d) (t :: l).
Proof.
  induction l as [|u l IH]; cbn [Bank.insert_newest_first]; [reflexivity|].
  destruct (ltb (Bank.date t) (Bank.date u)) eqn:E; [|reflexivity].
  rewrite filter_cons, IH, !filter_cons.
  destruct (decide (Bank.date u = d)) as [Hu|Hu],
           (decide (Bank.date t = d)) as [Ht|Ht]; try reflexivity.
  rewrite Hu, Ht, ltb_irrefl in E. discriminate.
Qed.

(** X11: the write loops go through the candidates newest first.  The
    list that [sort(key=date, reverse=True)] hands to the write loop holds
    the candidates that were read, each as often as it was read; no
    candidate in it is earlier than a candidate that comes after it; and
    the candidates of one datetime keep the order in which they were
    read.  This holds for the sort of the two CSV pipelines and for the
    sort of the bank pipeline. *)
Theorem candidates_are_sorted_newest_first :
  (∀ l : list Card.transaction,
     Card.sort_newest_first l ≡ₚ l ∧
     StronglySorted (λ a b, ltb (Card.date a) (Card.date b) = false)
       (Card.sort_newest_first l) ∧
     ∀ d, filter (λ x, Card.date x = d) (Card.sort_newest_first l)
          = filter (λ x, Card.date x = d) l) ∧
  (∀ l : list Bank.transaction,
     Bank.sort_newest_first l ≡ₚ l ∧
     StronglySorted (λ a b, ltb (Bank.date a) (Bank.date b) = false)
       (Bank.sort_newest_first l) ∧
     ∀ d, filter (λ x, Bank.date x = d) (Bank.sort_newest_first l)
          = filter (λ x, Bank.date x = d) l).
Proof.
  split; intros l; (split; [|split]).
  - apply card_sort_newest_first_perm.
  - induction l as [|t l IH]; [constructor|].
    apply card_insert_newest_first_sorted, IH.
  - intros d. induction l as [|t l IH]; [reflexivity|].
    cbn [Card.sort_newest_first foldr].
    rewrite card_insert_newest_first_stable, !filter_cons.
    fold (Card.sort_newest_first l). rewrite IH. reflexivity.
  - apply bank_sort_newest_first_perm.
  - induction l as [|t l IH]; [constructor|].
    apply bank_insert_newest_first_sorted, IH.
  - intros d. induction l as [|t l IH]; [reflexivity|].
    cbn [Bank.sort_newest_first foldr].
    rewrite bank_insert_newest_first_stable, !filter_cons.
    fold (Bank.sort_newest_first l). rewrite IH. reflexivity.
Qed.

End SortedNewestFirst.

(** ** A run that finds nothing new *)

Section NothingNew.
Import Datetime Py Sheet.
Local Open Scope nat_scope.
Local Open Scope list_scope.
Context `{Runtime}.

Lemma card_all_duplicates_loop reason oldest l st :
  (∀ t, t ∈ l → Card.trans_tuple t ∈ Card.existing_data st) →
  Card.worksheet_ (Card.write_loop reason oldest st l) = Card.worksheet_ st ∧
  Card.new_transactions_added (Card.write_loop reason oldest st l)
  = Card.new_transactions_added st ∧
  Card.duplicates_found (Card.write_loop reason oldest st l)
  = Card.duplicates_found st + length l.
Proof.
  revert st. induction l as [|t l IH]; intros st Hall.
  - cbn. repeat split; lia.
  - rewrite write_loop_cons.
    rewrite write_step_duplicate by (apply Hall, list_elem_of_here).
    destruct (IH (Card.write_duplicate reason st t)) as (Hw & Ha & Hd).
    { intros u Hu. cbn [Card.write_duplicate Card.existing_data].
      apply Hall, list_elem_of_further, Hu. }
    rewrite Hw, Ha, Hd. cbn. repeat split; lia.
Qed.

Lemma bank_all_duplicates_loop oldest l st :
  (∀ t, t ∈ l → Bank.trans_tuple t ∈ Bank.existing_data st) →
  Bank.sheet_bcv (Bank.write_loop oldest st l) = Bank.sheet_bcv st ∧
  Bank.new_transactions_added (Bank.write_loop oldest st l)
  = Bank.new_transactions_added st ∧
  Bank.duplicates_skipped (Bank.write_loop oldest st l)
  = Bank.duplicates_skipped st + length l.
Proof.
  revert st. induction l as [|t l IH]; intros st Hall.
  - cbn. repeat split; lia.
  - rewrite bank_write_loop_cons.
    rewrite bank_write_step_duplicate by (apply Hall, list_elem_of_here).
    destruct (IH (Bank.skip_duplicate st)) as (Hw & Ha & Hd).
    { intros u Hu. cbn [Bank.skip_duplicate Bank.existing_data].
      apply Hall, list_elem_of_further, Hu. }
    rewrite Hw, Ha, Hd. cbn. repeat split; lia.
Qed.

Lemma update_workbook_all_duplicates sheet_name titles dup_titles reason wb l ws :
  sheet_name ≠ "Duplicates" →
  wb !! sheet_name = Some ws →
  (∀ t, t ∈ l →
     Card.trans_tuple t
     ∈ Card.existing_data (Card.loop_start sheet_name titles dup_titles wb)) →
  let out := Card.update_workbook sheet_name titles dup_titles reason wb l in
  Card.saved out !! sheet_name = Some ws ∧
  Card.added out = 0 ∧ Card.duplicates out = length l.
Proof.
  intros Hname Hws Hall out. subst out. unfold Card.update_workbook.
  cbn [Card.saved Card.added Card.duplicates].
  set (st0 := Card.loop_start sheet_name titles dup_titles wb) in *.
  destruct (card_all_duplicates_loop reason
              (Card.oldest_date (Card.existing_data st0) l) l st0 Hall)
    as (Hw & Ha & Hd).
  rewrite Hw, Ha, Hd. rewrite lookup_insert_ne by congruence.
  rewrite lookup_insert_eq. subst st0.
  unfold Card.loop_start, get_or_create. rewrite Hws. done.
Qed.

(** X12: a run that finds nothing new leaves the ledger as it is.  When
    the ledger sheet exists and the key of every candidate read is in the
    existing-key set built from it, the two CSV pipelines save the ledger
    sheet exactly as it was loaded, report zero appended rows and count
    every candidate as a duplicate (they are written to ["Duplicates"]);
    the bank pipeline saves the whole workbook exactly as it was loaded. *)
Theorem nothing_new_leaves_ledger_unchanged :
  (∀ account_files wb ws,
     let titles := ["Date"; "Merchant"; "Amount"; "Category"; "Reason"] in
     let candidates := mjoin (Account.read_file <$> account_files) in
     wb !! "Revolut" = Some ws →
     (∀ t, t ∈ candidates →
        Card.trans_tuple t
        ∈ Card.existing_data (Card.loop_start "Revolut" titles titles wb)) →
     let out := Account.process_account_statements account_files wb in
     Card.saved out !! "Revolut" = Some ws ∧
     Card.added out = 0) ∧
  (∀ rows wb ws,
     let titles := ["Date"; "Merchant"; "Amount"; "Empty"; "Category"] in
     let candidates := CreditCard.read_rows rows in
     wb !! "Carte Cred" = Some ws →
     (∀ t, t ∈ candidates →
        Card.trans_tuple t
        ∈ Card.existing_data (Card.loop_start "Carte Cred" titles titles wb)) →
     let out := CreditCard.process_transactions rows wb in
     Card.saved out !! "Carte Cred" = Some ws ∧
     Card.added out = 0 ∧ Card.duplicates out = length candidates) ∧
  (∀ rows wb ws,
     wb !! "BCV" = Some ws →
     (∀ t, t ∈ Bank.read_rows wb rows →
        Bank.trans_tuple t ∈ Bank.existing_data (Bank.initial_state ws)) →
     let out := Bank.process_bank_statements rows wb in
     Card.saved out = wb ∧ Card.added out = 0).
Proof.
  repeat apply conj.
  - intros account_files wb ws titles candidates Hws Hall out. subst out.
    unfold Account.process_account_statements. fold candidates.
    destruct candidates as [|t l] eqn:E; [cbn; done|].
    destruct (update_workbook_all_duplicates "Revolut" titles titles
                "Duplicate from account statement" wb
                (Card.sort_newest_first (t :: l)) ws) as (Hs & Ha & _);
      [done | exact Hws | | done].
    intros u Hu. apply Hall. rewrite card_sort_newest_first_perm in Hu. exact Hu.
  - intros rows wb ws titles candidates Hws Hall out. subst out.
    unfold CreditCard.process_transactions. fold candidates.
    destruct (update_workbook_all_duplicates "Carte Cred" titles titles
                "Duplicate entry" wb (Card.sort_newest_first candidates) ws)
      as (Hs & Ha & Hd); [done | exact Hws | | ].
    + intros u Hu. apply Hall. rewrite card_sort_newest_first_perm in Hu. exact Hu.
    + refine (conj Hs (conj Ha _)). etrans; [exact Hd|].
      apply Permutation_length, card_sort_newest_first_perm.
  - intros rows wb ws Hws Hall out. subst out.
    unfold Bank.process_bank_statements.
    destruct (Bank.read_rows wb rows) as [|t l] eqn:E; [cbn; done|].
    cbn zeta. cbn [Card.saved Card.added].
    unfold get_or_create. rewrite Hws.
    destruct (bank_all_duplicates_loop
                (Bank.oldest_bank_date (Bank.existing_data (Bank.initial_state ws))
                   (Bank.sort_newest_first (t :: l)))
                (Bank.sort_newest_first (t :: l)) (Bank.initial_state ws))
      as (Hw & Ha & _).
    { intros u Hu. apply Hall. rewrite bank_sort_newest_first_perm in Hu. exact Hu. }
    rewrite Hw, Ha. cbn [Bank.initial_state Bank.sheet_bcv Bank.new_transactions_added].
    split; [apply insert_id, Hws | reflexivity].
Qed.

End NothingNew.

Section NothingNewExample.
Import Datetime Py Sheet Examples.
Local Open Scope nat_scope.
Local Open Scope list_scope.
Local Existing Instance PlainDecimal.runtime.

Lemma nothing_new_leaves_ledger_unchanged_witness :
  let out := Bank.process_bank_statements [duol_row] workbook_with_duol in
  Card.saved out = workbook_with_duol ∧ Card.added out = 0.
Proof.
  apply (proj2 (proj2 nothing_new_leaves_ledger_unchanged)
           [duol_row] workbook_with_duol bcv_with_duol).
  - apply lookup_singleton_eq.
  - intros t Ht. apply list_elem_of_In in Ht. vm_compute in Ht.
    destruct Ht as [<-|[]].
    apply (bool_decide_unpack _). vm_compute. reflexivity.
Defined.

End NothingNewExample.

(** ** The candidates of the account-statement pipeline *)

Section AccountCandidates.
Import Datetime Py Sheet.
Local Open Scope nat_scope.
Local Open Scope list_scope.
Context `{Runtime}.



End AccountCandidates.

Section AccountCandidatesExample.
Import Datetime Py Sheet Examples.
Local Open Scope nat_scope.
Local Open Scope list_scope.
Local Existing Instance PlainDecimal.runtime.


End AccountCandidatesExample.

(** ** Labels that the merchant categoriser has produced *)

Section MerchantLabels.
Import PyStr Categorizer.
Local Open Scope list_scope.

(** The scan returns the text itself with an empty category, or what one
    of the rules gives. *)
Lemma scan_merchant_rules_cases rules s :
  scan_merchant_rules rules s = (s, "") ∨
  ∃ r, r ∈ rules ∧ scan_merchant_rules rules s = apply_merchant_rule r.
Proof.
  induction rules as [|r rules IH]; cbn [scan_merchant_rules]; [left; done|].
  destruct (merchant_rule_matches r s).
  - right. exists r. split; [apply list_elem_of_here | done].
  - destruct IH as [IH | (r' & Hin & IH)]; [left; done|].
    right. exists r'. split; [apply list_elem_of_further, Hin | done].
Qed.

(** Every rule but the one of ["QoQa"] recognises its own cleaned name. *)
Lemma merchant_rule_label_fixed r :
  r ∈ merchant_categories →
  (apply_merchant_rule r).1 ≠ "QoQa" →
  clean_merchant_and_categorize (Some (apply_merchant_rule r).1)
  = apply_merchant_rule r.
Proof.
  intros Hr. apply list_elem_of_In in Hr. unfold merchant_categories in Hr.
  cbn [In] in Hr.
  repeat (destruct Hr as [<-|Hr];
          [first [ intros _; vm_compute; reflexivity
                 | intros Hne; exfalso; apply Hne; reflexivity ] |]).
  destruct Hr.
Qed.

(** X14: a label that [clean_merchant_and_categorize] has returned is left
    as it is when it is categorised again, and it gets the same category
    again; the one exception is the label ["QoQa"], whose rule looks for
    ["QoQa Services SA"]: it keeps its label and loses its category
    ["?"]. *)
Theorem merchant_labels_are_stable (merchant label category : string) :
  clean_merchant_and_categorize (Some merchant) = (label, category) →
  (clean_merchant_and_categorize (Some label)).1 = label ∧
  (label ≠ "QoQa" →
   clean_merchant_and_categorize (Some label) = (label, category)) ∧
  (label = "QoQa" → category ≠ "" →
   category = "?" ∧ clean_merchant_and_categorize (Some label) = (label, "")).
Proof.
  unfold clean_merchant_and_categorize at 1. cbn [clean_merchant_with].
  destruct (scan_merchant_rules_cases merchant_categories merchant)
    as [Hnone | (r & Hr & Hsome)].
  - rewrite Hnone. intros [= <- <-].
    assert (Hagain : clean_merchant_and_categorize (Some merchant) = (merchant, ""))
      by exact Hnone.
    rewrite Hagain. repeat apply conj; try done.
  - rewrite Hsome. intros Heq.
    destruct (decide (label = "QoQa")) as [Hq | Hq].
    + subst label.
      assert (Hagain : clean_merchant_and_categorize (Some "QoQa") = ("QoQa", ""))
        by (vm_compute; reflexivity).
      rewrite Hagain. repeat apply conj; try done.
      intros _ Hcat. split; [|reflexivity].
      apply list_elem_of_In in Hr. unfold merchant_categories in Hr.
      cbn [In] in Hr.
      repeat (destruct Hr as [<-|Hr];
              [cbn in Heq; first [discriminate Heq | congruence] |]).
      destruct Hr.
    + pose proof (merchant_rule_label_fixed r Hr) as Hfix.
      rewrite Heq in Hfix. cbn [fst] in Hfix. specialize (Hfix Hq).
      rewrite Hfix. repeat apply conj; try done.
Qed.

Lemma merchant_labels_are_stable_witness :
  (clean_merchant_and_categorize (Some "Migros")).1 = "Migros" ∧
  ("Migros" ≠ "QoQa" →
   clean_merchant_and_categorize (Some "Migros") = ("Migros", "Food")) ∧
  ("Migros" = "QoQa" → "Food" ≠ "" →
   "Food" = "?" ∧ clean_merchant_and_categorize (Some "Migros") = ("Migros", "")).
Proof.
  apply (merchant_labels_are_stable "Migros Lausanne" "Migros" "Food").
  vm_compute. reflexivity.
Defined.

End MerchantLabels.

(** ** The rows in bold *)

Section BoldRows.
Import Datetime Py Sheet.
Local Open Scope nat_scope.
Local Open Scope list_scope.
Context `{Runtime}.

(** [min] gives an element of the list that no element is earlier than. *)
Lemma min_date_spec dates m :
  min_date dates = Some m →
  m ∈ dates ∧ ∀ d, d ∈ dates → ltb d m = false.
Proof.
  revert m. induction dates as [|d rest IH]; intros m; cbn [min_date];
    [discriminate|].
  destruct (min_date rest) as [m'|] eqn:E.
  - destruct (IH m' eq_refl) as [Hin Hmin].
    destruct (ltb m' d) eqn:Hlt; intros [= <-].
    + split; [apply list_elem_of_further, Hin|].
      intros x Hx. apply elem_of_cons in Hx as [->|Hx]; [|auto].
      apply not_earlier_total, Hlt.
    + split; [apply list_elem_of_here|].
      intros x Hx. apply elem_of_cons in Hx as [->|Hx]; [apply ltb_irrefl|].
      eapply not_earlier_trans; [apply Hmin, Hx | exact Hlt].
  - intros [= <-]. destruct rest as [|d' rest'].
    + split; [apply list_elem_of_here|].
      intros x Hx. apply list_elem_of_singleton in Hx as ->. apply ltb_irrefl.
    + cbn [min_date] in E. destruct (min_date rest'); discriminate.
Qed.

Lemma card_is_oldest_true oldest t :
  Card.is_oldest oldest t = true ↔ oldest = Some (Card.date t).
Proof.
  unfold Card.is_oldest. destruct oldest as [o|]; [|split; discriminate].
  rewrite bool_decide_eq_true. split; [intros ->; done | intros [= ->]; done].
Qed.

Lemma bank_is_oldest_true oldest t :
  Bank.is_oldest oldest t = true ↔ oldest = Some (Bank.date t).
Proof.
  unfold Bank.is_oldest. destruct oldest as [o|]; [|split; discriminate].
  rewrite bool_decide_eq_true. split; [intros ->; done | intros [= ->]; done].
Qed.

(** The loop does not write below the rows that it has appended. *)
Lemma card_worksheet_write_loop_below reason oldest l st r c :
  Card.next_row (Card.write_loop reason oldest st l) ≤ r →
  cell_bold (Card.worksheet_ (Card.write_loop reason oldest st l)) r c
  = cell_bold (Card.worksheet_ st) r c.
Proof.
  revert st. induction l as [|t l IH]; intros st Hr; [reflexivity|].
  rewrite write_loop_cons in Hr |- *. rewrite (IH _ Hr).
  pose proof (card_write_loop_counts reason oldest l
                (Card.write_step reason oldest st t)) as (_ & Hn & _).
  pose proof (card_added_write_loop reason oldest l
                (Card.write_step reason oldest st t)) as Ha.
  cbn zeta in Hn.
  assert (Hle : Card.next_row (Card.write_step reason oldest st t) ≤ r) by lia.
  revert Hle. unfold Card.write_step. case_bool_decide; [reflexivity|].
  unfold Card.write_new. cbn [Card.next_row Card.worksheet_]. intros Hle.
  destruct (PyStr.truthy (Card.category t)), (Card.is_oldest oldest t);
    read_cell; reflexivity.
Qed.

Lemma bank_sheet_write_loop_below oldest l st r c :
  Bank.next_row (Bank.write_loop oldest st l) ≤ r →
  cell_bold (Bank.sheet_bcv (Bank.write_loop oldest st l)) r c
  = cell_bold (Bank.sheet_bcv st) r c.
Proof.
  revert st. induction l as [|t l IH]; intros st Hr; [reflexivity|].
  rewrite bank_write_loop_cons in Hr |- *. rewrite (IH _ Hr).
  pose proof (bank_write_loop_counts oldest l
                (Bank.write_step oldest st t)) as (_ & Hn).
  pose proof (bank_added_write_loop oldest l
                (Bank.write_step oldest st t)) as Ha.
  cbn zeta in Hn.
  assert (Hle : Bank.next_row (Bank.write_step oldest st t) ≤ r) by lia.
  revert Hle. unfold Bank.write_step. case_bool_decide; [reflexivity|].
  unfold Bank.write_new. cbn [Bank.next_row Bank.sheet_bcv]. intros Hle.
  destruct (PyStr.truthy (Bank.category t)), (PyStr.truthy (Bank.sub_category t)),
    (Bank.is_oldest oldest t); cbn [foldl]; read_cell; reflexivity.
Qed.

Lemma bank_write_new_bold oldest st t :
  cell_bold (Bank.sheet_bcv (Bank.write_new oldest st t)) (Bank.next_row st) ColA
  = (Bank.is_oldest oldest t
     || cell_bold (Bank.sheet_bcv st) (Bank.next_row st) ColA).
Proof.
  unfold Bank.write_new. cbn [Bank.sheet_bcv].
  destruct (PyStr.truthy (Bank.category t)), (PyStr.truthy (Bank.sub_category t)),
    (Bank.is_oldest oldest t); cbn [foldl orb]; read_cell; reflexivity.
Qed.

(** X15: which appended rows are bold.  Take a candidate that is appended
    to a row whose date cell was not bold in the sheet as loaded.  Its
    date cell is bold in the saved sheet exactly when its datetime is the
    [oldest_date] of the first pass; and then no candidate whose key was
    not in the existing-key set before the loop has an earlier datetime.
    The same holds for the write loop of the bank pipeline. *)
Theorem bold_rows_carry_the_oldest_date :
  (∀ sheet_name titles dup_titles reason wb l1 t l2,
     sheet_name ≠ "Duplicates" →
     let st0 := Card.loop_start sheet_name titles dup_titles wb in
     let l := l1 ++ t :: l2 in
     let oldest := Card.oldest_date (Card.existing_data st0) l in
     let st1 := Card.write_loop reason oldest st0 l1 in
     Card.trans_tuple t ∉ Card.existing_data st1 →
     let out := Card.update_workbook sheet_name titles dup_titles reason wb l in
     let w := sheet_of (Card.saved out) sheet_name in
     let r := last_row (get_or_create wb sheet_name titles) + 1
              + Card.new_transactions_added st1 in
     cell_bold (get_or_create wb sheet_name titles) r ColA = false →
     (cell_bold w r ColA = true ↔ oldest = Some (Card.date t)) ∧
     (cell_bold w r ColA = true →
      ∀ u, u ∈ l → Card.trans_tuple u ∉ Card.existing_data st0 →
           ltb (Card.date u) (Card.date t) = false)) ∧
  (∀ sheet l1 t l2,
     let st0 := Bank.initial_state sheet in
     let l := l1 ++ t :: l2 in
     let oldest := Bank.oldest_bank_date (Bank.existing_data st0) l in
     let st1 := Bank.write_loop oldest st0 l1 in
     Bank.trans_tuple t ∉ Bank.existing_data st1 →
     let w := Bank.sheet_bcv (Bank.write_loop oldest st0 l) in
     let r := last_row sheet + 1 + Bank.new_transactions_added st1 in
     cell_bold sheet r ColA = false →
     (cell_bold w r ColA = true ↔ oldest = Some (Bank.date t)) ∧
     (cell_bold w r ColA = true →
      ∀ u, u ∈ l → Bank.trans_tuple u ∉ Bank.existing_data st0 →
           ltb (Bank.date u) (Bank.date t) = false)).
Proof.
  split.
  - intros sheet_name titles dup_titles reason wb l1 t l2 Hname st0 l oldest st1
      Hnew out w r Hplain.
    assert (Hw : w = Card.worksheet_
                       (Card.write_loop reason oldest
                          (Card.write_new oldest st1 t) l2)).
    { subst w out. unfold Card.update_workbook, sheet_of. cbn [Card.saved].
      rewrite lookup_insert_ne by congruence. rewrite lookup_insert_eq.
      cbn [default from_option id]. fold st0. fold l. fold oldest.
      subst l. rewrite write_loop_app, write_loop_cons. fold st1.
      rewrite (write_step_new _ _ _ _ Hnew). reflexivity. }
    assert (Hr : r = Card.next_row st1).
    { pose proof (card_write_loop_counts reason oldest l1 st0) as (_ & Hc & _).
      fold st1 in Hc. subst r. revert Hc. subst st0.
      unfold Card.loop_start, Card.initial_state.
      cbn [Card.next_row Card.new_transactions_added]. lia. }
    assert (Hbold : cell_bold w r ColA = Card.is_oldest oldest t).
    { rewrite Hw, Hr.
      assert (Hlt : Card.next_row st1
                    < Card.next_row (Card.write_new oldest st1 t)) by (cbn; lia).
      rewrite (proj2 (worksheet_write_loop_frame reason oldest l2 _ _ ColA Hlt)).
      destruct (write_new_row oldest st1 t) as (_ & _ & _ & ->).
      unfold st1. rewrite card_worksheet_write_loop_below by (fold st1; lia).
      fold st1. rewrite <- Hr.
      replace (Card.worksheet_ st0) with (get_or_create wb sheet_name titles)
        by reflexivity.
      rewrite Hplain. apply orb_false_r. }
    rewrite Hbold, card_is_oldest_true. split; [reflexivity|].
    intros Hold u Hu Hfresh.
    destruct (min_date_spec _ _ Hold) as [_ Hmin]. apply Hmin.
    apply list_elem_of_fmap. exists u. split; [reflexivity|].
    apply list_elem_of_filter. split; assumption.
  - intros sheet l1 t l2 st0 l oldest st1 Hnew w r Hplain.
    assert (Hw : w = Bank.sheet_bcv
                       (Bank.write_loop oldest (Bank.write_new oldest st1 t) l2)).
    { subst w l. rewrite bank_write_loop_app, bank_write_loop_cons. fold st1.
      rewrite (bank_write_step_new _ _ _ Hnew). reflexivity. }
    assert (Hr : r = Bank.next_row st1).
    { pose proof (bank_write_loop_counts oldest l1 st0) as (_ & Hc).
      fold st1 in Hc. subst r. revert Hc. subst st0.
      unfold Bank.initial_state.
      cbn [Bank.next_row Bank.new_transactions_added]. lia. }
    assert (Hbold : cell_bold w r ColA = Bank.is_oldest oldest t).
    { rewrite Hw, Hr.
      assert (Hlt : Bank.next_row st1
                    < Bank.next_row (Bank.write_new oldest st1 t)) by (cbn; lia).
      rewrite (proj2 (bank_sheet_write_loop_frame oldest l2 _ _ ColA Hlt)).
      rewrite bank_write_new_bold.
      unfold st1. rewrite bank_sheet_write_loop_below by (fold st1; lia).
      fold st1. rewrite <- Hr.
      replace (Bank.sheet_bcv st0) with sheet by reflexivity.
      rewrite Hplain. apply orb_false_r. }
    rewrite Hbold, bank_is_oldest_true. split; [reflexivity|].
    intros Hold u Hu Hfresh.
    destruct (min_date_spec _ _ Hold) as [_ Hmin]. apply Hmin.
    apply list_elem_of_fmap. exists u. split; [reflexivity|].
    apply list_elem_of_filter. split; assumption.
Qed.

End BoldRows.

Section BoldRowsExample.
Import Datetime Py Sheet Examples.
Local Open Scope nat_scope.
Local Open Scope list_scope.
Local Existing Instance PlainDecimal.runtime.

Lemma bold_rows_carry_the_oldest_date_witness :
  let titles := ["Date"; "Merchant"; "Amount"; "Category"; "Reason"] in
  let st0 := Card.loop_start "Revolut" titles titles ∅ in
  let l := [coop_late] ++ tesla :: [] in
  let oldest := Card.oldest_date (Card.existing_data st0) l in
  let st1 := Card.write_loop "Duplicate entry" oldest st0 [coop_late] in
  let out := Card.update_workbook "Revolut" titles titles "Duplicate entry" ∅ l in
  let w := sheet_of (Card.saved out) "Revolut" in
  let r := last_row (get_or_create ∅ "Revolut" titles) + 1
           + Card.new_transactions_added st1 in
  (cell_bold w r ColA = true ↔ oldest = Some (Card.date tesla)) ∧
  (cell_bold w r ColA = true →
   ∀ u, u ∈ l → Card.trans_tuple u ∉ Card.existing_data st0 →
        ltb (Card.date u) (Card.date tesla) = false).
Proof.
  apply (proj1 bold_rows_carry_the_oldest_date "Revolut"
           ["Date"; "Merchant"; "Amount"; "Category"; "Reason"]
           ["Date"; "Merchant"; "Amount"; "Category"; "Reason"]
           "Duplicate entry" ∅ [coop_late] tesla []).
  - discriminate.
  - apply (bool_decide_unpack _). vm_compute. reflexivity.
  - vm_compute. reflexivity.
Defined.

End BoldRowsExample.

(** ** Runs without candidates *)

Section NoCandidates.
Import Datetime Py Sheet.
Local Open Scope nat_scope.
Local Open Scope list_scope.
Context `{Runtime}.

Lemma account_read_file_no_card_payment rows :
  (∀ row, row ∈ rows → Account.col_Type row ≠ PText "Card Payment") →
  Account.read_file rows = [].
Proof.
  intros Hrows. unfold Account.read_file.
  replace (filter (λ r, Account.is_card_payment r = true) rows) with (@nil Account.csv_row);
    [reflexivity|].
  symmetry. induction rows as [|row rows IH]; [reflexivity|].
  rewrite filter_cons.
  destruct (decide (Account.is_card_payment row = true)) as [Hc|Hc].
  - exfalso. apply (Hrows row); [apply list_elem_of_here|].
    unfold Account.is_card_payment in Hc.
    destruct (Account.col_Type row) as [|ty| |]; try discriminate.
    apply bool_decide_eq_true in Hc. congruence.
  - apply IH. intros r Hr. apply Hrows, list_elem_of_further, Hr.
Qed.

(** X16: what a run without candidates does.  Account-statement files
    that hold no row of type ["Card Payment"] leave the workbook as it
    is, without creating a sheet.  The credit-card pipeline has no such
    early return: on a file without rows it still saves the workbook with
    the sheets ["Carte Cred"] and ["Duplicates"], created with their
    header row when they were missing, and reports zero rows; the
    workbook is saved unchanged if it held both sheets already. *)
Theorem runs_without_candidates :
  (∀ account_files wb,
     (∀ rows row, rows ∈ account_files → row ∈ rows →
                  Account.col_Type row ≠ PText "Card Payment") →
     Account.process_account_statements account_files wb
     = {| Card.saved := wb; Card.added := 0; Card.duplicates := 0 |}) ∧
  (∀ wb,
     let titles := ["Date"; "Merchant"; "Amount"; "Empty"; "Category"] in
     let out := CreditCard.process_transactions [] wb in
     Card.added out = 0 ∧ Card.duplicates out = 0 ∧
     Card.saved out !! "Carte Cred" = Some (get_or_create wb "Carte Cred" titles) ∧
     Card.saved out !! "Duplicates"
       = Some (get_or_create (<["Carte Cred" := get_or_create wb "Carte Cred" titles]> wb)
                 "Duplicates" titles) ∧
     (∀ name, name ≠ "Carte Cred" → name ≠ "Duplicates" →
              Card.saved out !! name = wb !! name) ∧
     (is_Some (wb !! "Carte Cred") → is_Some (wb !! "Duplicates") →
      Card.saved out = wb)).
Proof.
  split.
  - intros account_files wb Hfiles. unfold Account.process_account_statements.
    replace (mjoin (Account.read_file <$> account_files))
      with (@nil Card.transaction); [reflexivity|].
    symmetry. induction account_files as [|rows files IH]; [reflexivity|].
    cbn [fmap list_fmap mjoin list_join].
    rewrite account_read_file_no_card_payment.
    + apply IH. intros rs r Hrs. apply Hfiles, list_elem_of_further, Hrs.
    + intros r Hr. apply (Hfiles rows r); [apply list_elem_of_here | exact Hr].
  - intros wb titles out. subst out.
    unfold CreditCard.process_transactions, CreditCard.read_rows,
      Card.update_workbook.
    cbn [imap omap list_omap Card.sort_newest_first foldr Card.write_loop foldl
         Card.saved Card.added Card.duplicates].
    unfold Card.loop_start, Card.initial_state.
    cbn [Card.worksheet_ Card.duplicate_worksheet Card.new_transactions_added
         Card.duplicates_found].
    repeat apply conj; try reflexivity.
    + rewrite lookup_insert_ne by discriminate. apply lookup_insert_eq.
    + apply lookup_insert_eq.
    + intros name H1 H2. rewrite !lookup_insert_ne by congruence. reflexivity.
    + intros [w Hw] [d Hd]. unfold get_or_create at 1.
      rewrite lookup_insert_ne by discriminate. rewrite Hd. cbn.
      unfold get_or_create. rewrite Hw. cbn.
      rewrite (insert_id wb "Carte Cred" w Hw). apply insert_id, Hd.
Qed.

End NoCandidates.

Section NoCandidatesExample.
Import Datetime Py Sheet Examples.
Local Open Scope nat_scope.
Local Open Scope list_scope.
Local Existing Instance PlainDecimal.runtime.

Lemma runs_without_candidates_witness :
  Account.process_account_statements
    [[Account.mk_csv_row (PText "Transfer") (PText "2025-11-13 14:07:59")
        (PText "To savings") (PNumber (q (-100) 1))]] workbook_with_duol
  = {| Card.saved := workbook_with_duol; Card.added := 0; Card.duplicates := 0 |}.
Proof.
  apply (proj1 runs_without_candidates).
  intros rows row Hrows Hrow.
  apply list_elem_of_singleton in Hrows as ->.
  apply list_elem_of_singleton in Hrow as ->.
  discriminate.
Defined.

End NoCandidatesExample.

(** ** Texts that are no date *)

Section NoDate.
Import Datetime Py Sheet.
Local Open Scope nat_scope.
Local Open Scope list_scope.
Context `{Runtime}.

Lemma strptime_unconverted s fmt dt c r :
  head (match_format fmt strptime_default s) = Some (dt, String c r) →
  strptime s fmt = None.
Proof.
  unfold strptime. destruct (match_format fmt strptime_default s) as [|[a b] tl];
    [discriminate|].
  intros [= -> ->]. reflexivity.
Qed.

Lemma strip_str_datetime dt : strip (Datetime.str dt) = Datetime.str dt.
Proof.
  unfold strip, Datetime.str, pad4, pad2. rewrite lstrip_digit_char.
  repeat (apply rstrip_cons;
          [first [apply blank_text_digit_char | apply blank_text_before_digit_char]|]).
  reflexivity.
Qed.

Lemma strip_blank_text s : blank_text s = true → strip s = "".
Proof. intros Hb. unfold strip. rewrite (lstrip_blank_text s Hb). reflexivity. Qed.

Lemma parse_date_text_str_datetime dt :
  valid dt = true → parse_date_text (Datetime.str dt) = None.
Proof.
  intros Hvalid. unfold parse_date_text. rewrite strip_str_datetime.
  assert (Hy : year dt < 100 * 100 ∧ 1 ≤ month dt ≤ 12 ∧ 1 ≤ day dt ≤ 31).
  { pose proof (valid_date_part dt Hvalid) as Hv. apply valid_of_date in Hv.
    pose proof (days_in_month_le (year dt) (month dt)). lia. }
  destruct Hy as (Hy & Hm & Hd).
  unfold parse_date_formats, Datetime.str. cbn [try_formats].
  unfold fmt_dmY_dash, fmt_dmY_dot, fmt_dmY_slash, fmt_mdY_slash.
  rewrite !(strptime_sep_mismatch_pad4 Dir_d) by (reflexivity || (left; reflexivity)).
  rewrite (strptime_sep_mismatch_pad4 Dir_m) by (reflexivity || (right; reflexivity)).
  erewrite (strptime_unconverted _ fmt_Ymd); [reflexivity|].
  unfold fmt_Ymd.
  eapply match_format_head; [apply match_Y_pad4; lia|].
  eapply match_format_head; [apply match_lit_eq|].
  eapply match_format_head; [apply match_m_pad2, Hm|].
  eapply match_format_head; [apply match_lit_eq|].
  eapply match_format_head; [apply match_d_pad2, Hd|].
  reflexivity.
Qed.

(** X17: what [parse_date] takes for no date.  A missing value, an empty
    text and a text of blanks only give no date; neither does the text
    that [str] makes of a valid datetime, a date followed by a time of
    day, although the datetime itself is accepted: the formats of
    [parse_date] have no time of day, and the text after the date is
    refused as unconverted data.  So a text cell of the sheet ["2025"]
    that holds such a text is passed over by the scan for the latest
    date. *)
Theorem parse_date_refuses_blank_and_timed_texts :
  parse_date PNone = None ∧
  (∀ s, blank_text s = true → parse_date (PText s) = None) ∧
  (∀ dt, valid dt = true →
     parse_date (PText (Datetime.str dt)) = None ∧
     parse_date (PDatetime dt) = Some dt ∧
     Bank.current_date (PText (Datetime.str dt)) = None).
Proof.
  repeat apply conj.
  - vm_compute. reflexivity.
  - intros s Hb. cbn [parse_date Py.str]. unfold parse_date_text.
    rewrite (strip_blank_text s Hb). vm_compute. reflexivity.
  - intros dt Hvalid. repeat apply conj.
    + apply parse_date_text_str_datetime, Hvalid.
    + reflexivity.
    + unfold Bank.current_date.
      assert (Ht : truthy (PText (Datetime.str dt)) = true) by reflexivity.
      rewrite Ht. apply parse_date_text_str_datetime, Hvalid.
Qed.

End NoDate.

Section NoDateExample.
Import Datetime Py Sheet Examples.
Local Open Scope nat_scope.
Local Existing Instance PlainDecimal.runtime.

Lemma parse_date_refuses_blank_and_timed_texts_witness :
  parse_date (PText (Datetime.str (mk_datetime 2025 11 13 14 7 59))) = None ∧
  parse_date (PDatetime (mk_datetime 2025 11 13 14 7 59))
    = Some (mk_datetime 2025 11 13 14 7 59) ∧
  Bank.current_date (PText (Datetime.str (mk_datetime 2025 11 13 14 7 59))) = None.
Proof.
  apply (proj2 (proj2 parse_date_refuses_blank_and_timed_texts)
           (mk_datetime 2025 11 13 14 7 59)).
  reflexivity.
Defined.

End NoDateExample.

(** ** The rows of a batch in the saved ledger *)

Section BatchRows.
Import Datetime Py Sheet.
Local Open Scope nat_scope.
Local Open Scope list_scope.
Context `{Runtime}.

(** The row that the append branch writes is still there when the loop
    is over. *)
Lemma card_appended_row_stays reason oldest st l1 t l2 :
  let st' := Card.write_loop reason oldest st l1 in
  let final := Card.write_loop reason oldest st (l1 ++ t :: l2) in
  Card.trans_tuple t ∉ Card.existing_data st' →
  cell_value (Card.worksheet_ final) (Card.next_row st') ColA
    = PText (strftime_dmY_dot (Card.date t)) ∧
  cell_value (Card.worksheet_ final) (Card.next_row st') ColB
    = PText (Card.merchant t) ∧
  cell_value (Card.worksheet_ final) (Card.next_row st') ColC
    = PNumber (Card.amount t) ∧
  (Card.category t ≠ "" →
   cell_value (Card.worksheet_ final) (Card.next_row st') ColE
     = PText (Card.category t)) ∧
  S (Card.new_transactions_added st') ≤ Card.new_transactions_added final.
Proof.
  intros st' final Hnew.
  assert (Hfinal : final
                   = Card.write_loop reason oldest (Card.write_new oldest st' t) l2).
  { subst final. rewrite write_loop_app, write_loop_cons. fold st'.
    rewrite (write_step_new _ _ _ _ Hnew). reflexivity. }
  assert (Hlt : Card.next_row st' < Card.next_row (Card.write_new oldest st' t))
    by (cbn; lia).
  destruct (write_new_row oldest st' t) as (HA & HB & HC & _).
  pose proof (card_added_write_loop reason oldest l2 (Card.write_new oldest st' t))
    as Hadd.
  cbn [Card.write_new Card.new_transactions_added] in Hadd.
  rewrite Hfinal. repeat apply conj.
  - rewrite (proj1 (worksheet_write_loop_frame reason oldest l2 _ _ ColA Hlt)).
    exact HA.
  - rewrite (proj1 (worksheet_write_loop_frame reason oldest l2 _ _ ColB Hlt)).
    exact HB.
  - rewrite (proj1 (worksheet_write_loop_frame reason oldest l2 _ _ ColC Hlt)).
    exact HC.
  - intros Hcat.
    rewrite (proj1 (worksheet_write_loop_frame reason oldest l2 _ _ ColE Hlt)).
    apply write_new_row_category, Hcat.
  - exact Hadd.
Qed.

(** So is the row that the duplicate branch writes. *)
Lemma card_duplicate_row_stays reason oldest st l1 t l2 :
  let st' := Card.write_loop reason oldest st l1 in
  let final := Card.write_loop reason oldest st (l1 ++ t :: l2) in
  Card.trans_tuple t ∈ Card.existing_data st' →
  Card.duplicate_row_at (Card.duplicate_worksheet final)
    (Card.next_duplicate_row st') t reason.
Proof.
  intros st' final Hin. subst final.
  rewrite write_loop_app, write_loop_cons. fold st'.
  rewrite (write_step_duplicate _ _ _ _ Hin).
  destruct (write_duplicate_row reason st' t) as (HA & HB & HC & HD & HE).
  unfold Card.duplicate_row_at.
  rewrite !duplicate_worksheet_write_loop_frame by (cbn; lia).
  done.
Qed.

Lemma bank_appended_row_stays oldest st l1 t l2 :
  let st' := Bank.write_loop oldest st l1 in
  let final := Bank.write_loop oldest st (l1 ++ t :: l2) in
  Bank.trans_tuple t ∉ Bank.existing_data st' →
  cell_value (Bank.sheet_bcv final) (Bank.next_row st') ColA
    = PText (strftime_dmY_dot (Bank.date t)) ∧
  cell_value (Bank.sheet_bcv final) (Bank.next_row st') ColB
    = PText (Bank.operation t) ∧
  cell_value (Bank.sheet_bcv final) (Bank.next_row st') ColC
    = Bank.amount_cell (Bank.debit t) ∧
  cell_value (Bank.sheet_bcv final) (Bank.next_row st') ColD
    = Bank.amount_cell (Bank.credit t) ∧
  (Bank.category t ≠ "" →
   cell_value (Bank.sheet_bcv final) (Bank.next_row st') ColE
     = PText (Bank.category t)) ∧
  (Bank.sub_category t ≠ "" →
   cell_value (Bank.sheet_bcv final) (Bank.next_row st') ColF
     = PText (Bank.sub_category t)) ∧
  S (Bank.new_transactions_added st') ≤ Bank.new_transactions_added final.
Proof.
  intros st' final Hnew.
  assert (Hfinal : final = Bank.write_loop oldest (Bank.write_new oldest st' t) l2).
  { subst final. rewrite bank_write_loop_app, bank_write_loop_cons. fold st'.
    rewrite (bank_write_step_new _ _ _ Hnew). reflexivity. }
  assert (Hlt : Bank.next_row st' < Bank.next_row (Bank.write_new oldest st' t))
    by (cbn; lia).
  destruct (bank_write_new_row oldest st' t) as (HA & HB & HC & HD & HE & HF).
  pose proof (bank_added_write_loop oldest l2 (Bank.write_new oldest st' t)) as Hadd.
  cbn [Bank.write_new Bank.new_transactions_added] in Hadd.
  rewrite Hfinal. repeat apply conj.
  - rewrite (proj1 (bank_sheet_write_loop_frame oldest l2 _ _ ColA Hlt)). exact HA.
  - rewrite (proj1 (bank_sheet_write_loop_frame oldest l2 _ _ ColB Hlt)). exact HB.
  - rewrite (proj1 (bank_sheet_write_loop_frame oldest l2 _ _ ColC Hlt)). exact HC.
  - rewrite (proj1 (bank_sheet_write_loop_frame oldest l2 _ _ ColD Hlt)). exact HD.
  - intros Hcat.
    rewrite (proj1 (bank_sheet_write_loop_frame oldest l2 _ _ ColE Hlt)). auto.
  - intros Hcat.
    rewrite (proj1 (bank_sheet_write_loop_frame oldest l2 _ _ ColF Hlt)). auto.
  - exact Hadd.
Qed.

(** The ledger rows are numbered from the last dated row on. *)
Lemma card_next_row_from_last_row reason oldest ws dws l :
  Card.next_row (Card.write_loop reason oldest (Card.initial_state ws dws) l)
  = last_row ws + 1
    + Card.new_transactions_added
        (Card.write_loop reason oldest (Card.initial_state ws dws) l).
Proof.
  pose proof (card_write_loop_counts reason oldest l (Card.initial_state ws dws))
    as (_ & Hc & _).
  cbn zeta in Hc. cbn [Card.initial_state Card.next_row Card.new_transactions_added] in Hc.
  lia.
Qed.

Lemma bank_next_row_from_last_row oldest ws l :
  Bank.next_row (Bank.write_loop oldest (Bank.initial_state ws) l)
  = last_row ws + 1
    + Bank.new_transactions_added (Bank.write_loop oldest (Bank.initial_state ws) l).
Proof.
  pose proof (bank_write_loop_counts oldest l (Bank.initial_state ws)) as (_ & Hc).
  cbn zeta in Hc. cbn [Bank.initial_state Bank.next_row Bank.new_transactions_added] in Hc.
  lia.
Qed.

(** What [update_workbook] saves is what the write loop leaves. *)
Lemma update_workbook_saved_ledger sheet_name titles dup_titles reason wb l :
  sheet_name ≠ "Duplicates" →
  let st0 := Card.loop_start sheet_name titles dup_titles wb in
  let oldest := Card.oldest_date (Card.existing_data st0) l in
  sheet_of (Card.saved (Card.update_workbook sheet_name titles dup_titles reason wb l))
    sheet_name
  = Card.worksheet_ (Card.write_loop reason oldest st0 l).
Proof.
  intros Hname st0 oldest. unfold Card.update_workbook, sheet_of. cbn [Card.saved].
  rewrite lookup_insert_ne by congruence. rewrite lookup_insert_eq. reflexivity.
Qed.

(** What [process_bank_statements] saves, when there is a candidate. *)
Lemma process_bank_statements_saved rows wb t l :
  Bank.sort_newest_first (Bank.read_rows wb rows) = t :: l →
  let sheet := get_or_create wb "BCV"
      ["Date"; "Operation"; "Debit"; "Credit"; "Category"; "Sub Category"] in
  let st0 := Bank.initial_state sheet in
  let oldest := Bank.oldest_bank_date (Bank.existing_data st0) (t :: l) in
  let final := Bank.write_loop oldest st0 (t :: l) in
  Bank.process_bank_statements rows wb
  = {| Card.saved := <["BCV" := Bank.sheet_bcv final]> wb;
       Card.added := Bank.new_transactions_added final;
       Card.duplicates := Bank.duplicates_skipped final |}.
Proof.
  intros Hsort. unfold Bank.process_bank_statements.
  destruct (Bank.read_rows wb rows) as [|u us] eqn:Hread; [discriminate Hsort|].
  cbn zeta. rewrite Hsort. reflexivity.
Qed.

End BatchRows.

(** ** Within one batch the first occurrence of a key wins *)

Section FirstOccurrence.
Import Datetime Py Sheet.
Local Open Scope nat_scope.
Local Open Scope list_scope.
Context `{Runtime}.

Lemma bank_new_key_after_loop oldest st l1 t :
  Bank.trans_tuple t ∉ Bank.existing_data st →
  Forall (λ u, Bank.trans_tuple u ≠ Bank.trans_tuple t) l1 →
  Bank.trans_tuple t ∉ Bank.existing_data (Bank.write_loop oldest st l1).
Proof.
  intros Hnew Hl1. rewrite bank_existing_data_write_loop.
  rewrite not_elem_of_union, elem_of_list_to_set, list_elem_of_fmap.
  split; [exact Hnew|]. intros (u & Hu & Hin).
  rewrite Forall_forall in Hl1. exact (Hl1 u Hin (eq_sym Hu)).
Qed.

Lemma card_seen_key_after_loop reason oldest st l1 t1 l2 t2 :
  Card.trans_tuple t1 = Card.trans_tuple t2 →
  Card.trans_tuple t2
  ∈ Card.existing_data (Card.write_loop reason oldest st (l1 ++ t1 :: l2)).
Proof.
  intros Hkey. rewrite existing_data_write_loop, fmap_app, fmap_cons, Hkey.
  set_solver.
Qed.

Lemma bank_seen_key_after_loop oldest st l1 t1 l2 t2 :
  Bank.trans_tuple t1 = Bank.trans_tuple t2 →
  Bank.trans_tuple t2
  ∈ Bank.existing_data (Bank.write_loop oldest st (l1 ++ t1 :: l2)).
Proof.
  intros Hkey. rewrite bank_existing_data_write_loop, fmap_app, fmap_cons, Hkey.
  set_solver.
Qed.

(** The first candidate of a key that is not in the existing-key set is
    a row of the saved ledger, and its turn leaves the duplicates alone. *)
Lemma update_workbook_appends_first_of_key :
  ∀ sheet_name titles dup_titles reason wb l1 t l2,
    sheet_name ≠ "Duplicates" →
    let st0 := Card.loop_start sheet_name titles dup_titles wb in
    let l := l1 ++ t :: l2 in
    let oldest := Card.oldest_date (Card.existing_data st0) l in
    let st' := Card.write_loop reason oldest st0 l1 in
    Card.trans_tuple t ∉ Card.existing_data st0 →
    Forall (λ u, Card.trans_tuple u ≠ Card.trans_tuple t) l1 →
    let out := Card.update_workbook sheet_name titles dup_titles reason wb l in
    let w := sheet_of (Card.saved out) sheet_name in
    let r := last_row (get_or_create wb sheet_name titles) + 1
             + Card.new_transactions_added st' in
    cell_value w r ColA = PText (strftime_dmY_dot (Card.date t)) ∧
    cell_value w r ColB = PText (Card.merchant t) ∧
    cell_value w r ColC = PNumber (Card.amount t) ∧
    (Card.category t ≠ "" → cell_value w r ColE = PText (Card.category t)) ∧
    r ≤ last_row (get_or_create wb sheet_name titles) + Card.added out ∧
    Card.duplicate_worksheet (Card.write_step reason oldest st' t)
      = Card.duplicate_worksheet st' ∧
    Card.duplicates_found (Card.write_step reason oldest st' t)
      = Card.duplicates_found st'.
Proof.
  intros sheet_name titles dup_titles reason wb l1 t l2 Hname st0 l oldest st'
    Hnew Hl1 out w r.
  pose proof (card_new_key_after_loop reason oldest st0 l1 t Hnew Hl1) as Hnot.
  fold st' in Hnot.
  destruct (card_appended_row_stays reason oldest st0 l1 t l2 Hnot)
    as (HA & HB & HC & HE & Hadd).
  fold st' in HA, HB, HC, HE, Hadd. fold l in HA, HB, HC, HE, Hadd.
  assert (Hw : w = Card.worksheet_ (Card.write_loop reason oldest st0 l)).
  { subst w out. apply update_workbook_saved_ledger, Hname. }
  assert (Hr : r = Card.next_row st').
  { subst r st' st0. unfold Card.loop_start.
    rewrite card_next_row_from_last_row. reflexivity. }
  assert (Hout : Card.added out
                 = Card.new_transactions_added (Card.write_loop reason oldest st0 l))
    by reflexivity.
  rewrite Hw, Hr, Hout.
  refine (conj HA (conj HB (conj HC (conj HE (conj _ _))))).
  + rewrite <- Hr. subst r. lia.
  + rewrite (write_step_new _ _ _ _ Hnot). split; reflexivity.
Qed.

Lemma process_bank_statements_appends_first_of_key :
  ∀ rows wb l1 t l2,
    Bank.sort_newest_first (Bank.read_rows wb rows) = l1 ++ t :: l2 →
    let sheet := get_or_create wb "BCV"
        ["Date"; "Operation"; "Debit"; "Credit"; "Category"; "Sub Category"] in
    let st0 := Bank.initial_state sheet in
    let oldest := Bank.oldest_bank_date (Bank.existing_data st0) (l1 ++ t :: l2) in
    let st' := Bank.write_loop oldest st0 l1 in
    Bank.trans_tuple t ∉ Bank.existing_data st0 →
    Forall (λ u, Bank.trans_tuple u ≠ Bank.trans_tuple t) l1 →
    let out := Bank.process_bank_statements rows wb in
    let w := sheet_of (Card.saved out) "BCV" in
    let r := last_row sheet + 1 + Bank.new_transactions_added st' in
    cell_value w r ColA = PText (strftime_dmY_dot (Bank.date t)) ∧
    cell_value w r ColB = PText (Bank.operation t) ∧
    cell_value w r ColC = Bank.amount_cell (Bank.debit t) ∧
    cell_value w r ColD = Bank.amount_cell (Bank.credit t) ∧
    (Bank.category t ≠ "" → cell_value w r ColE = PText (Bank.category t)) ∧
    (Bank.sub_category t ≠ "" →
     cell_value w r ColF = PText (Bank.sub_category t)) ∧
    r ≤ last_row sheet + Card.added out.
Proof.
  intros rows wb l1 t l2 Hsort sheet st0 oldest st' Hnew Hl1 out w r.
  pose proof (bank_new_key_after_loop oldest st0 l1 t Hnew Hl1) as Hnot.
  fold st' in Hnot.
  destruct (bank_appended_row_stays oldest st0 l1 t l2 Hnot)
    as (HA & HB & HC & HD & HE & HF & Hadd).
  fold st' in HA, HB, HC, HD, HE, HF, Hadd.
  assert (Hout : out
                 = {| Card.saved :=
                        <["BCV" := Bank.sheet_bcv
                                     (Bank.write_loop oldest st0 (l1 ++ t :: l2))]> wb;
                      Card.added :=
                        Bank.new_transactions_added
                          (Bank.write_loop oldest st0 (l1 ++ t :: l2));
                      Card.duplicates :=
                        Bank.duplicates_skipped
                          (Bank.write_loop oldest st0 (l1 ++ t :: l2)) |}).
  { subst out. destruct l1 as [|u l1];
      exact (process_bank_statements_saved rows wb _ _ Hsort). }
  assert (Hw : w = Bank.sheet_bcv (Bank.write_loop oldest st0 (l1 ++ t :: l2))).
  { subst w. rewrite Hout. unfold sheet_of. cbn [Card.saved].
    rewrite lookup_insert_eq. reflexivity. }
  assert (Hr : r = Bank.next_row st').
  { subst r st' st0. rewrite bank_next_row_from_last_row. reflexivity. }
  rewrite Hw, Hr, Hout. cbn [Card.added].
  refine (conj HA (conj HB (conj HC (conj HD (conj HE (conj HF _)))))).
  rewrite <- Hr. subst r. lia.
Qed.

(** C4.  In the write loop of the CSV pipelines and in that of the bank
    pipeline: (1) a candidate met after another candidate of the same
    batch with the same key takes the duplicate branch, which leaves the
    ledger and the count of appended rows as they are; (2) a candidate
    whose key is neither in the existing-key set at the start nor carried
    by an earlier candidate of the batch takes the append branch, which
    writes its row at [next_row] and adds its key to the set at once;
    (3) two candidates that are both appended in one run have different
    keys.  In the workbook as saved: (4) the row of such a first
    candidate is in the ledger sheet, at the row [last_row + 1 + k] after
    the [k] rows appended before it, and its turn writes nothing to
    ["Duplicates"]; (5) in the CSV pipelines a later candidate of the
    same key is a row of the sheet ["Duplicates"] and takes no row of the
    ledger, in the bank pipeline it is counted as skipped and takes no
    row; (6) the number of rows appended is the number of distinct keys
    of the batch that are not in the existing-key set at the start: one
    row for each new key.  The CSV pipelines are [update_workbook] on
    their sorted candidates. *)
Theorem first_occurrence_wins :
  (∀ reason oldest st l1 t1 l2 t2,
     Card.trans_tuple t1 = Card.trans_tuple t2 →
     let st' := Card.write_loop reason oldest st (l1 ++ t1 :: l2) in
     Card.write_step reason oldest st' t2 = Card.write_duplicate reason st' t2 ∧
     Card.worksheet_ (Card.write_step reason oldest st' t2) = Card.worksheet_ st' ∧
     Card.new_transactions_added (Card.write_step reason oldest st' t2)
       = Card.new_transactions_added st') ∧
  (∀ reason oldest st l1 t,
     Card.trans_tuple t ∉ Card.existing_data st →
     Forall (λ u, Card.trans_tuple u ≠ Card.trans_tuple t) l1 →
     let st' := Card.write_loop reason oldest st l1 in
     let st'' := Card.write_step reason oldest st' t in
     st'' = Card.write_new oldest st' t ∧
     cell_value (Card.worksheet_ st'') (Card.next_row st') ColA
       = PText (strftime_dmY_dot (Card.date t)) ∧
     cell_value (Card.worksheet_ st'') (Card.next_row st') ColB
       = PText (Card.merchant t) ∧
     cell_value (Card.worksheet_ st'') (Card.next_row st') ColC
       = PNumber (Card.amount t) ∧
     Card.new_transactions_added st'' = S (Card.new_transactions_added st') ∧
     Card.trans_tuple t ∈ Card.existing_data st'') ∧
  (∀ reason oldest st l1 t1 l2 t2,
     Card.trans_tuple t1 ∉ Card.existing_data (Card.write_loop reason oldest st l1) →
     Card.trans_tuple t2
       ∉ Card.existing_data (Card.write_loop reason oldest st (l1 ++ t1 :: l2)) →
     Card.trans_tuple t1 ≠ Card.trans_tuple t2) ∧
  (∀ oldest st l1 t1 l2 t2,
     Bank.trans_tuple t1 = Bank.trans_tuple t2 →
     let st' := Bank.write_loop oldest st (l1 ++ t1 :: l2) in
     Bank.write_step oldest st' t2 = Bank.skip_duplicate st' ∧
     Bank.sheet_bcv (Bank.write_step oldest st' t2) = Bank.sheet_bcv st' ∧
     Bank.new_transactions_added (Bank.write_step oldest st' t2)
       = Bank.new_transactions_added st') ∧
  (∀ oldest st l1 t,
     Bank.trans_tuple t ∉ Bank.existing_data st →
     Forall (λ u, Bank.trans_tuple u ≠ Bank.trans_tuple t) l1 →
     let st' := Bank.write_loop oldest st l1 in
     let st'' := Bank.write_step oldest st' t in
     st'' = Bank.write_new oldest st' t ∧
     Bank.new_transactions_added st'' = S (Bank.new_transactions_added st') ∧
     Bank.trans_tuple t ∈ Bank.existing_data st'') ∧
  (∀ oldest st l1 t1 l2 t2,
     Bank.trans_tuple t1 ∉ Bank.existing_data (Bank.write_loop oldest st l1) →
     Bank.trans_tuple t2
       ∉ Bank.existing_data (Bank.write_loop oldest st (l1 ++ t1 :: l2)) →
     Bank.trans_tuple t1 ≠ Bank.trans_tuple t2) ∧
  (∀ sheet_name titles dup_titles reason wb l1 t l2,
     sheet_name ≠ "Duplicates" →
     let st0 := Card.loop_start sheet_name titles dup_titles wb in
     let l := l1 ++ t :: l2 in
     let oldest := Card.oldest_date (Card.existing_data st0) l in
     let st' := Card.write_loop reason oldest st0 l1 in
     Card.trans_tuple t ∉ Card.existing_data st0 →
     Forall (λ u, Card.trans_tuple u ≠ Card.trans_tuple t) l1 →
     let out := Card.update_workbook sheet_name titles dup_titles reason wb l in
     let w := sheet_of (Card.saved out) sheet_name in
     let r := last_row (get_or_create wb sheet_name titles) + 1
              + Card.new_transactions_added st' in
     cell_value w r ColA = PText (strftime_dmY_dot (Card.date t)) ∧
     cell_value w r ColB = PText (Card.merchant t) ∧
     cell_value w r ColC = PNumber (Card.amount t) ∧
     (Card.category t ≠ "" → cell_value w r ColE = PText (Card.category t)) ∧
     r ≤ last_row (get_or_create wb sheet_name titles) + Card.added out ∧
     Card.duplicate_worksheet (Card.write_step reason oldest st' t)
       = Card.duplicate_worksheet st' ∧
     Card.duplicates_found (Card.write_step reason oldest st' t)
       = Card.duplicates_found st') ∧
  (∀ sheet_name titles dup_titles reason wb l1 t1 l2 t2 l3,
     Card.trans_tuple t1 = Card.trans_tuple t2 →
     let st0 := Card.loop_start sheet_name titles dup_titles wb in
     let l := (l1 ++ t1 :: l2) ++ t2 :: l3 in
     let oldest := Card.oldest_date (Card.existing_data st0) l in
     let st' := Card.write_loop reason oldest st0 (l1 ++ t1 :: l2) in
     let out := Card.update_workbook sheet_name titles dup_titles reason wb l in
     (∃ d, Card.saved out !! "Duplicates" = Some d ∧
           Card.duplicate_row_at d (Card.next_duplicate_row st') t2 reason) ∧
     Card.next_row (Card.write_step reason oldest st' t2) = Card.next_row st' ∧
     Card.duplicates_found (Card.write_step reason oldest st' t2)
       = S (Card.duplicates_found st')) ∧
  (∀ sheet_name titles dup_titles reason wb l,
     Card.added (Card.update_workbook sheet_name titles dup_titles reason wb l)
     = size (list_to_set (Card.trans_tuple <$> l)
               ∖ Card.existing_data (Card.loop_start sheet_name titles dup_titles wb)
             : gset Card.key)) ∧
  (∀ rows wb l1 t l2,
     Bank.sort_newest_first (Bank.read_rows wb rows) = l1 ++ t :: l2 →
     let sheet := get_or_create wb "BCV"
         ["Date"; "Operation"; "Debit"; "Credit"; "Category"; "Sub Category"] in
     let st0 := Bank.initial_state sheet in
     let oldest := Bank.oldest_bank_date (Bank.existing_data st0) (l1 ++ t :: l2) in
     let st' := Bank.write_loop oldest st0 l1 in
     Bank.trans_tuple t ∉ Bank.existing_data st0 →
     Forall (λ u, Bank.trans_tuple u ≠ Bank.trans_tuple t) l1 →
     let out := Bank.process_bank_statements rows wb in
     let w := sheet_of (Card.saved out) "BCV" in
     let r := last_row sheet + 1 + Bank.new_transactions_added st' in
     cell_value w r ColA = PText (strftime_dmY_dot (Bank.date t)) ∧
     cell_value w r ColB = PText (Bank.operation t) ∧
     cell_value w r ColC = Bank.amount_cell (Bank.debit t) ∧
     cell_value w r ColD = Bank.amount_cell (Bank.credit t) ∧
     (Bank.category t ≠ "" → cell_value w r ColE = PText (Bank.category t)) ∧
     (Bank.sub_category t ≠ "" →
      cell_value w r ColF = PText (Bank.sub_category t)) ∧
     r ≤ last_row sheet + Card.added out) ∧
  (∀ oldest st l1 t1 l2 t2,
     Bank.trans_tuple t1 = Bank.trans_tuple t2 →
     let st' := Bank.write_loop oldest st (l1 ++ t1 :: l2) in
     Bank.next_row (Bank.write_step oldest st' t2) = Bank.next_row st' ∧
     Bank.duplicates_skipped (Bank.write_step oldest st' t2)
       = S (Bank.duplicates_skipped st')) ∧
  (∀ rows wb,
     let sheet := get_or_create wb "BCV"
         ["Date"; "Operation"; "Debit"; "Credit"; "Category"; "Sub Category"] in
     Card.added (Bank.process_bank_statements rows wb)
     = size (list_to_set (Bank.trans_tuple <$> Bank.read_rows wb rows)
               ∖ Bank.existing_data (Bank.initial_state sheet)
             : gset Bank.key)) ∧
  (∀ account_files wb,
     mjoin (Account.read_file <$> account_files) ≠ [] →
     Account.process_account_statements account_files wb
     = Card.update_workbook "Revolut"
         ["Date"; "Merchant"; "Amount"; "Category"; "Reason"]
         ["Date"; "Merchant"; "Amount"; "Category"; "Reason"]
         "Duplicate from account statement" wb
         (Card.sort_newest_first (mjoin (Account.read_file <$> account_files)))) ∧
  (∀ rows wb,
     CreditCard.process_transactions rows wb
     = Card.update_workbook "Carte Cred"
         ["Date"; "Merchant"; "Amount"; "Empty"; "Category"]
         ["Date"; "Merchant"; "Amount"; "Empty"; "Category"]
         "Duplicate entry" wb
         (Card.sort_newest_first (CreditCard.read_rows rows))).
Proof.
  repeat apply conj.
  - intros reason oldest st l1 t1 l2 t2 Hkey st'.
    rewrite (write_step_duplicate _ _ _ _
               (card_seen_key_after_loop reason oldest st l1 t1 l2 t2 Hkey)).
    done.
  - intros reason oldest st l1 t Hnew Hl1 st' st''.
    pose proof (card_new_key_after_loop reason oldest st l1 t Hnew Hl1) as Hnot.
    subst st''. rewrite (write_step_new _ _ _ _ Hnot).
    destruct (write_new_row oldest st' t) as (HA & HB & HC & _).
    repeat split; [exact HA | exact HB | exact HC | cbn; set_solver].
  - intros reason oldest st l1 t1 l2 t2 _ Hnot Hkey. apply Hnot.
    apply card_seen_key_after_loop, Hkey.
  - intros oldest st l1 t1 l2 t2 Hkey st'.
    rewrite (bank_write_step_duplicate _ _ _
               (bank_seen_key_after_loop oldest st l1 t1 l2 t2 Hkey)).
    done.
  - intros oldest st l1 t Hnew Hl1 st' st''.
    pose proof (bank_new_key_after_loop oldest st l1 t Hnew Hl1) as Hnot.
    subst st''. rewrite (bank_write_step_new _ _ _ Hnot).
    repeat split. cbn. set_solver.
  - intros oldest st l1 t1 l2 t2 _ Hnot Hkey. apply Hnot.
    apply bank_seen_key_after_loop, Hkey.
  - exact update_workbook_appends_first_of_key.
  - intros sheet_name titles dup_titles reason wb l1 t1 l2 t2 l3 Hkey st0 l oldest
      st' out.
    pose proof (card_seen_key_after_loop reason oldest st0 l1 t1 l2 t2 Hkey) as Hin.
    fold st' in Hin. repeat apply conj.
    + eexists. split; [apply update_workbook_saved_duplicates|].
      exact (card_duplicate_row_stays reason oldest st0 (l1 ++ t1 :: l2) t2 l3 Hin).
    + rewrite (write_step_duplicate _ _ _ _ Hin). reflexivity.
    + rewrite (write_step_duplicate _ _ _ _ Hin). reflexivity.
  - intros sheet_name titles dup_titles reason wb l.
    unfold Card.update_workbook. cbn [Card.added].
    rewrite card_added_distinct_new_keys. reflexivity.
  - exact process_bank_statements_appends_first_of_key.
  - intros oldest st l1 t1 l2 t2 Hkey st'.
    rewrite (bank_write_step_duplicate _ _ _
               (bank_seen_key_after_loop oldest st l1 t1 l2 t2 Hkey)).
    split; reflexivity.
  - intros rows wb sheet. unfold Bank.process_bank_statements.
    destruct (Bank.read_rows wb rows) as [|u us] eqn:Hread.
    + cbn [Card.added fmap list_fmap list_to_set foldr].
      rewrite difference_disjoint_L by set_solver. rewrite size_empty. reflexivity.
    + cbn zeta. cbn [Card.added]. fold sheet.
      rewrite bank_added_distinct_new_keys.
      cbn [Bank.initial_state Bank.new_transactions_added].
      rewrite (bank_sort_newest_first_perm (u :: us)). reflexivity.
  - intros account_files wb Hne. unfold Account.process_account_statements.
    destruct (mjoin (Account.read_file <$> account_files)); [congruence|reflexivity].
  - reflexivity.
Qed.

End FirstOccurrence.

Section FirstOccurrenceExample.
Import Datetime Py Sheet Examples.
Local Open Scope nat_scope.
Local Open Scope list_scope.
Local Existing Instance PlainDecimal.runtime.

Lemma first_occurrence_wins_witness :
  (let titles := ["Date"; "Merchant"; "Amount"; "Category"; "Reason"] in
   let reason := "Duplicate from account statement" in
   let st0 := Card.loop_start "Revolut" titles titles ∅ in
   let l := [] ++ coop_late :: [coop_early] in
   let oldest := Card.oldest_date (Card.existing_data st0) l in
   let st' := Card.write_loop reason oldest st0 [] in
   let out := Card.update_workbook "Revolut" titles titles reason ∅ l in
   let w := sheet_of (Card.saved out) "Revolut" in
   let r := last_row (get_or_create ∅ "Revolut" titles) + 1
            + Card.new_transactions_added st' in
   cell_value w r ColA = PText (strftime_dmY_dot (Card.date coop_late)) ∧
   cell_value w r ColB = PText (Card.merchant coop_late) ∧
   cell_value w r ColC = PNumber (Card.amount coop_late) ∧
   (Card.category coop_late ≠ "" →
    cell_value w r ColE = PText (Card.category coop_late)) ∧
   r ≤ last_row (get_or_create ∅ "Revolut" titles) + Card.added out ∧
   Card.duplicate_worksheet (Card.write_step reason oldest st' coop_late)
     = Card.duplicate_worksheet st' ∧
   Card.duplicates_found (Card.write_step reason oldest st' coop_late)
     = Card.duplicates_found st') ∧
  (let titles := ["Date"; "Merchant"; "Amount"; "Category"; "Reason"] in
   let reason := "Duplicate from account statement" in
   let st0 := Card.loop_start "Revolut" titles titles ∅ in
   let l := ([] ++ coop_late :: []) ++ coop_early :: [] in
   let oldest := Card.oldest_date (Card.existing_data st0) l in
   let st' := Card.write_loop reason oldest st0 ([] ++ coop_late :: []) in
   let out := Card.update_workbook "Revolut" titles titles reason ∅ l in
   (∃ d, Card.saved out !! "Duplicates" = Some d ∧
         Card.duplicate_row_at d (Card.next_duplicate_row st') coop_early reason) ∧
   Card.next_row (Card.write_step reason oldest st' coop_early) = Card.next_row st' ∧
   Card.duplicates_found (Card.write_step reason oldest st' coop_early)
     = S (Card.duplicates_found st')) ∧
  (let sheet := get_or_create ∅ "BCV"
       ["Date"; "Operation"; "Debit"; "Credit"; "Category"; "Sub Category"] in
   let st0 := Bank.initial_state sheet in
   let oldest := Bank.oldest_bank_date (Bank.existing_data st0) ([] ++ duol :: []) in
   let st' := Bank.write_loop oldest st0 [] in
   let out := Bank.process_bank_statements [duol_row] ∅ in
   let w := sheet_of (Card.saved out) "BCV" in
   let r := last_row sheet + 1 + Bank.new_transactions_added st' in
   cell_value w r ColA = PText (strftime_dmY_dot (Bank.date duol)) ∧
   cell_value w r ColB = PText (Bank.operation duol) ∧
   cell_value w r ColC = Bank.amount_cell (Bank.debit duol) ∧
   cell_value w r ColD = Bank.amount_cell (Bank.credit duol) ∧
   (Bank.category duol ≠ "" → cell_value w r ColE = PText (Bank.category duol)) ∧
   (Bank.sub_category duol ≠ "" →
    cell_value w r ColF = PText (Bank.sub_category duol)) ∧
   r ≤ last_row sheet + Card.added out).
Proof.
  destruct first_occurrence_wins
    as (_ & _ & _ & _ & _ & _ & Hfirst & Hlater & _ & Hbank & _).
  refine (conj _ (conj _ _)).
  - apply (Hfirst "Revolut" ["Date"; "Merchant"; "Amount"; "Category"; "Reason"]
             ["Date"; "Merchant"; "Amount"; "Category"; "Reason"]
             "Duplicate from account statement" ∅ [] coop_late [coop_early]).
    + discriminate.
    + apply (bool_decide_unpack _). vm_compute. reflexivity.
    + constructor.
  - apply (Hlater "Revolut" ["Date"; "Merchant"; "Amount"; "Category"; "Reason"]
             ["Date"; "Merchant"; "Amount"; "Category"; "Reason"]
             "Duplicate from account statement" ∅ [] coop_late [] coop_early []).
    reflexivity.
  - apply (Hbank [duol_row] ∅ [] duol []).
    + vm_compute. reflexivity.
    + apply (bool_decide_unpack _). vm_compute. reflexivity.
    + constructor.
Defined.

End FirstOccurrenceExample.

(** ** Which persisted rows enter the existing-key set *)

Section KeylessRows.
Import Datetime Py Sheet.
Local Open Scope nat_scope.
Local Open Scope list_scope.
Context `{Runtime}.

Lemma card_row_key_none ws row :
  Card.row_key ws row = None
  ↔ blank (cell_value ws row ColA) ∨ blank (cell_value ws row ColB) ∨
    blank (cell_value ws row ColC) ∨ Py.float (cell_value ws row ColC) = None.
Proof.
  unfold Card.row_key. rewrite <- !truthy_false_blank.
  destruct (truthy (cell_value ws row ColA)), (truthy (cell_value ws row ColB)),
    (truthy (cell_value ws row ColC));
    cbn [andb]; try (split; [intros _; auto | reflexivity]).
  destruct (Py.float (cell_value ws row ColC)).
  - split; [discriminate | intros [|[|[|]]]; discriminate].
  - split; [auto | reflexivity].
Qed.

Lemma bank_row_key_none ws row :
  Bank.row_key ws row = None
  ↔ blank (cell_value ws row ColA) ∨ blank (cell_value ws row ColB) ∨
    (blank (cell_value ws row ColC) ∧ blank (cell_value ws row ColD)) ∨
    (¬ blank (cell_value ws row ColC) ∧ Py.float (cell_value ws row ColC) = None) ∨
    (¬ blank (cell_value ws row ColD) ∧ Py.float (cell_value ws row ColD) = None).
Proof.
  unfold Bank.row_key. rewrite <- !truthy_true_not_blank, <- !truthy_false_blank.
  destruct (truthy (cell_value ws row ColA)), (truthy (cell_value ws row ColB)),
    (truthy (cell_value ws row ColC)), (truthy (cell_value ws row ColD));
    cbn [andb orb]; try (split; [intros _; auto | reflexivity]);
    destruct (Py.float (cell_value ws row ColC)),
             (Py.float (cell_value ws row ColD));
    (split; [first [discriminate | intros _; auto 10]
            | first [reflexivity
                    | intros [|[|[[]|[[]|[]]]]]; discriminate]]).
Qed.

Lemma card_scan_existing_spec ws last k :
  k ∈ Card.scan_existing ws last
  ↔ ∃ row, 1 ≤ row ≤ last ∧ Card.row_key ws row = Some k.
Proof.
  unfold Card.scan_existing. rewrite elem_of_card_scan.
  setoid_rewrite elem_of_seq_1. split; [intros [Hin|]; [set_solver|done] | auto].
Qed.

Lemma bank_scan_existing_spec ws k :
  k ∈ Bank.scan_existing ws
  ↔ ∃ row, 1 ≤ row ≤ max_row ws ∧ Bank.row_key ws row = Some k.
Proof.
  unfold Bank.scan_existing. rewrite elem_of_bank_scan.
  setoid_rewrite elem_of_seq_1. split; [intros [Hin|]; [set_solver|done] | auto].
Qed.

(** C10, as the code has it.  A persisted row of the CSV ledgers gives
    no key exactly when its date, label or amount cell is empty, [None]
    or the number zero, or its amount is not numeric; an amount cell that
    holds a text which reads as zero is not empty and gives a key.  A row
    of the bank ledger gives no key exactly when its date or its
    operation is empty, when debit and credit are both empty, or when one
    of the two that is filled is not numeric; a row with one amount
    filled gives a key, with the number zero for the empty one.  The
    existing-key set holds exactly the keys of
    the rows that give one.  So a candidate whose key no such row carries,
    and no earlier candidate of the batch, is appended: its row is in the
    saved ledger, at [last_row + 1 + k] after the [k] rows appended
    before it, and nothing is written to ["Duplicates"] for it.  In
    particular a zero-amount candidate of the CSV pipelines is appended
    whatever the ledger holds, as long as the amount cells that read as
    zero are the number zero.  The CSV pipelines are [update_workbook]
    on their sorted candidates. *)
Theorem keyless_rows_are_not_deduplicated :
  (∀ ws row,
     blank (cell_value ws row ColA) ∨ blank (cell_value ws row ColB) ∨
     blank (cell_value ws row ColC) ∨ Py.float (cell_value ws row ColC) = None →
     Card.row_key ws row = None) ∧
  (∀ ws row,
     blank (cell_value ws row ColA) ∨ blank (cell_value ws row ColB) ∨
     (blank (cell_value ws row ColC) ∧ blank (cell_value ws row ColD)) ∨
     (¬ blank (cell_value ws row ColC) ∧ Py.float (cell_value ws row ColC) = None) ∨
     (¬ blank (cell_value ws row ColD) ∧ Py.float (cell_value ws row ColD) = None) →
     Bank.row_key ws row = None) ∧
  (∀ ws last k,
     k ∈ Card.scan_existing ws last
     ↔ ∃ row, 1 ≤ row ≤ last ∧ Card.row_key ws row = Some k) ∧
  (∀ ws k,
     k ∈ Bank.scan_existing ws
     ↔ ∃ row, 1 ≤ row ≤ max_row ws ∧ Bank.row_key ws row = Some k) ∧
  (∀ ws dws reason oldest l1 t,
     (∀ row, 1 ≤ row ≤ last_row ws →
             Card.row_key ws row ≠ Some (Card.trans_tuple t)) →
     Forall (λ u, Card.trans_tuple u ≠ Card.trans_tuple t) l1 →
     let st' := Card.write_loop reason oldest (Card.initial_state ws dws) l1 in
     Card.write_step reason oldest st' t = Card.write_new oldest st' t) ∧
  (∀ ws dws reason oldest l1 t,
     Card.amount t = 0%Qc →
     (∀ row, Py.float (cell_value ws row ColC) = Some (Num 0%Qc) →
             cell_value ws row ColC = PNumber 0%Qc) →
     Forall (λ u, Card.trans_tuple u ≠ Card.trans_tuple t) l1 →
     let st' := Card.write_loop reason oldest (Card.initial_state ws dws) l1 in
     Card.write_step reason oldest st' t = Card.write_new oldest st' t) ∧
  (∀ ws row,
     Card.row_key ws row = None
     ↔ blank (cell_value ws row ColA) ∨ blank (cell_value ws row ColB) ∨
       blank (cell_value ws row ColC) ∨ Py.float (cell_value ws row ColC) = None) ∧
  (∀ ws row,
     Bank.row_key ws row = None
     ↔ blank (cell_value ws row ColA) ∨ blank (cell_value ws row ColB) ∨
       (blank (cell_value ws row ColC) ∧ blank (cell_value ws row ColD)) ∨
       (¬ blank (cell_value ws row ColC)
        ∧ Py.float (cell_value ws row ColC) = None) ∨
       (¬ blank (cell_value ws row ColD)
        ∧ Py.float (cell_value ws row ColD) = None)) ∧
  (∀ sheet_name titles dup_titles reason wb l1 t l2,
     sheet_name ≠ "Duplicates" →
     let ws := get_or_create wb sheet_name titles in
     (∀ row, 1 ≤ row ≤ last_row ws →
             Card.row_key ws row ≠ Some (Card.trans_tuple t)) →
     Forall (λ u, Card.trans_tuple u ≠ Card.trans_tuple t) l1 →
     let st0 := Card.loop_start sheet_name titles dup_titles wb in
     let l := l1 ++ t :: l2 in
     let oldest := Card.oldest_date (Card.existing_data st0) l in
     let st' := Card.write_loop reason oldest st0 l1 in
     let out := Card.update_workbook sheet_name titles dup_titles reason wb l in
     let w := sheet_of (Card.saved out) sheet_name in
     let r := last_row ws + 1 + Card.new_transactions_added st' in
     cell_value w r ColA = PText (strftime_dmY_dot (Card.date t)) ∧
     cell_value w r ColB = PText (Card.merchant t) ∧
     cell_value w r ColC = PNumber (Card.amount t) ∧
     (Card.category t ≠ "" → cell_value w r ColE = PText (Card.category t)) ∧
     r ≤ last_row ws + Card.added out ∧
     Card.duplicate_worksheet (Card.write_step reason oldest st' t)
       = Card.duplicate_worksheet st' ∧
     Card.duplicates_found (Card.write_step reason oldest st' t)
       = Card.duplicates_found st') ∧
  (∀ sheet_name titles dup_titles reason wb l1 t l2,
     sheet_name ≠ "Duplicates" →
     let ws := get_or_create wb sheet_name titles in
     Card.amount t = 0%Qc →
     (∀ row, Py.float (cell_value ws row ColC) = Some (Num 0%Qc) →
             cell_value ws row ColC = PNumber 0%Qc) →
     Forall (λ u, Card.trans_tuple u ≠ Card.trans_tuple t) l1 →
     let st0 := Card.loop_start sheet_name titles dup_titles wb in
     let l := l1 ++ t :: l2 in
     let oldest := Card.oldest_date (Card.existing_data st0) l in
     let st' := Card.write_loop reason oldest st0 l1 in
     let out := Card.update_workbook sheet_name titles dup_titles reason wb l in
     let w := sheet_of (Card.saved out) sheet_name in
     let r := last_row ws + 1 + Card.new_transactions_added st' in
     cell_value w r ColA = PText (strftime_dmY_dot (Card.date t)) ∧
     cell_value w r ColB = PText (Card.merchant t) ∧
     cell_value w r ColC = PNumber (Card.amount t) ∧
     (Card.category t ≠ "" → cell_value w r ColE = PText (Card.category t)) ∧
     r ≤ last_row ws + Card.added out ∧
     Card.duplicate_worksheet (Card.write_step reason oldest st' t)
       = Card.duplicate_worksheet st' ∧
     Card.duplicates_found (Card.write_step reason oldest st' t)
       = Card.duplicates_found st') ∧
  (∀ rows wb l1 t l2,
     Bank.sort_newest_first (Bank.read_rows wb rows) = l1 ++ t :: l2 →
     let sheet := get_or_create wb "BCV"
         ["Date"; "Operation"; "Debit"; "Credit"; "Category"; "Sub Category"] in
     (∀ row, 1 ≤ row ≤ max_row sheet →
             Bank.row_key sheet row ≠ Some (Bank.trans_tuple t)) →
     Forall (λ u, Bank.trans_tuple u ≠ Bank.trans_tuple t) l1 →
     let st0 := Bank.initial_state sheet in
     let oldest := Bank.oldest_bank_date (Bank.existing_data st0) (l1 ++ t :: l2) in
     let st' := Bank.write_loop oldest st0 l1 in
     let out := Bank.process_bank_statements rows wb in
     let w := sheet_of (Card.saved out) "BCV" in
     let r := last_row sheet + 1 + Bank.new_transactions_added st' in
     cell_value w r ColA = PText (strftime_dmY_dot (Bank.date t)) ∧
     cell_value w r ColB = PText (Bank.operation t) ∧
     cell_value w r ColC = Bank.amount_cell (Bank.debit t) ∧
     cell_value w r ColD = Bank.amount_cell (Bank.credit t) ∧
     (Bank.category t ≠ "" → cell_value w r ColE = PText (Bank.category t)) ∧
     (Bank.sub_category t ≠ "" →
      cell_value w r ColF = PText (Bank.sub_category t)) ∧
     r ≤ last_row sheet + Card.added out ∧
     Card.saved out !! "Duplicates" = wb !! "Duplicates") ∧
  (∀ ws row a,
     ¬ blank (cell_value ws row ColA) → ¬ blank (cell_value ws row ColB) →
     ¬ blank (cell_value ws row ColC) →
     Py.float (cell_value ws row ColC) = Some a →
     ∃ d m, Card.row_key ws row = Some (d, m, a)) ∧
  (∀ ws row x,
     ¬ blank (cell_value ws row ColA) → ¬ blank (cell_value ws row ColB) →
     blank (cell_value ws row ColC) → ¬ blank (cell_value ws row ColD) →
     Py.float (cell_value ws row ColD) = Some x →
     ∃ d o, Bank.row_key ws row = Some (d, o, Num 0%Qc, x)) ∧
  (∀ ws row x,
     ¬ blank (cell_value ws row ColA) → ¬ blank (cell_value ws row ColB) →
     ¬ blank (cell_value ws row ColC) → blank (cell_value ws row ColD) →
     Py.float (cell_value ws row ColC) = Some x →
     ∃ d o, Bank.row_key ws row = Some (d, o, x, Num 0%Qc)) ∧
  (∀ account_files wb,
     mjoin (Account.read_file <$> account_files) ≠ [] →
     Account.process_account_statements account_files wb
     = Card.update_workbook "Revolut"
         ["Date"; "Merchant"; "Amount"; "Category"; "Reason"]
         ["Date"; "Merchant"; "Amount"; "Category"; "Reason"]
         "Duplicate from account statement" wb
         (Card.sort_newest_first (mjoin (Account.read_file <$> account_files)))) ∧
  (∀ rows wb,
     CreditCard.process_transactions rows wb
     = Card.update_workbook "Carte Cred"
         ["Date"; "Merchant"; "Amount"; "Empty"; "Category"]
         ["Date"; "Merchant"; "Amount"; "Empty"; "Category"]
         "Duplicate entry" wb
         (Card.sort_newest_first (CreditCard.read_rows rows))).
Proof.
  assert (Hgen : ∀ ws dws reason oldest l1 t,
     (∀ row, 1 ≤ row ≤ last_row ws →
             Card.row_key ws row ≠ Some (Card.trans_tuple t)) →
     Forall (λ u, Card.trans_tuple u ≠ Card.trans_tuple t) l1 →
     let st' := Card.write_loop reason oldest (Card.initial_state ws dws) l1 in
     Card.write_step reason oldest st' t = Card.write_new oldest st' t).
  { intros ws dws reason oldest l1 t Hrows Hl1 st'.
    apply write_step_new, card_new_key_after_loop; [|exact Hl1].
    cbn. rewrite card_scan_existing_spec. intros (row & Hrow & Hk).
    exact (Hrows row Hrow Hk). }
  assert (Hzero_rows : ∀ ws (t : Card.transaction),
     Card.amount t = 0%Qc →
     (∀ row, Py.float (cell_value ws row ColC) = Some (Num 0%Qc) →
             cell_value ws row ColC = PNumber 0%Qc) →
     ∀ row, 1 ≤ row ≤ last_row ws →
            Card.row_key ws row ≠ Some (Card.trans_tuple t)).
  { intros ws t Hamount Hzero row _ Hk. destruct t as [dt m a c].
    cbn in Hamount. subst a. unfold Card.trans_tuple in Hk. cbn in Hk.
    exact (card_row_key_amount ws row _ _ _ (Hzero row) Hk eq_refl). }
  assert (Hsaved : ∀ sheet_name titles dup_titles reason wb l1 t l2,
     sheet_name ≠ "Duplicates" →
     let ws := get_or_create wb sheet_name titles in
     (∀ row, 1 ≤ row ≤ last_row ws →
             Card.row_key ws row ≠ Some (Card.trans_tuple t)) →
     Forall (λ u, Card.trans_tuple u ≠ Card.trans_tuple t) l1 →
     let st0 := Card.loop_start sheet_name titles dup_titles wb in
     let l := l1 ++ t :: l2 in
     let oldest := Card.oldest_date (Card.existing_data st0) l in
     let st' := Card.write_loop reason oldest st0 l1 in
     let out := Card.update_workbook sheet_name titles dup_titles reason wb l in
     let w := sheet_of (Card.saved out) sheet_name in
     let r := last_row ws + 1 + Card.new_transactions_added st' in
     cell_value w r ColA = PText (strftime_dmY_dot (Card.date t)) ∧
     cell_value w r ColB = PText (Card.merchant t) ∧
     cell_value w r ColC = PNumber (Card.amount t) ∧
     (Card.category t ≠ "" → cell_value w r ColE = PText (Card.category t)) ∧
     r ≤ last_row ws + Card.added out ∧
     Card.duplicate_worksheet (Card.write_step reason oldest st' t)
       = Card.duplicate_worksheet st' ∧
     Card.duplicates_found (Card.write_step reason oldest st' t)
       = Card.duplicates_found st').
  { intros sheet_name titles dup_titles reason wb l1 t l2 Hname ws Hrows Hl1.
    apply (update_workbook_appends_first_of_key sheet_name titles dup_titles reason
             wb l1 t l2 Hname); [|exact Hl1].
    unfold Card.loop_start. cbn [Card.initial_state Card.existing_data].
    rewrite card_scan_existing_spec. intros (row & Hrow & Hk).
    exact (Hrows row Hrow Hk). }
  repeat apply conj.
  - intros ws row. apply card_row_key_none.
  - intros ws row. apply bank_row_key_none.
  - exact card_scan_existing_spec.
  - exact bank_scan_existing_spec.
  - exact Hgen.
  - intros ws dws reason oldest l1 t Hamount Hzero Hl1. apply Hgen; [|exact Hl1].
    exact (Hzero_rows ws t Hamount Hzero).
  - exact card_row_key_none.
  - exact bank_row_key_none.
  - exact Hsaved.
  - intros sheet_name titles dup_titles reason wb l1 t l2 Hname ws Hamount Hzero Hl1.
    apply (Hsaved sheet_name titles dup_titles reason wb l1 t l2 Hname); [|exact Hl1].
    exact (Hzero_rows _ t Hamount Hzero).
  - intros rows wb l1 t l2 Hsort sheet Hrows Hl1 st0 oldest st' out w r.
    assert (Hnew : Bank.trans_tuple t ∉ Bank.existing_data st0).
    { subst st0. cbn [Bank.initial_state Bank.existing_data].
      rewrite bank_scan_existing_spec. intros (row & Hrow & Hk).
      exact (Hrows row Hrow Hk). }
    destruct (process_bank_statements_appends_first_of_key rows wb l1 t l2 Hsort
                Hnew Hl1) as (HA & HB & HC & HD & HE & HF & Hr).
    refine (conj HA (conj HB (conj HC (conj HD (conj HE (conj HF (conj Hr _))))))).
    subst out. unfold Bank.process_bank_statements.
    destruct (Bank.read_rows wb rows); [reflexivity|].
    cbn [Card.saved]. apply lookup_insert_ne. discriminate.
  - intros ws row a HA HB HC Hf. unfold Card.row_key.
    apply truthy_true_not_blank in HA, HB, HC. rewrite HA, HB, HC, Hf.
    cbn [andb]. eexists _, _. reflexivity.
  - intros ws row x HA HB HC HD Hf. unfold Bank.row_key.
    apply truthy_true_not_blank in HA, HB, HD. apply truthy_false_blank in HC.
    rewrite HA, HB, HC, HD, Hf. cbn [andb orb]. eexists _, _. reflexivity.
  - intros ws row x HA HB HC HD Hf. unfold Bank.row_key.
    apply truthy_true_not_blank in HA, HB, HC. apply truthy_false_blank in HD.
    rewrite HA, HB, HC, HD, Hf. cbn [andb orb]. eexists _, _. reflexivity.
  - intros account_files wb Hne. unfold Account.process_account_statements.
    destruct (mjoin (Account.read_file <$> account_files)); [congruence|reflexivity].
  - reflexivity.
Qed.

End KeylessRows.

Section KeylessRowsExamples.
Import Datetime Py Sheet Examples.
Local Open Scope nat_scope.
Local Open Scope list_scope.
Local Existing Instance PlainDecimal.runtime.

Lemma keyless_rows_are_not_deduplicated_witness :
  Card.row_key revolut_with_free_sample 2 = None ∧
  (let titles := ["Date"; "Merchant"; "Amount"; "Category"; "Reason"] in
   let reason := "Duplicate from account statement" in
   let ws := get_or_create workbook_with_revolut "Revolut" titles in
   let st0 := Card.loop_start "Revolut" titles titles workbook_with_revolut in
   let l := [] ++ free_sample :: [] in
   let oldest := Card.oldest_date (Card.existing_data st0) l in
   let st' := Card.write_loop reason oldest st0 [] in
   let out := Card.update_workbook "Revolut" titles titles reason
                workbook_with_revolut l in
   let w := sheet_of (Card.saved out) "Revolut" in
   let r := last_row ws + 1 + Card.new_transactions_added st' in
   cell_value w r ColA = PText (strftime_dmY_dot (Card.date free_sample)) ∧
   cell_value w r ColB = PText (Card.merchant free_sample) ∧
   cell_value w r ColC = PNumber (Card.amount free_sample) ∧
   (Card.category free_sample ≠ "" →
    cell_value w r ColE = PText (Card.category free_sample)) ∧
   r ≤ last_row ws + Card.added out ∧
   Card.duplicate_worksheet (Card.write_step reason oldest st' free_sample)
     = Card.duplicate_worksheet st' ∧
   Card.duplicates_found (Card.write_step reason oldest st' free_sample)
     = Card.duplicates_found st').
Proof.
  destruct keyless_rows_are_not_deduplicated
    as (Hcard & _ & _ & _ & _ & _ & _ & _ & _ & Hzero & _).
  split.
  - apply (Hcard revolut_with_free_sample 2). right; right; left.
    right; right. reflexivity.
  - apply (Hzero "Revolut" ["Date"; "Merchant"; "Amount"; "Category"; "Reason"]
             ["Date"; "Merchant"; "Amount"; "Category"; "Reason"]
             "Duplicate from account statement" workbook_with_revolut
             [] free_sample []).
    + discriminate.
    + reflexivity.
    + intros row.
      assert (Hws : get_or_create workbook_with_revolut "Revolut"
                      ["Date"; "Merchant"; "Amount"; "Category"; "Reason"]
                    = revolut_with_free_sample).
      { unfold get_or_create, workbook_with_revolut.
        rewrite lookup_singleton_eq. reflexivity. }
      rewrite Hws. unfold revolut_with_free_sample, new_sheet. cbn [header_from].
      read_cell; intros Hf;
        first [reflexivity | vm_compute in Hf; discriminate Hf].
    + constructor.
Defined.

(** C10 as stated fails where an amount cell is no number.  A row of a
    CSV ledger whose amount cell holds the text ["0"] reads as zero and
    gives a key, so that the zero-amount candidate of the same day and
    shop is routed to ["Duplicates"] and not appended; and a row of the
    bank ledger whose credit cell is empty gives a key all the same, so
    that the candidate that it stands for is skipped. *)
Lemma keyless_rows_zero_text_counterexample :
  cell_value revolut_with_zero_text 2 ColC = PText "0" ∧
  truthy (cell_value revolut_with_zero_text 2 ColC) = true ∧
  Py.float (cell_value revolut_with_zero_text 2 ColC) = Some (Num 0%Qc) ∧
  Card.amount free_sample = 0%Qc ∧
  Card.row_key revolut_with_zero_text 2 = Some (Card.trans_tuple free_sample) ∧
  (let out := Card.update_workbook "Revolut"
                ["Date"; "Merchant"; "Amount"; "Category"; "Reason"]
                ["Date"; "Merchant"; "Amount"; "Category"; "Reason"]
                "Duplicate from account statement"
                {[ "Revolut" := revolut_with_zero_text ]} [free_sample] in
   Card.added out = 0 ∧ Card.duplicates out = 1 ∧
   cell_value (sheet_of (Card.saved out) "Revolut") 3 ColA = PNone ∧
   cell_value (sheet_of (Card.saved out) "Duplicates") 2 ColB = PText "Manor") ∧
  cell_value bcv_with_duol 2 ColD = PNone ∧
  Bank.row_key bcv_with_duol 2 = Some (Bank.trans_tuple duol) ∧
  (let out := Bank.process_bank_statements [duol_row] workbook_with_duol in
   Card.added out = 0 ∧ Card.duplicates out = 1).
Proof.
  cbv zeta. repeat apply conj; vm_compute; reflexivity.
Qed.

End KeylessRowsExamples.

(** ** Rows of [transactions.csv] without an amount *)

Section MissingAmount.
Import Datetime Py Sheet.
Local Open Scope nat_scope.
Local Open Scope list_scope.
Context `{Runtime}.

(** A row whose amount is missing is kept: its candidate has a nan for
    its amount, the nan object of that row. *)
Lemma read_row_missing_amount i row d :
  parse_date (CreditCard.col_Booking_date row) = Some d →
  isna (CreditCard.col_Amount_CHF row) = true →
  ∃ t, CreditCard.read_row i row = Some t ∧ Card.date t = d ∧ Card.amount t = NaN i.
Proof.
  intros Hd Hna. unfold CreditCard.read_row, float_of_field. rewrite Hd, Hna.
  destruct (Categorizer.clean_merchant_and_categorize _) as [m c].
  destruct (PyStr.contains "Credit" (Py.str (CreditCard.col_Type row)));
    eexists; split; reflexivity || (split; reflexivity).
Qed.

End MissingAmount.

Section MissingAmountExample.
Import Datetime Py Sheet Examples.
Local Open Scope nat_scope.
Local Open Scope list_scope.
Local Existing Instance PlainDecimal.runtime.

(** Two rows without an amount, of the same day and shop, are two
    candidates and two rows of the ledger: a nan is no duplicate of
    another nan. *)
Lemma missing_amounts_are_appended :
  let out := CreditCard.process_transactions [no_amount_row; no_amount_row] ∅ in
  (Card.amount <$> CreditCard.read_rows [no_amount_row; no_amount_row])
    = [NaN 0; NaN 1] ∧
  Card.added out = 2 ∧ Card.duplicates out = 0 ∧
  cell_value (sheet_of (Card.saved out) "Carte Cred") 2 ColB = PText "Migros" ∧
  cell_value (sheet_of (Card.saved out) "Carte Cred") 2 ColC = PNumber (NaN 0) ∧
  cell_value (sheet_of (Card.saved out) "Carte Cred") 3 ColB = PText "Migros" ∧
  cell_value (sheet_of (Card.saved out) "Carte Cred") 3 ColC = PNumber (NaN 1).
Proof. cbv zeta. repeat apply conj; vm_compute; reflexivity. Qed.

End MissingAmountExample.
